(** * WebRTC debugger: candidate parsing, failure analysis and reports

    A shallow embedding of the diagnostic core of [src/app/page.tsx]:
    [parseICECandidate], [analyzeConnectionFailure],
    [getNetworkTopologyInsight], [logCandidateSummary],
    [logCandidateFailures], [logSuccessfulConnection] and the session
    operations [initializeWebRTC], [createOffer], [handleRemoteOffer],
    [handleRemoteAnswer], [reset] together with the [onicecandidate]
    handler.

    Conventions.
    - A JavaScript string is a [string]; the literals of the source are
      kept byte for byte (UTF-8).  Case mapping is that of the ASCII
      letters, and the white space that [parseInt] skips is the ASCII
      one; [trim] knows every white space character of ECMAScript.
    - A JavaScript number that the code only uses as an integer (packet
      counters, ports, priorities) is a [Z]; a fractional one (time
      stamps, round-trip times, bit rates) is a [Q]; a statistics field
      that may be missing is an [option].  A [Z] stands for the number
      exactly as long as it is a safe integer (below 2^53 in absolute
      value); statements that depend on the value read by [parseInt]
      say so.
    - A JavaScript [Map] is an insertion-ordered association list
      ([JsMap]): [forEach] visits the keys in the order of their first
      insertion, and [set] on a present key keeps its position. *)

From Stdlib Require Import ZArith QArith Qround Qabs String Ascii List Bool Lia.
From Stdlib Require Import DecimalString Permutation.
From Stdlib Require Import DecimalPos.
Import ListNotations.

Close Scope Q_scope.
Open Scope string_scope.
Open Scope Z_scope.

(** ** JavaScript primitives used by the page *)

Module JS.

(** [`${n}`] for an integral number. *)
Definition numToString (z : Z) : string :=
  NilZero.string_of_int (Z.to_int z).

(** [x || d] on a number that may be missing: [undefined] and [0] are
    both falsy. *)
Definition numOr (x : option Z) (d : Z) : Z :=
  match x with
  | Some v => if v =? 0 then d else v
  | None => d
  end.

(** Truthiness of a number that may be missing. *)
Definition truthyNum (x : option Z) : bool :=
  match x with
  | Some v => negb (v =? 0)
  | None => false
  end.

(** [s || d] on strings: the empty string is falsy. *)
Definition strOr (s d : string) : string :=
  match s with
  | EmptyString => d
  | _ => s
  end.

(** [s || d] where [s] may be [null] or [undefined]. *)
Definition optStrOr (s : option string) (d : string) : string :=
  match s with
  | Some v => strOr v d
  | None => d
  end.

(** [`${s}`] of a string-valued property that may be [undefined]. *)
Definition optStrShow (s : option string) : string :=
  match s with
  | Some v => v
  | None => "undefined"
  end.

Definition isUpper (c : ascii) : bool :=
  let n := nat_of_ascii c in (Nat.leb 65 n && Nat.leb n 90)%bool.

Definition isLower (c : ascii) : bool :=
  let n := nat_of_ascii c in (Nat.leb 97 n && Nat.leb n 122)%bool.

Definition lowerChar (c : ascii) : ascii :=
  if isUpper c then ascii_of_nat (nat_of_ascii c + 32) else c.

Definition upperChar (c : ascii) : ascii :=
  if isLower c then ascii_of_nat (nat_of_ascii c - 32) else c.

Fixpoint mapString (f : ascii -> ascii) (s : string) : string :=
  match s with
  | EmptyString => EmptyString
  | String c r => String (f c) (mapString f r)
  end.

(** [s.toLowerCase()] and [s.toUpperCase()], exact on ASCII texts: the
    letters A to Z and a to z are mapped, every other byte is kept. *)
Definition toLowerCase : string -> string := mapString lowerChar.
Definition toUpperCase : string -> string := mapString upperChar.

(** [s.split(' ')]: the result always has at least one part. *)
Fixpoint split (s : string) : list string :=
  match s with
  | EmptyString => [EmptyString]
  | String c r =>
      if Ascii.eqb c " "%char then EmptyString :: split r
      else match split r with
           | p :: ps => String c p :: ps
           | [] => [String c EmptyString]
           end
  end.

(** [parts[i]], [undefined] past the end. *)
Definition at_ (parts : list string) (i : nat) : option string :=
  nth_error parts i.

Definition isWhite (c : ascii) : bool :=
  let n := nat_of_ascii c in
  (Nat.leb 9 n && Nat.leb n 13 || Nat.eqb n 32)%bool.

Fixpoint trimStart (s : string) : string :=
  match s with
  | String c r => if isWhite c then trimStart r else s
  | EmptyString => EmptyString
  end.

(** The value of a character as a digit, in any radix up to 16. *)
Definition digitVal (c : ascii) : option Z :=
  let n := nat_of_ascii c in
  if (Nat.leb 48 n && Nat.leb n 57)%bool then Some (Z.of_nat (n - 48))
  else if (Nat.leb 97 n && Nat.leb n 102)%bool then Some (Z.of_nat (n - 87))
  else if (Nat.leb 65 n && Nat.leb n 70)%bool then Some (Z.of_nat (n - 55))
  else None.

(** The longest prefix of [s] made of digits of [radix], read with
    [acc] as the digits already seen; [seen] tells whether there was
    at least one. *)
Fixpoint digits (radix : Z) (seen : bool) (acc : Z) (s : string) : option Z :=
  match s with
  | String c r =>
      match digitVal c with
      | Some d =>
          if d <? radix then digits radix true (acc * radix + d) r
          else if seen then Some acc else None
      | None => if seen then Some acc else None
      end
  | EmptyString => if seen then Some acc else None
  end.

(** After the sign: a [0x] or [0X] prefix selects radix 16. *)
Definition unsignedInt (s : string) : option Z :=
  match s with
  | String "0" (String "x" r) => digits 16 false 0 r
  | String "0" (String "X" r) => digits 16 false 0 r
  | _ => digits 10 false 0 s
  end.

(** [parseInt(s)] without a radix; [None] is [NaN].  The value is the
    integer that the digits write, which is the number JavaScript
    returns as long as it is a safe integer. *)
Definition parseInt (s : string) : option Z :=
  match trimStart s with
  | String "-" r => option_map Z.opp (unsignedInt r)
  | String "+" r => unsignedInt r
  | t => unsignedInt t
  end.

(** [parseInt(parts[i])]: [undefined] reads as the text "undefined",
    which is [NaN]. *)
Definition parseIntAt (parts : list string) (i : nat) : option Z :=
  match at_ parts i with
  | Some s => parseInt s
  | None => None
  end.

End JS.

(** ** Data model *)

(** The browser's [RTCIceCandidate], as far as the page reads it. *)
Module RTCIceCandidate.
Record t := mk {
  candidate : string;
  type : option string;
  foundation : option string
}.
End RTCIceCandidate.

(** [interface ICECandidateInfo]. *)
Module ICECandidateInfo.
Record t := mk {
  candidate : string;
  type : string;
  protocol : string;
  address : string;
  port : Z;
  priority : Z;
  foundation : string
}.
End ICECandidateInfo.

(** ** [parseICECandidate]

    The body is wrapped in [try { ... } catch { return null }]; on an
    [RTCIceCandidate] no operation of the body throws, and the handler
    yields the same [null] as the short-descriptor exit. *)

Definition parseICECandidate (candidate : RTCIceCandidate.t)
  : option ICECandidateInfo.t :=
  let parts := JS.split (RTCIceCandidate.candidate candidate) in
  if (length parts <? 6)%nat then None
  else Some {|
    ICECandidateInfo.candidate := RTCIceCandidate.candidate candidate;
    ICECandidateInfo.type :=
      JS.optStrOr (RTCIceCandidate.type candidate) "unknown";
    ICECandidateInfo.protocol :=
      JS.optStrOr (option_map JS.toLowerCase (JS.at_ parts 2)) "unknown";
    ICECandidateInfo.address := JS.optStrOr (JS.at_ parts 4) "unknown";
    ICECandidateInfo.port := JS.numOr (JS.parseIntAt parts 5) 0;
    ICECandidateInfo.priority := JS.numOr (JS.parseIntAt parts 3) 0;
    ICECandidateInfo.foundation := JS.optStrOr (JS.at_ parts 0) "unknown"
  |}.

(** ** Statistics records

    [getStats()] yields a collection of reports.  The counters of a
    candidate-pair report are integers; its time stamps, round-trip
    times and bit rate are fractional numbers, read here as exact
    rationals (the rounding of binary floating point is not modelled). *)

Module JSQ.

(** Truthiness of a fractional number that may be missing. *)
Definition truthy (x : option Q) : bool :=
  match x with
  | Some v => negb (Qeq_bool v 0)
  | None => false
  end.

(** [a > b]. *)
Definition gtb (a b : Q) : bool := negb (Qle_bool a b).

(** [Math.round]: the nearest integer, halves going up. *)
Definition round (x : Q) : Z := Qfloor (x + (1 # 2)).

End JSQ.

(** A [local-candidate] or [remote-candidate] report. *)
Module CandidateStats.
Record t := mk {
  candidateType : string;
  address : option string;
  port : option Z;
  protocol : option string
}.
End CandidateStats.

(** A [candidate-pair] report. *)
Module PairStats.
Record t := mk {
  localCandidateId : string;
  remoteCandidateId : string;
  state : string;
  nominated : option bool;
  priority : option Z;
  requestsSent : option Z;
  requestsReceived : option Z;
  responsesSent : option Z;
  responsesReceived : option Z;
  lastPacketSentTimestamp : option Q;
  lastPacketReceivedTimestamp : option Q;
  totalRoundTripTime : option Q;
  currentRoundTripTime : option Q;
  availableOutgoingBitrate : option Q
}.
End PairStats.

Inductive Report :=
| CandidatePair (pair : PairStats.t)
| LocalCandidate (id : string) (c : CandidateStats.t)
| RemoteCandidate (id : string) (c : CandidateStats.t)
| OtherReport.

(** The object built by [analyzeConnectionFailure]. *)
Module Analysis.
Record t := mk {
  reason : string;
  details : string;
  suggestions : list string
}.
End Analysis.

(** [a !== b] on protocols that may be [undefined]. *)
Definition protocolDiffers (a b : option string) : bool :=
  match a, b with
  | Some x, Some y => negb (String.eqb x y)
  | None, None => false
  | _, _ => true
  end.

(** ** [getNetworkTopologyInsight] and [getCandidateTypeDescription] *)

Definition getNetworkTopologyInsight
  (localCandidate remoteCandidate : CandidateStats.t) : string :=
  let localType := CandidateStats.candidateType localCandidate in
  let remoteType := CandidateStats.candidateType remoteCandidate in
  if (String.eqb localType "host" && String.eqb remoteType "host")%bool then
    "Direct peer-to-peer attempt - both peers must be on same network or have public IPs"
  else if (String.eqb localType "host" && String.eqb remoteType "srflx")%bool then
    "Local is direct, remote is behind NAT - remote may not accept incoming connections"
  else if (String.eqb localType "srflx" && String.eqb remoteType "srflx")%bool then
    "Both peers behind NAT - may need TURN relay if NAT types are incompatible"
  else if (String.eqb localType "relay" || String.eqb remoteType "relay")%bool then
    "Using TURN relay - should work unless TURN server is misconfigured"
  else if (String.eqb localType "prflx" || String.eqb remoteType "prflx")%bool then
    "Peer-reflexive discovery - connection path found during connectivity checks"
  else "".

(** The table is an object literal with the four keys below. *)
Definition getCandidateTypeDescription (type : string) : string :=
  if String.eqb type "host" then "Direct connection (same network)"
  else if String.eqb type "srflx" then "Server reflexive (through NAT/firewall)"
  else if String.eqb type "prflx" then "Peer reflexive (discovered during connectivity)"
  else if String.eqb type "relay" then "Relayed (through TURN server)"
  else "Unknown type (" ++ type ++ ")".

(** ** [analyzeConnectionFailure] *)

(** The suggestions of the second rule, by candidate type. *)
Definition noResponseSuggestions
  (localCandidate remoteCandidate : CandidateStats.t) : list string :=
  let lt := CandidateStats.candidateType localCandidate in
  let rt := CandidateStats.candidateType remoteCandidate in
  if (String.eqb lt "relay" || String.eqb rt "relay")%bool then
    [ "TURN server may be unreachable or credentials invalid";
      "Check TURN server configuration and network connectivity" ]
  else if (String.eqb lt "srflx" || String.eqb rt "srflx")%bool then
    [ "NAT/Firewall may be blocking incoming connections";
      "STUN server may have provided incorrect reflexive address" ]
  else if (String.eqb lt "host" && String.eqb rt "host")%bool then
    [ "Direct connection blocked - peers may be on different networks";
      "Firewall or network policy preventing direct communication" ]
  else [].

(** The [if / else if] chain on the packet counters. *)
Definition classifyPackets
  (pair : PairStats.t) (localCandidate remoteCandidate : CandidateStats.t)
  : Analysis.t :=
  let sentPackets := JS.numOr (PairStats.requestsSent pair) 0 in
  let receivedPackets := JS.numOr (PairStats.requestsReceived pair) 0 in
  let sentResponses := JS.numOr (PairStats.responsesSent pair) 0 in
  let receivedResponses := JS.numOr (PairStats.responsesReceived pair) 0 in
  if ((sentPackets =? 0) && (receivedPackets =? 0))%bool then
    {| Analysis.reason :=
         "No communication attempted - candidate pair was not selected for testing";
       Analysis.details :=
         "This path was deprioritized or testing was stopped early";
       Analysis.suggestions := [] |}
  else if ((sentPackets >? 0) && (receivedPackets =? 0))%bool then
    {| Analysis.reason := "Outbound packets sent but no response received";
       Analysis.details :=
         "Sent " ++ JS.numToString sentPackets ++ " requests, received 0 responses";
       Analysis.suggestions :=
         noResponseSuggestions localCandidate remoteCandidate |}
  else if ((sentPackets >? 0) && (receivedPackets >? 0)
           && (receivedResponses =? 0))%bool then
    {| Analysis.reason :=
         "Partial communication - requests received but responses not getting back";
       Analysis.details :=
         "Sent " ++ JS.numToString sentPackets ++ " requests, received "
         ++ JS.numToString receivedPackets
         ++ " requests, but no responses returned";
       Analysis.suggestions :=
         [ "Asymmetric routing issue - return path may be blocked";
           "Remote peer may have connectivity issues" ] |}
  else if ((receivedResponses >? 0) && (sentResponses =? 0))%bool then
    {| Analysis.reason :=
         "Response delivery failure - unable to send responses back";
       Analysis.details :=
         "Received " ++ JS.numToString receivedResponses
         ++ " responses but couldn't send any back";
       Analysis.suggestions :=
         [ "Local network may be blocking outbound responses" ] |}
  else
    {| Analysis.reason := "Communication timeout or authentication failure";
       Analysis.details :=
         "Sent: " ++ JS.numToString sentPackets ++ " requests, "
         ++ JS.numToString sentResponses ++ " responses | Received: "
         ++ JS.numToString receivedPackets ++ " requests, "
         ++ JS.numToString receivedResponses ++ " responses";
       Analysis.suggestions := [] |}.

(** The protocol comparison: one more suggestion when they differ. *)
Definition protocolSuggestion
  (localCandidate remoteCandidate : CandidateStats.t) : list string :=
  if protocolDiffers (CandidateStats.protocol localCandidate)
                     (CandidateStats.protocol remoteCandidate)
  then [ "Protocol mismatch: "
         ++ JS.optStrShow (CandidateStats.protocol localCandidate) ++ " vs "
         ++ JS.optStrShow (CandidateStats.protocol remoteCandidate) ]
  else [].

(** The timing analysis: the text appended to [details]. *)
Definition timingNote (pair : PairStats.t) : string :=
  if (JSQ.truthy (PairStats.lastPacketSentTimestamp pair)
      && JSQ.truthy (PairStats.lastPacketReceivedTimestamp pair))%bool then
    match PairStats.lastPacketReceivedTimestamp pair,
          PairStats.lastPacketSentTimestamp pair with
    | Some received, Some sent =>
        let timeDiff := (received - sent)%Q in
        if JSQ.gtb timeDiff 5000 then
          " | Large time gap ("
          ++ JS.numToString (JSQ.round (timeDiff / 1000)%Q)
          ++ "s) suggests network instability"
        else ""
    | _, _ => ""
    end
  else "".

(** The topology insight: pushed when it is not the empty string. *)
Definition topologySuggestion
  (localCandidate remoteCandidate : CandidateStats.t) : list string :=
  match getNetworkTopologyInsight localCandidate remoteCandidate with
  | EmptyString => []
  | networkInsight => [networkInsight]
  end.

Definition analyzeConnectionFailure
  (pair : PairStats.t) (localCandidate remoteCandidate : CandidateStats.t)
  : Analysis.t :=
  let analysis := classifyPackets pair localCandidate remoteCandidate in
  {| Analysis.reason := Analysis.reason analysis;
     Analysis.details := Analysis.details analysis ++ timingNote pair;
     Analysis.suggestions :=
       Analysis.suggestions analysis
       ++ protocolSuggestion localCandidate remoteCandidate
       ++ topologySuggestion localCandidate remoteCandidate |}.

(** ** Messages

    [addMessage(text, type)] appends to the message log; the wall-clock
    time stamp it attaches is left out. *)

Inductive MessageType := sent | received | system | error | ice_debug.

Module Message.
Record t := mk { text : string; type : MessageType }.
End Message.

Definition sys (text : string) : Message.t := Message.mk text system.
Definition err (text : string) : Message.t := Message.mk text error.
Definition dbg (text : string) : Message.t := Message.mk text ice_debug.

(** ** JavaScript [Map]

    Keys are compared with [SameValueZero], which on strings and [null]
    is equality. *)

Class KeyEq (K : Type) := {
  keyb : K -> K -> bool;
  keyb_spec : forall a b, keyb a b = true <-> a = b
}.

Definition optStrEqb (a b : option string) : bool :=
  match a, b with
  | Some x, Some y => String.eqb x y
  | None, None => true
  | _, _ => false
  end.

Lemma optStrEqb_spec (a b : option string) : optStrEqb a b = true <-> a = b.
Proof.
  destruct a as [x|], b as [y|]; simpl; try (split; congruence).
  rewrite String.eqb_eq. split; congruence.
Qed.

#[export] Instance string_KeyEq : KeyEq string :=
  {| keyb := String.eqb; keyb_spec := String.eqb_eq |}.

#[export] Instance optString_KeyEq : KeyEq (option string) :=
  {| keyb := optStrEqb; keyb_spec := optStrEqb_spec |}.

Module JsMap.
Section Ops.
Context {K V : Type} `{KeyEq K}.

Definition t := list (K * V).

(** [new Map()] and the content after [clear()]. *)
Definition empty : t := [].

(** [m.set(k, v)]: a present key keeps its place, a new one goes
    last. *)
Fixpoint set (k : K) (v : V) (m : t) : t :=
  match m with
  | [] => [(k, v)]
  | (k', v') :: r =>
      if keyb k k' then (k, v) :: r else (k', v') :: set k v r
  end.

(** [m.get(k)], [None] for [undefined]. *)
Fixpoint get (k : K) (m : t) : option V :=
  match m with
  | [] => None
  | (k', v') :: r => if keyb k k' then Some v' else get k r
  end.

(** [m.size]. *)
Definition size (m : t) : Z := Z.of_nat (length m).

(** The keys, in the order [forEach] visits them. *)
Definition keys (m : t) : list K := map fst m.

(** The values, in the order [forEach] visits them. *)
Definition values (m : t) : list V := map snd m.
End Ops.
Arguments t : clear implicits.
End JsMap.

(** ** [logCandidateSummary] *)

(** The map [candidateTypes] after the first [forEach]. *)
Definition candidateTypes
  (localCandidates : JsMap.t (option string) ICECandidateInfo.t)
  : JsMap.t string Z :=
  fold_left
    (fun acc candidate =>
       let count := JS.numOr (JsMap.get (ICECandidateInfo.type candidate) acc) 0 in
       JsMap.set (ICECandidateInfo.type candidate) (count + 1) acc)
    (JsMap.values localCandidates) JsMap.empty.

Definition logCandidateSummary
  (localCandidates : JsMap.t (option string) ICECandidateInfo.t)
  : list Message.t :=
  dbg "📊 Local candidate summary:"
  :: map (fun '(type, count) =>
            let typeDesc := getCandidateTypeDescription type in
            dbg ("   • " ++ JS.numToString count ++ "x " ++ type ++ " - " ++ typeDesc))
         (candidateTypes localCandidates).

(** ** Reading a statistics snapshot *)

Definition candidatePairStats (stats : list Report) : list PairStats.t :=
  flat_map (fun report =>
              match report with CandidatePair p => [p] | _ => [] end) stats.

Definition localCandidateStats (stats : list Report)
  : JsMap.t string CandidateStats.t :=
  fold_left (fun acc report =>
               match report with
               | LocalCandidate id c => JsMap.set id c acc
               | _ => acc
               end) stats JsMap.empty.

Definition remoteCandidateStats (stats : list Report)
  : JsMap.t string CandidateStats.t :=
  fold_left (fun acc report =>
               match report with
               | RemoteCandidate id c => JsMap.set id c acc
               | _ => acc
               end) stats JsMap.empty.

Definition stateIs (s : string) (pair : PairStats.t) : bool :=
  String.eqb (PairStats.state pair) s.

(** Truthiness of [pair.nominated]. *)
Definition isNominated (pair : PairStats.t) : bool :=
  match PairStats.nominated pair with
  | Some b => b
  | None => false
  end.

Definition optNumShow (x : option Z) : string :=
  match x with
  | Some v => JS.numToString v
  | None => "undefined"
  end.

(** [`${c.candidateType} ${c.address}:${c.port} (${c.protocol})`]. *)
Definition candidateInfoText (c : CandidateStats.t) : string :=
  CandidateStats.candidateType c ++ " "
  ++ JS.optStrShow (CandidateStats.address c) ++ ":"
  ++ optNumShow (CandidateStats.port c)
  ++ " (" ++ JS.optStrShow (CandidateStats.protocol c) ++ ")".

Definition lengthText {A : Type} (l : list A) : string :=
  JS.numToString (Z.of_nat (length l)).

(** [l.forEach((x, index) => ...)], collecting the messages. *)
Definition forEachIndexed {A : Type} (f : A -> nat -> list Message.t)
  (l : list A) : list Message.t :=
  flat_map (fun '(index, x) => f x index) (combine (seq 0 (length l)) l).

(** ** [logCandidateFailures] *)

(** The body of the [forEach] over the succeeded pairs. *)
Definition succeededLines
  (locals remotes : JsMap.t string CandidateStats.t) (pair : PairStats.t)
  : list Message.t :=
  match JsMap.get (PairStats.localCandidateId pair) locals,
        JsMap.get (PairStats.remoteCandidateId pair) remotes with
  | Some localCandidate, Some remoteCandidate =>
      let localInfo := candidateInfoText localCandidate in
      let remoteInfo := candidateInfoText remoteCandidate in
      let nominated := if isNominated pair then " [NOMINATED]" else "" in
      [ dbg ("   ✅ " ++ localInfo ++ " ↔ " ++ remoteInfo ++ nominated) ]
  | _, _ => []
  end.

(** The body of the [forEach] over the failed pairs. *)
Definition failedLines
  (locals remotes : JsMap.t string CandidateStats.t) (pair : PairStats.t)
  : list Message.t :=
  match JsMap.get (PairStats.localCandidateId pair) locals,
        JsMap.get (PairStats.remoteCandidateId pair) remotes with
  | Some localCandidate, Some remoteCandidate =>
      let localInfo := candidateInfoText localCandidate in
      let remoteInfo := candidateInfoText remoteCandidate in
      let failureAnalysis :=
        analyzeConnectionFailure pair localCandidate remoteCandidate in
      [ dbg ("   ❌ " ++ localInfo ++ " ↔ " ++ remoteInfo);
        dbg ("      💡 " ++ Analysis.reason failureAnalysis);
        dbg ("      📊 " ++ Analysis.details failureAnalysis) ]
      ++ map (fun suggestion => dbg ("      🔧 " ++ suggestion))
             (Analysis.suggestions failureAnalysis)
  | _, _ => []
  end.

(** The [try] body once [getStats()] has delivered [stats]. *)
Definition failureReport (stats : list Report) : list Message.t :=
  let pairs := candidatePairStats stats in
  let locals := localCandidateStats stats in
  let remotes := remoteCandidateStats stats in
  let succeededPairs := filter (stateIs "succeeded") pairs in
  let failedPairs := filter (stateIs "failed") pairs in
  let inProgressPairs := filter (stateIs "in-progress") pairs in
  let waitingPairs := filter (stateIs "waiting") pairs in
  [ dbg "🔍 Detailed connectivity check results:" ]
  ++ match succeededPairs with
     | [] => []
     | _ => dbg ("✅ " ++ lengthText succeededPairs ++ " successful connection(s):")
            :: flat_map (succeededLines locals remotes) succeededPairs
     end
  ++ match failedPairs with
     | [] => []
     | _ => dbg ("❌ " ++ lengthText failedPairs ++ " failed connection(s):")
            :: flat_map (failedLines locals remotes) failedPairs
     end
  ++ match inProgressPairs with
     | [] => []
     | _ => [ dbg ("🔄 " ++ lengthText inProgressPairs
                   ++ " connection(s) still testing...") ]
     end
  ++ match waitingPairs with
     | [] => []
     | _ => [ dbg ("⏳ " ++ lengthText waitingPairs
                   ++ " connection(s) waiting to be tested") ]
     end
  ++ match pairs with
     | [] => [ dbg "   No candidate pairs found - connection may not have started properly" ]
     | _ => []
     end.

(** What a statistics poll delivers: the reports, or a rejection with
    the text of the error. *)
Inductive Reply (A : Type) :=
| Ok (value : A)
| Throws (errorText : string).
Arguments Ok {A} value.
Arguments Throws {A} errorText.

(** [logCandidateFailures]; [connected] tells whether
    [peerConnection.current] is set. *)
Definition logCandidateFailures (connected : bool)
  (poll : Reply (list Report)) : list Message.t :=
  if negb connected then []
  else match poll with
       | Ok stats => failureReport stats
       | Throws e => [ dbg ("Error getting connection stats: " ++ e) ]
       end.

(** ** [logSuccessfulConnection] *)

(** [x.toFixed(2)]: nearest hundredth, halves away from zero, always
    two decimals (exponent notation, used from 1e21 on, is left out). *)
Definition toFixed2 (x : Q) : string :=
  let n := Qfloor (Qabs x * 100 + (1 # 2))%Q in
  let frac := n mod 100 in
  (if Qle_bool 0 x then "" else "-")
  ++ JS.numToString (n / 100) ++ "."
  ++ (if frac <? 10 then "0" else "") ++ JS.numToString frac.

(** [pair.priority || 'N/A']. *)
Definition priorityOrNA (pair : PairStats.t) : string :=
  if JS.truthyNum (PairStats.priority pair)
  then optNumShow (PairStats.priority pair)
  else "N/A".

(** [(pair.totalRoundTripTime / pair.requestsSent * 1000).toFixed(2)]. *)
Definition avgRttText (total : Q) (requests : Z) : string :=
  toFixed2 (total / inject_Z requests * 1000)%Q.

(** The average line of a primary or backup block, with its guard
    [pair.totalRoundTripTime && pair.requestsSent && pair.requestsSent > 0]. *)
Definition averageRttLine (label : string) (pair : PairStats.t)
  : list Message.t :=
  match PairStats.totalRoundTripTime pair, PairStats.requestsSent pair with
  | Some total, Some requests =>
      if (JSQ.truthy (Some total) && JS.truthyNum (Some requests)
          && (requests >? 0))%bool
      then [ dbg ("   Average RTT: " ++ avgRttText total requests
                  ++ "ms (" ++ label ++ ")") ]
      else []
  | _, _ => []
  end.

Definition currentRttLine (pair : PairStats.t) : list Message.t :=
  match PairStats.currentRoundTripTime pair with
  | Some current =>
      if JSQ.truthy (Some current)
      then [ dbg ("   Current RTT: " ++ toFixed2 (current * 1000)%Q
                  ++ "ms (LIVE DATA)") ]
      else []
  | None => []
  end.

Definition bandwidthLine (pair : PairStats.t) : list Message.t :=
  match PairStats.availableOutgoingBitrate pair with
  | Some bitrate =>
      if JSQ.truthy (Some bitrate)
      then [ dbg ("   Available bandwidth: ~"
                  ++ JS.numToString (JSQ.round (bitrate / 1000)%Q)
                  ++ " kbps (CURRENT CAPACITY)") ]
      else []
  | None => []
  end.

Definition endpointLine (side : string) (c : CandidateStats.t) : Message.t :=
  dbg ("   " ++ side ++ ": " ++ JS.optStrShow (CandidateStats.address c) ++ ":"
       ++ optNumShow (CandidateStats.port c)
       ++ " (" ++ JS.optStrShow (CandidateStats.protocol c) ++ ") - "
       ++ getCandidateTypeDescription (CandidateStats.candidateType c)).

Definition indexText (index : nat) : string :=
  JS.numToString (Z.of_nat index + 1).

(** The body of the [forEach] over the nominated pairs. *)
Definition primaryBlock
  (locals remotes : JsMap.t string CandidateStats.t)
  (pair : PairStats.t) (index : nat) : list Message.t :=
  match JsMap.get (PairStats.localCandidateId pair) locals,
        JsMap.get (PairStats.remoteCandidateId pair) remotes with
  | Some localCandidate, Some remoteCandidate =>
      [ dbg ("👑 PRIMARY #" ++ indexText index ++ ": "
             ++ JS.toUpperCase (CandidateStats.candidateType localCandidate)
             ++ " ↔ "
             ++ JS.toUpperCase (CandidateStats.candidateType remoteCandidate)
             ++ " [NOMINATED - ACTIVE PATH]");
        endpointLine "Local" localCandidate;
        endpointLine "Remote" remoteCandidate;
        dbg ("   Priority: " ++ priorityOrNA pair
             ++ " (HIGHEST PRIORITY - IN USE)") ]
      ++ averageRttLine "ACTIVE CONNECTION" pair
      ++ currentRttLine pair
      ++ bandwidthLine pair
      ++ [ dbg "   ⚡ This is the path your data is actually using!" ]
  | _, _ => []
  end.

(** The body of the [forEach] over the other succeeded pairs. *)
Definition backupBlock
  (locals remotes : JsMap.t string CandidateStats.t)
  (pair : PairStats.t) (index : nat) : list Message.t :=
  match JsMap.get (PairStats.localCandidateId pair) locals,
        JsMap.get (PairStats.remoteCandidateId pair) remotes with
  | Some localCandidate, Some remoteCandidate =>
      [ dbg ("🔄 BACKUP #" ++ indexText index ++ ": "
             ++ JS.toUpperCase (CandidateStats.candidateType localCandidate)
             ++ " ↔ "
             ++ JS.toUpperCase (CandidateStats.candidateType remoteCandidate)
             ++ " [STANDBY PATH]");
        endpointLine "Local" localCandidate;
        endpointLine "Remote" remoteCandidate;
        dbg ("   Priority: " ++ priorityOrNA pair ++ " (READY IF NEEDED)") ]
      ++ averageRttLine "BACKUP PERFORMANCE" pair
      ++ [ dbg "   💤 Ready to take over if primary path fails" ]
  | _, _ => []
  end.

(** The body of the [forEach] of the fallback branch. *)
Definition pendingBlock (pair : PairStats.t) (index : nat) : list Message.t :=
  dbg ("   ⏳ Successful pair #" ++ indexText index ++ " with priority "
       ++ optNumShow (PairStats.priority pair) ++ " (AWAITING NOMINATION)")
  :: match PairStats.totalRoundTripTime pair, PairStats.requestsSent pair with
     | Some total, Some requests =>
         if (JSQ.truthy (Some total) && JS.truthyNum (Some requests))%bool
         then [ dbg ("   Round-trip time: " ++ avgRttText total requests ++ "ms") ]
         else []
     | _, _ => []
     end.

Definition nominatedPairs (stats : list Report) : list PairStats.t :=
  filter (fun pair => (stateIs "succeeded" pair && isNominated pair)%bool)
         (candidatePairStats stats).

Definition otherSuccessfulPairs (stats : list Report) : list PairStats.t :=
  filter (fun pair => (stateIs "succeeded" pair && negb (isNominated pair))%bool)
         (candidatePairStats stats).

(** The [try] body once [getStats()] has delivered [stats]. *)
Definition successReport (stats : list Report) : list Message.t :=
  let locals := localCandidateStats stats in
  let remotes := remoteCandidateStats stats in
  if ((0 <? length (nominatedPairs stats))%nat
      || (0 <? length (otherSuccessfulPairs stats))%nat)%bool then
    dbg "🏆 SUCCESSFUL CONNECTION DETAILS:"
    :: forEachIndexed (primaryBlock locals remotes) (nominatedPairs stats)
    ++ forEachIndexed (backupBlock locals remotes) (otherSuccessfulPairs stats)
  else
    let anySuccessful :=
      filter (stateIs "succeeded") (candidatePairStats stats) in
    match anySuccessful with
    | [] => []
    | _ => dbg "🎉 Connection successful! (Nomination pending...)"
           :: forEachIndexed pendingBlock anySuccessful
    end.

Definition logSuccessfulConnection (connected : bool)
  (poll : Reply (list Report)) : list Message.t :=
  if negb connected then []
  else match poll with
       | Ok stats => successReport stats
       | Throws e => [ dbg ("Error getting success stats: " ++ e) ]
       end.

(** ** The order in which pairs are reported

    The pairs whose block is written, in the order of the blocks: a pair
    is written when both of its candidates are found. *)

Definition bothFound (stats : list Report) (pair : PairStats.t) : bool :=
  match JsMap.get (PairStats.localCandidateId pair) (localCandidateStats stats),
        JsMap.get (PairStats.remoteCandidateId pair) (remoteCandidateStats stats)
  with
  | Some _, Some _ => true
  | _, _ => false
  end.

Definition failureReportOrder (stats : list Report) : list PairStats.t :=
  filter (bothFound stats)
         (filter (stateIs "succeeded") (candidatePairStats stats))
  ++ filter (bothFound stats)
            (filter (stateIs "failed") (candidatePairStats stats)).

Definition successReportOrder (stats : list Report) : list PairStats.t :=
  filter (bothFound stats) (nominatedPairs stats)
  ++ filter (bothFound stats) (otherSuccessfulPairs stats).

(** ** The session: the refs and the state of the component

    A session description is kept as the text of its JSON form, so
    [JSON.stringify(description, null, 2)] is the description itself.
    Each handler runs to its end without another event in between; the
    callback of [setTimeout] is an event of its own. *)

Module PeerConnection.
Record t := mk {
  localDescription : option string;
  remoteDescription : option string;
  tracksAdded : bool
}.
(** [new RTCPeerConnection(...)]. *)
Definition fresh : t := mk None None false.
End PeerConnection.

Inductive MediaPermission := perm_none | perm_requesting | perm_granted | perm_denied.

Module Session.
Record t := mk {
  peerConnection : option PeerConnection.t;
  dataChannel : bool;
  localStream : bool;
  localCandidates : JsMap.t (option string) ICECandidateInfo.t;
  remoteCandidates : JsMap.t (option string) ICECandidateInfo.t;
  candidatePairs : JsMap.t string (string * string * string);
  isInitiator : bool;
  connectionState : string;
  iceState : string;
  dataChannelState : string;
  localOffer : string;
  localAnswer : string;
  remoteOffer : string;
  remoteAnswer : string;
  messages : list Message.t;
  iceServers : list string;
  iceServersLoading : bool;
  usingCustomIceServers : bool;
  mediaPermissionState : MediaPermission;
  hasMediaStream : bool
}.

(** The component as first rendered. *)
Definition initial : t :=
  mk None false false JsMap.empty JsMap.empty JsMap.empty false
     "new" "new" "closed" "" "" "" "" [] [] true false perm_none false.
End Session.

Import Session.

(** What the browser answers to the calls of the handlers: the text of
    the error when a call throws or rejects. *)
Module Engine.
Record t := mk {
  getUserMedia : Reply bool;       (* the stream; [true]: it has an audio track *)
  construct : Reply unit;          (* new RTCPeerConnection(...) *)
  createOffer : Reply string;
  createAnswer : Reply string;
  setLocalDescription : Reply unit;
  setRemoteDescription : Reply unit;
  jsonParse : Reply string         (* JSON.parse of the pasted text *)
}.
(** A browser in which every call succeeds. *)
Definition cooperative : t :=
  mk (Ok true) (Ok tt) (Ok "offer") (Ok "answer") (Ok tt) (Ok tt) (Ok "remote").
End Engine.

Definition addMessage (m : Message.t) (s : Session.t) : Session.t :=
  mk (peerConnection s) (dataChannel s) (localStream s) (localCandidates s)
     (remoteCandidates s) (candidatePairs s) (isInitiator s)
     (connectionState s) (iceState s) (dataChannelState s) (localOffer s)
     (localAnswer s) (remoteOffer s) (remoteAnswer s) (messages s ++ [m])
     (iceServers s) (iceServersLoading s) (usingCustomIceServers s)
     (mediaPermissionState s) (hasMediaStream s).

Definition setPeerConnection (pc : option PeerConnection.t) (s : Session.t)
  : Session.t :=
  mk pc (dataChannel s) (localStream s) (localCandidates s)
     (remoteCandidates s) (candidatePairs s) (isInitiator s)
     (connectionState s) (iceState s) (dataChannelState s) (localOffer s)
     (localAnswer s) (remoteOffer s) (remoteAnswer s) (messages s)
     (iceServers s) (iceServersLoading s) (usingCustomIceServers s)
     (mediaPermissionState s) (hasMediaStream s).

Definition setLocalCandidates
  (m : JsMap.t (option string) ICECandidateInfo.t) (s : Session.t) : Session.t :=
  mk (peerConnection s) (dataChannel s) (localStream s) m
     (remoteCandidates s) (candidatePairs s) (isInitiator s)
     (connectionState s) (iceState s) (dataChannelState s) (localOffer s)
     (localAnswer s) (remoteOffer s) (remoteAnswer s) (messages s)
     (iceServers s) (iceServersLoading s) (usingCustomIceServers s)
     (mediaPermissionState s) (hasMediaStream s).

(** The three [clear()] calls that open [initializeWebRTC]. *)
Definition clearCandidates (s : Session.t) : Session.t :=
  mk (peerConnection s) (dataChannel s) (localStream s) JsMap.empty
     JsMap.empty JsMap.empty (isInitiator s)
     (connectionState s) (iceState s) (dataChannelState s) (localOffer s)
     (localAnswer s) (remoteOffer s) (remoteAnswer s) (messages s)
     (iceServers s) (iceServersLoading s) (usingCustomIceServers s)
     (mediaPermissionState s) (hasMediaStream s).

Definition setMedia (stream : bool) (p : MediaPermission) (has : bool)
  (s : Session.t) : Session.t :=
  mk (peerConnection s) (dataChannel s) stream (localCandidates s)
     (remoteCandidates s) (candidatePairs s) (isInitiator s)
     (connectionState s) (iceState s) (dataChannelState s) (localOffer s)
     (localAnswer s) (remoteOffer s) (remoteAnswer s) (messages s)
     (iceServers s) (iceServersLoading s) (usingCustomIceServers s)
     p has.

Definition setRole (asInitiator channel : bool) (s : Session.t) : Session.t :=
  mk (peerConnection s) channel (localStream s) (localCandidates s)
     (remoteCandidates s) (candidatePairs s) asInitiator
     (connectionState s) (iceState s) (dataChannelState s) (localOffer s)
     (localAnswer s) (remoteOffer s) (remoteAnswer s) (messages s)
     (iceServers s) (iceServersLoading s) (usingCustomIceServers s)
     (mediaPermissionState s) (hasMediaStream s).

Definition setLocalOffer (text : string) (s : Session.t) : Session.t :=
  mk (peerConnection s) (dataChannel s) (localStream s) (localCandidates s)
     (remoteCandidates s) (candidatePairs s) (isInitiator s)
     (connectionState s) (iceState s) (dataChannelState s) text
     (localAnswer s) (remoteOffer s) (remoteAnswer s) (messages s)
     (iceServers s) (iceServersLoading s) (usingCustomIceServers s)
     (mediaPermissionState s) (hasMediaStream s).

Definition setLocalAnswer (text : string) (s : Session.t) : Session.t :=
  mk (peerConnection s) (dataChannel s) (localStream s) (localCandidates s)
     (remoteCandidates s) (candidatePairs s) (isInitiator s)
     (connectionState s) (iceState s) (dataChannelState s) (localOffer s)
     text (remoteOffer s) (remoteAnswer s) (messages s)
     (iceServers s) (iceServersLoading s) (usingCustomIceServers s)
     (mediaPermissionState s) (hasMediaStream s).

(** [onChange] of the two text areas. *)
Definition setRemoteOffer (text : string) (s : Session.t) : Session.t :=
  mk (peerConnection s) (dataChannel s) (localStream s) (localCandidates s)
     (remoteCandidates s) (candidatePairs s) (isInitiator s)
     (connectionState s) (iceState s) (dataChannelState s) (localOffer s)
     (localAnswer s) text (remoteAnswer s) (messages s)
     (iceServers s) (iceServersLoading s) (usingCustomIceServers s)
     (mediaPermissionState s) (hasMediaStream s).

Definition setRemoteAnswer (text : string) (s : Session.t) : Session.t :=
  mk (peerConnection s) (dataChannel s) (localStream s) (localCandidates s)
     (remoteCandidates s) (candidatePairs s) (isInitiator s)
     (connectionState s) (iceState s) (dataChannelState s) (localOffer s)
     (localAnswer s) (remoteOffer s) text (messages s)
     (iceServers s) (iceServersLoading s) (usingCustomIceServers s)
     (mediaPermissionState s) (hasMediaStream s).

Definition byteIs (n : nat) (c : ascii) : bool :=
  Nat.eqb (nat_of_ascii c) n.

(** The white space of [trim] that takes two bytes in UTF-8: U+00A0. *)
Definition isWhite2 (a b : ascii) : bool :=
  (byteIs 194 a && byteIs 160 b)%bool.

(** The white space of [trim] that takes three bytes in UTF-8: U+1680,
    U+2000 to U+200A, U+2028, U+2029, U+202F, U+205F, U+3000 and
    U+FEFF. *)
Definition isWhite3 (a b c : ascii) : bool :=
  let n := nat_of_ascii c in
  (byteIs 225 a && byteIs 154 b && byteIs 128 c
   || byteIs 226 a && byteIs 128 b
      && (Nat.leb 128 n && Nat.leb n 138
          || byteIs 168 c || byteIs 169 c || byteIs 175 c)
   || byteIs 226 a && byteIs 129 b && byteIs 159 c
   || byteIs 227 a && byteIs 128 b && byteIs 128 c
   || byteIs 239 a && byteIs 187 b && byteIs 191 c)%bool.

(** [!text.trim()]: the text is made of white space and line
    terminators only. *)
Fixpoint isBlank (text : string) : bool :=
  match text with
  | EmptyString => true
  | String a r =>
      if JS.isWhite a then isBlank r
      else
        match r with
        | String b r2 =>
            if isWhite2 a b then isBlank r2
            else
              match r2 with
              | String c r3 => if isWhite3 a b c then isBlank r3 else false
              | EmptyString => false
              end
        | EmptyString => false
        end
  end.

(** ** [requestMediaPermissions] and [cleanupMediaStream] *)

Definition requestMediaPermissions (engine : Engine.t) (s : Session.t)
  : Session.t * bool :=
  let s1 := addMessage
              (sys "🎤 Requesting microphone permission (helps with browser compatibility)...")
              (setMedia (localStream s) perm_requesting (hasMediaStream s) s) in
  match Engine.getUserMedia engine with
  | Ok audioTrack =>
      let s2 := addMessage
                  (sys "✅ Microphone permission granted (will improve connection reliability)")
                  (setMedia true perm_granted true s1) in
      (if audioTrack
       then addMessage (sys "🔇 Audio muted (only needed for WebRTC compatibility)") s2
       else s2, true)
  | Throws errorMessage =>
      (addMessage
         (sys "Note: Data channels may still work, but connection reliability may be reduced")
         (addMessage (err ("⚠️ Media permission denied: " ++ errorMessage))
            (setMedia (localStream s1) perm_denied (hasMediaStream s1) s1)),
       false)
  end.

Definition cleanupMediaStream (s : Session.t) : Session.t :=
  if localStream s
  then addMessage (sys "🔇 Released microphone")
         (setMedia false (mediaPermissionState s) false s)
  else s.

(** ** [initializeWebRTC] *)

Definition initializeWebRTC (asInitiator : bool) (engine : Engine.t)
  (s : Session.t) : Session.t :=
  let s1 := clearCandidates s in
  let '(s2, mediaGranted) :=
    match mediaPermissionState s with
    | perm_none => requestMediaPermissions engine s1
    | perm_granted => (s1, true)
    | _ => (s1, false)
    end in
  match Engine.construct engine with
  | Throws errorMessage =>
      addMessage (err ("Error initializing WebRTC: " ++ errorMessage)) s2
  | Ok _ =>
      let iceServerType :=
        if usingCustomIceServers s then "custom" else "default" in
      let s3 := addMessage
                  (dbg ("🔧 Initialized WebRTC with " ++ lengthText (iceServers s)
                        ++ " " ++ iceServerType ++ " ICE servers"))
                  (setPeerConnection (Some PeerConnection.fresh) s2) in
      let s4 :=
        if (localStream s3 && mediaGranted)%bool
        then addMessage
               (dbg "🎵 Added media tracks to connection (improves browser compatibility)")
               (setPeerConnection
                  (Some (PeerConnection.mk None None true)) s3)
        else s3 in
      if asInitiator
      then addMessage
             (sys "Initialized as initiator - ready to create connection offer")
             (setRole true true s4)
      else addMessage
             (sys "Initialized as receiver - waiting for connection offer")
             (setRole false (dataChannel s4) s4)
  end.

(** ** [reset] *)

Definition reset (s : Session.t) : Session.t :=
  let s1 := cleanupMediaStream s in
  addMessage (sys "Reset connection")
    (mk None false (localStream s1) JsMap.empty JsMap.empty JsMap.empty false
        "new" "new" "closed" "" "" "" "" []
        (iceServers s1) (iceServersLoading s1) (usingCustomIceServers s1)
        perm_none (hasMediaStream s1)).

(** ** The [onicecandidate] handler *)

Definition onicecandidate (candidate : option RTCIceCandidate.t)
  (s : Session.t) : Session.t :=
  match candidate with
  | Some c =>
      match parseICECandidate c with
      | Some candidateInfo =>
          let typeDesc :=
            getCandidateTypeDescription (ICECandidateInfo.type candidateInfo) in
          addMessage
            (dbg ("🔍 Found local candidate: "
                  ++ ICECandidateInfo.type candidateInfo ++ " ("
                  ++ JS.toUpperCase (ICECandidateInfo.protocol candidateInfo)
                  ++ ") " ++ ICECandidateInfo.address candidateInfo ++ ":"
                  ++ JS.numToString (ICECandidateInfo.port candidateInfo)
                  ++ " - " ++ typeDesc))
            (setLocalCandidates
               (JsMap.set (RTCIceCandidate.foundation c) candidateInfo
                          (localCandidates s)) s)
      | None =>
          addMessage
            (sys ("Found connection path: "
                  ++ JS.optStrOr (RTCIceCandidate.type c) "unknown")) s
      end
  | None => addMessage (sys "Finished finding connection paths") s
  end.

(** ** [createOffer], [handleRemoteOffer], [handleRemoteAnswer] *)

Definition withLocalDescription (d : string) (pc : PeerConnection.t)
  : PeerConnection.t :=
  PeerConnection.mk (Some d) (PeerConnection.remoteDescription pc)
                    (PeerConnection.tracksAdded pc).

Definition withRemoteDescription (d : string) (pc : PeerConnection.t)
  : PeerConnection.t :=
  PeerConnection.mk (PeerConnection.localDescription pc) (Some d)
                    (PeerConnection.tracksAdded pc).

Definition createOffer (engine : Engine.t) (s : Session.t) : Session.t :=
  let fail errorMessage s' :=
    addMessage (err ("Error creating offer: " ++ errorMessage)) s' in
  match peerConnection s with
  | None => fail "No peer connection available" s
  | Some pc =>
      let s1 := addMessage (sys "📝 Creating connection offer...") s in
      match Engine.createOffer engine with
      | Throws e => fail e s1
      | Ok offer =>
          let s2 := addMessage
                      (sys "⚙️ Setting up local connection details...") s1 in
          match Engine.setLocalDescription engine with
          | Throws e => fail e s2
          | Ok _ => setPeerConnection (Some (withLocalDescription offer pc)) s2
          end
      end
  end.

(** The callback [createOffer] leaves with [setTimeout(..., 1000)]: it
    reads the local description that the connection holds when the
    timer fires. *)
Definition offerTimeout (s : Session.t) : Session.t :=
  match peerConnection s with
  | Some pc =>
      match PeerConnection.localDescription pc with
      | Some d =>
          addMessage
            (sys "✅ Offer ready! Copy this and send it to the other peer")
            (setLocalOffer d s)
      | None => s
      end
  | None => s
  end.

Definition handleRemoteOffer (engine : Engine.t) (s : Session.t) : Session.t :=
  let fail errorMessage s' :=
    addMessage (err ("Error handling remote offer: " ++ errorMessage)) s' in
  let s0 := addMessage (sys "📨 Processing connection offer from peer...") s in
  match peerConnection s with
  | None => fail "No peer connection available" s0
  | Some pc =>
      if isBlank (remoteOffer s) then fail "No offer provided" s0
      else
        match Engine.jsonParse engine with
        | Throws e => fail e s0
        | Ok offer =>
            let s1 := addMessage
                        (sys "⚙️ Understanding peer's connection details...") s0 in
            match Engine.setRemoteDescription engine with
            | Throws e => fail e s1
            | Ok _ =>
                let pc1 := withRemoteDescription offer pc in
                let s2 := addMessage (sys "📝 Creating response (answer)...")
                            (setPeerConnection (Some pc1) s1) in
                match Engine.createAnswer engine with
                | Throws e => fail e s2
                | Ok answer =>
                    match Engine.setLocalDescription engine with
                    | Throws e => fail e s2
                    | Ok _ =>
                        setPeerConnection
                          (Some (withLocalDescription answer pc1)) s2
                    end
                end
            end
        end
  end.

(** The callback [handleRemoteOffer] leaves with [setTimeout(..., 1000)]. *)
Definition answerTimeout (s : Session.t) : Session.t :=
  match peerConnection s with
  | Some pc =>
      match PeerConnection.localDescription pc with
      | Some d =>
          addMessage
            (sys "✅ Answer ready! Copy this and send it back to the initiator")
            (setLocalAnswer d s)
      | None => s
      end
  | None => s
  end.

Definition handleRemoteAnswer (engine : Engine.t) (s : Session.t) : Session.t :=
  let fail errorMessage s' :=
    addMessage (err ("Error handling remote answer: " ++ errorMessage)) s' in
  let s0 := addMessage (sys "📨 Processing answer from peer...") s in
  match peerConnection s with
  | None => fail "No peer connection available" s0
  | Some pc =>
      if isBlank (remoteAnswer s) then fail "No answer provided" s0
      else
        match Engine.jsonParse engine with
        | Throws e => fail e s0
        | Ok answer =>
            let s1 := addMessage (sys "⚙️ Applying peer's response...") s0 in
            match Engine.setRemoteDescription engine with
            | Throws e => fail e s1
            | Ok _ =>
                addMessage
                  (sys "✅ Handshake complete! Connection should establish now...")
                  (setPeerConnection (Some (withRemoteDescription answer pc)) s1)
            end
        end
  end.

(** ** The controls of the page

    A button that is disabled, or that is not rendered, does not run
    its handler. *)

Inductive Control :=
| InitializeAsInitiator
| InitializeAsReceiver
| ResetButton
| CreateOfferButton
| ProcessAnswerButton
| ProcessOfferButton.

Definition connected (s : Session.t) : bool :=
  match peerConnection s with Some _ => true | None => false end.

(** [disabled={peerConnection.current !== null || iceServersLoading}],
    the blocks under [isInitiator && peerConnection.current] and
    [!isInitiator && peerConnection.current], and the [disabled] of the
    two process buttons. *)
Definition enabled (c : Control) (s : Session.t) : bool :=
  match c with
  | InitializeAsInitiator | InitializeAsReceiver =>
      negb (connected s || iceServersLoading s)
  | ResetButton => true
  | CreateOfferButton => (isInitiator s && connected s)%bool
  | ProcessAnswerButton =>
      (isInitiator s && connected s && negb (isBlank (remoteAnswer s)))%bool
  | ProcessOfferButton =>
      (negb (isInitiator s) && connected s && negb (isBlank (remoteOffer s)))%bool
  end.

Definition handler (c : Control) (engine : Engine.t) (s : Session.t)
  : Session.t :=
  match c with
  | InitializeAsInitiator => initializeWebRTC true engine s
  | InitializeAsReceiver => initializeWebRTC false engine s
  | ResetButton => reset s
  | CreateOfferButton => createOffer engine s
  | ProcessAnswerButton => handleRemoteAnswer engine s
  | ProcessOfferButton => handleRemoteOffer engine s
  end.

Definition click (c : Control) (engine : Engine.t) (s : Session.t)
  : Session.t :=
  if enabled c s then handler c engine s else s.

(** ** Events and runs *)

Inductive Event :=
| IceCandidate (candidate : option RTCIceCandidate.t)
| Initialize (asInitiator : bool) (engine : Engine.t)
| Reset
| CreateOffer (engine : Engine.t)
| OfferTimeout
| TypeRemoteOffer (text : string)
| HandleRemoteOffer (engine : Engine.t)
| AnswerTimeout
| TypeRemoteAnswer (text : string)
| HandleRemoteAnswer (engine : Engine.t).

Definition step (s : Session.t) (e : Event) : Session.t :=
  match e with
  | IceCandidate candidate => onicecandidate candidate s
  | Initialize asInitiator engine => initializeWebRTC asInitiator engine s
  | Reset => reset s
  | CreateOffer engine => createOffer engine s
  | OfferTimeout => offerTimeout s
  | TypeRemoteOffer text => setRemoteOffer text s
  | HandleRemoteOffer engine => handleRemoteOffer engine s
  | AnswerTimeout => answerTimeout s
  | TypeRemoteAnswer text => setRemoteAnswer text s
  | HandleRemoteAnswer engine => handleRemoteAnswer engine s
  end.

Definition run (events : list Event) (s : Session.t) : Session.t :=
  fold_left step events s.

(** [Initialize] and [Reset] are the events that empty the maps. *)
Definition clears (e : Event) : bool :=
  match e with
  | Initialize _ _ | Reset => true
  | _ => false
  end.

(** What one event does to the entry of key [k] of [localCandidates]. *)
Definition entryAfter (k : option string) (e : Event)
  (before : option ICECandidateInfo.t) : option ICECandidateInfo.t :=
  match e with
  | IceCandidate (Some c) =>
      match parseICECandidate c with
      | Some info => if keyb k (RTCIceCandidate.foundation c) then Some info else before
      | None => before
      end
  | Initialize _ _ | Reset => None
  | _ => before
  end.

(** The candidates an event sequence records, with their keys, in the
    order of the events. *)
Definition recorded (events : list Event)
  : list (option string * ICECandidateInfo.t) :=
  flat_map (fun e =>
              match e with
              | IceCandidate (Some c) =>
                  match parseICECandidate c with
                  | Some info => [(RTCIceCandidate.foundation c, info)]
                  | None => []
                  end
              | _ => []
              end) events.

(** ** The rule list of the failure diagnosis, as the specification
    words it: five rules, tried in this order, the first match decides. *)

Inductive Rule :=
| NotSelectedForTesting
| NoResponseToOutboundChecks
| AsymmetricPath
| UnableToSendResponses
| TimeoutOrAuthentication.

Definition ruleApplies (rule : Rule) (pair : PairStats.t) : bool :=
  let requestsSent := JS.numOr (PairStats.requestsSent pair) 0 in
  let requestsReceived := JS.numOr (PairStats.requestsReceived pair) 0 in
  let responsesSent := JS.numOr (PairStats.responsesSent pair) 0 in
  let responsesReceived := JS.numOr (PairStats.responsesReceived pair) 0 in
  match rule with
  | NotSelectedForTesting => (requestsSent =? 0) && (requestsReceived =? 0)
  | NoResponseToOutboundChecks => (0 <? requestsSent) && (requestsReceived =? 0)
  | AsymmetricPath =>
      (0 <? requestsSent) && (0 <? requestsReceived) && (responsesReceived =? 0)
  | UnableToSendResponses => (0 <? responsesReceived) && (responsesSent =? 0)
  | TimeoutOrAuthentication => true
  end%bool.

Definition ruleOrder : list Rule :=
  [ NotSelectedForTesting; NoResponseToOutboundChecks; AsymmetricPath;
    UnableToSendResponses; TimeoutOrAuthentication ].

Definition firstMatch (pair : PairStats.t) : option Rule :=
  find (fun rule => ruleApplies rule pair) ruleOrder.

(** The reason text the page uses for each rule. *)
Definition ruleReason (rule : Rule) : string :=
  match rule with
  | NotSelectedForTesting =>
      "No communication attempted - candidate pair was not selected for testing"
  | NoResponseToOutboundChecks =>
      "Outbound packets sent but no response received"
  | AsymmetricPath =>
      "Partial communication - requests received but responses not getting back"
  | UnableToSendResponses =>
      "Response delivery failure - unable to send responses back"
  | TimeoutOrAuthentication =>
      "Communication timeout or authentication failure"
  end.

(** [haystack.includes(needle)]. *)
Fixpoint includes (needle haystack : string) : bool :=
  (String.prefix needle haystack
   || match haystack with
      | EmptyString => false
      | String _ rest => includes needle rest
      end)%bool.

(** ** Sample data *)


Definition garbledDescriptor : RTCIceCandidate.t :=
  RTCIceCandidate.mk "candidate:1 1 UDP high 192.168.1.2 any typ host"
                     (Some "host") (Some "1").

(** A pair whose request counters are missing and whose other fields
    are all set. *)
Definition untestedPair : PairStats.t :=
  PairStats.mk "L1" "R1" "failed" (Some false) (Some 900)
               None (Some 0) (Some 7) (Some 9)
               (Some (1000 # 1)%Q) (Some (9000 # 1)%Q) None None None.

Definition hostUdp : CandidateStats.t :=
  CandidateStats.mk "host" (Some "192.168.1.2") (Some 5000) (Some "udp").

Definition relayUdp : CandidateStats.t :=
  CandidateStats.mk "relay" (Some "203.0.113.9") (Some 3478) (Some "udp").

Definition srflxTcp : CandidateStats.t :=
  CandidateStats.mk "srflx" (Some "198.51.100.4") (Some 6000) (Some "tcp").

(** Scenario A: four requests sent, none received, local relay. *)
Definition scenarioA : PairStats.t :=
  PairStats.mk "L1" "R1" "failed" None None
               (Some 4) (Some 0) None None None None None None None.

(** Last packet sent at 10000 ms, last packet received at 4000 ms. *)
Definition sentAfterReceived : PairStats.t :=
  PairStats.mk "L1" "R1" "failed" None None
               (Some 3) (Some 2) (Some 2) (Some 2)
               (Some (10000 # 1)%Q) (Some (4000 # 1)%Q) None None None.

(** Last packet sent at 4000 ms, last packet received at 10000 ms. *)
Definition receivedAfterSent : PairStats.t :=
  PairStats.mk "L1" "R1" "failed" None None
               (Some 3) (Some 2) (Some 2) (Some 2)
               (Some (4000 # 1)%Q) (Some (10000 # 1)%Q) None None None.

(** A pair report in which every optional field is missing. *)
Definition barePair : PairStats.t :=
  PairStats.mk "L9" "R9" "failed" None None
               None None None None None None None None None.

(** A snapshot whose only pair names candidates that have no report. *)
Definition orphanSnapshot : list Report :=
  [ LocalCandidate "L1" hostUdp; CandidatePair barePair;
    RemoteCandidate "R1" relayUdp ].

(** A missing counter read as an explicit 0. *)
Definition zeroIfMissing (x : option Z) : option Z :=
  match x with
  | Some v => Some v
  | None => Some 0
  end.

Definition withZeroCounters (pair : PairStats.t) : PairStats.t :=
  PairStats.mk (PairStats.localCandidateId pair)
               (PairStats.remoteCandidateId pair)
               (PairStats.state pair) (PairStats.nominated pair)
               (PairStats.priority pair)
               (zeroIfMissing (PairStats.requestsSent pair))
               (zeroIfMissing (PairStats.requestsReceived pair))
               (zeroIfMissing (PairStats.responsesSent pair))
               (zeroIfMissing (PairStats.responsesReceived pair))
               (PairStats.lastPacketSentTimestamp pair)
               (PairStats.lastPacketReceivedTimestamp pair)
               (PairStats.totalRoundTripTime pair)
               (PairStats.currentRoundTripTime pair)
               (PairStats.availableOutgoingBitrate pair).

(** ** Vocabulary of the statements *)

(** The kinds of the candidates of a registry, in [forEach] order. *)
Definition kindsOf (localCandidates : JsMap.t (option string) ICECandidateInfo.t)
  : list string :=
  map ICECandidateInfo.type (JsMap.values localCandidates).

(** How many candidates of the registry have kind [kind]. *)
Definition countKind (kind : string)
  (localCandidates : JsMap.t (option string) ICECandidateInfo.t) : Z :=
  Z.of_nat (count_occ string_dec (kindsOf localCandidates) kind).

(** The distinct elements of a list, each at the place of its first
    occurrence. *)
Definition firstSeenOrder (l : list string) : list string :=
  rev (nodup string_dec (rev l)).

(** [a] is [b] with some elements left out, the others in place. *)
Inductive Subseq {A : Type} : list A -> list A -> Prop :=
| Subseq_nil : Subseq [] []
| Subseq_skip : forall x a b, Subseq a b -> Subseq a (x :: b)
| Subseq_keep : forall x a b, Subseq a b -> Subseq (x :: a) (x :: b).

Definition isError (m : Message.t) : bool :=
  match Message.type m with
  | error => true
  | _ => false
  end.

Definition hostCandidate1 : RTCIceCandidate.t :=
  RTCIceCandidate.mk "candidate:1 1 udp 2122260223 192.168.1.2 50001 typ host"
                     (Some "host") (Some "1").

Definition hostCandidate2 : RTCIceCandidate.t :=
  RTCIceCandidate.mk "candidate:2 1 udp 2122194687 10.0.0.2 50002 typ host"
                     (Some "host") (Some "2").

Definition hostCandidate3 : RTCIceCandidate.t :=
  RTCIceCandidate.mk "candidate:3 1 tcp 1518280447 192.168.1.2 9 typ host tcptype active"
                     (Some "host") (Some "3").

Definition relayCandidate : RTCIceCandidate.t :=
  RTCIceCandidate.mk "candidate:4 1 udp 41885439 203.0.113.9 3478 typ relay raddr 0.0.0.0 rport 0"
                     (Some "relay") (Some "4").

(** The registry after the relay candidate was found first and three
    host candidates after it. *)
Definition relayFirstRegistry : JsMap.t (option string) ICECandidateInfo.t :=
  localCandidates
    (run [ IceCandidate (Some relayCandidate); IceCandidate (Some hostCandidate1);
           IceCandidate (Some hostCandidate2); IceCandidate (Some hostCandidate3) ]
         Session.initial).

(** The record [parseICECandidate] gives for a sample candidate. *)
Definition infoOf (c : RTCIceCandidate.t) : ICECandidateInfo.t :=
  match parseICECandidate c with
  | Some info => info
  | None => ICECandidateInfo.mk "" "" "" "" 0 0 ""
  end.

(** The registry after three host candidates and then a relay one. *)
Definition hostsFirstRegistry : JsMap.t (option string) ICECandidateInfo.t :=
  localCandidates
    (run [ IceCandidate (Some hostCandidate1); IceCandidate (Some hostCandidate2);
           IceCandidate (Some hostCandidate3); IceCandidate (Some relayCandidate) ]
         Session.initial).

Definition succeededPair (nominated : bool) (priority : Z) : PairStats.t :=
  PairStats.mk "L1" "R1" "succeeded" (Some nominated) (Some priority)
               (Some 5) (Some 5) (Some 5) (Some 5) None None None None None.

(** Two nominated succeeded pairs, the one of lower priority first, and
    a failed pair before both. *)
Definition risingPrioritySnapshot : list Report :=
  [ LocalCandidate "L1" hostUdp; RemoteCandidate "R1" relayUdp;
    CandidatePair scenarioA;
    CandidatePair (succeededPair true 300);
    CandidatePair (succeededPair true 500) ].

(** A succeeded pair that is not nominated, reported before a nominated
    one. *)
Definition backupFirstSnapshot : list Report :=
  [ LocalCandidate "L1" hostUdp; RemoteCandidate "R1" relayUdp;
    CandidatePair (succeededPair false 300);
    CandidatePair (succeededPair true 500) ].

Definition isSucceededNominated (pair : PairStats.t) : bool :=
  (stateIs "succeeded" pair && isNominated pair)%bool.

Definition isSucceededOther (pair : PairStats.t) : bool :=
  (stateIs "succeeded" pair && negb (isNominated pair))%bool.

(** The priority lines of a report. *)
Definition priorityLines (report : list Message.t) : list string :=
  filter (String.prefix "   Priority: ") (map Message.text report).

(** The same foundation as [hostCandidate1], another port. *)
Definition hostCandidate1b : RTCIceCandidate.t :=
  RTCIceCandidate.mk "candidate:1 2 udp 2122260222 192.168.1.2 50003 typ host"
                     (Some "host") (Some "1").

(** The page once the ICE servers are loaded (the three fallback STUN
    servers). *)
Definition loadedSession : Session.t :=
  mk None false false JsMap.empty JsMap.empty JsMap.empty false
     "new" "new" "closed" "" "" "" "" []
     [ "stun:stun.l.google.com:19302"; "stun:stun1.l.google.com:19302";
       "stun:stun2.l.google.com:19302" ]
     false false perm_none false.

(** A session initialized as receiver. *)
Definition receiverReady : Session.t :=
  initializeWebRTC false Engine.cooperative loadedSession.

(** A session initialized as initiator that has found a candidate and
    created its offer. *)
Definition activeInitiator : Session.t :=
  run [ Initialize true Engine.cooperative; IceCandidate (Some hostCandidate1);
        CreateOffer Engine.cooperative ] loadedSession.

(** The record kept for each sample foundation. *)
Definition sampleInfo (k : option string) : ICECandidateInfo.t :=
  if optStrEqb k (Some "1") then infoOf hostCandidate1 else infoOf relayCandidate.

Definition sampleEvents : list Event :=
  [ IceCandidate (Some hostCandidate1); CreateOffer Engine.cooperative;
    IceCandidate (Some relayCandidate); IceCandidate None ].

Definition sampleEventsReordered : list Event :=
  [ IceCandidate (Some relayCandidate); IceCandidate (Some hostCandidate1);
    CreateOffer Engine.cooperative; IceCandidate None ].

Definition initializeControl (asInitiator : bool) : Control :=
  if asInitiator then InitializeAsInitiator else InitializeAsReceiver.

(** Scenario B: two requests sent, two received, no response. *)
Definition scenarioB : PairStats.t :=
  PairStats.mk "L1" "R1" "failed" None None
               (Some 2) (Some 2) None None None None None None None.

(** A snapshot with one failed pair between a relay and a host
    candidate. *)
Definition failedSnapshot : list Report :=
  [ CandidatePair scenarioA; LocalCandidate "L1" relayUdp;
    RemoteCandidate "R1" hostUdp ].

(** ** Further vocabulary: descriptors and their parts *)

(** The number of space characters of a descriptor. *)
Fixpoint countSpaces (s : string) : nat :=
  match s with
  | EmptyString => 0
  | String c r => if Ascii.eqb c " "%char then S (countSpaces r) else countSpaces r
  end.

Definition noSpace (s : string) : bool := (countSpaces s =? 0)%nat.

(** [parts.join(' ')] on a list that is not empty. *)
Fixpoint joinSpace (parts : list string) : string :=
  match parts with
  | [] => ""
  | [p] => p
  | p :: rest => p ++ " " ++ joinSpace rest
  end.

(** The descriptor line of a candidate, from its fields; [more] holds
    the parts after the port ([typ host] and so on). *)
Definition descriptorLine (foundation component transport : string)
  (priority : Z) (address : string) (port : Z) (more : list string) : string :=
  joinSpace (foundation :: component :: transport :: JS.numToString priority
             :: address :: JS.numToString port :: more).

(** A descriptor made from fields. *)
Definition sampleLine : string :=
  descriptorLine "842163049" "1" "UDP" 1677729535 "198.51.100.4" 46154
                 ["typ"; "srflx"; "raddr"; "0.0.0.0"; "rport"; "0"].

(** The text of the protocol suggestion for two candidates. *)
Definition protocolMismatchText (localCandidate remoteCandidate : CandidateStats.t)
  : string :=
  "Protocol mismatch: "
  ++ JS.optStrShow (CandidateStats.protocol localCandidate) ++ " vs "
  ++ JS.optStrShow (CandidateStats.protocol remoteCandidate).

(** A pair that sent four requests, received none, and got four
    responses. *)
Definition answeredPair : PairStats.t :=
  PairStats.mk "L1" "R1" "failed" None None
               (Some 4) (Some 0) (Some 0) (Some 4) None None None None None.

(** ** Further operations of the page

    The handlers below complete the session: the phase handlers that
    [initializeWebRTC] installs, the data channel, the ICE server
    configuration and the message input. *)

Definition addMessages (ms : list Message.t) (s : Session.t) : Session.t :=
  fold_left (fun acc m => addMessage m acc) ms s.

Definition setConnectionState (state : string) (s : Session.t) : Session.t :=
  mk (peerConnection s) (dataChannel s) (localStream s) (localCandidates s)
     (remoteCandidates s) (candidatePairs s) (isInitiator s)
     state (iceState s) (dataChannelState s) (localOffer s)
     (localAnswer s) (remoteOffer s) (remoteAnswer s) (messages s)
     (iceServers s) (iceServersLoading s) (usingCustomIceServers s)
     (mediaPermissionState s) (hasMediaStream s).

Definition setIceState (state : string) (s : Session.t) : Session.t :=
  mk (peerConnection s) (dataChannel s) (localStream s) (localCandidates s)
     (remoteCandidates s) (candidatePairs s) (isInitiator s)
     (connectionState s) state (dataChannelState s) (localOffer s)
     (localAnswer s) (remoteOffer s) (remoteAnswer s) (messages s)
     (iceServers s) (iceServersLoading s) (usingCustomIceServers s)
     (mediaPermissionState s) (hasMediaStream s).

Definition setDataChannelState (state : string) (s : Session.t) : Session.t :=
  mk (peerConnection s) (dataChannel s) (localStream s) (localCandidates s)
     (remoteCandidates s) (candidatePairs s) (isInitiator s)
     (connectionState s) (iceState s) state (localOffer s)
     (localAnswer s) (remoteOffer s) (remoteAnswer s) (messages s)
     (iceServers s) (iceServersLoading s) (usingCustomIceServers s)
     (mediaPermissionState s) (hasMediaStream s).

Definition setIceConfig (servers : list string) (loading custom : bool)
  (s : Session.t) : Session.t :=
  mk (peerConnection s) (dataChannel s) (localStream s) (localCandidates s)
     (remoteCandidates s) (candidatePairs s) (isInitiator s)
     (connectionState s) (iceState s) (dataChannelState s) (localOffer s)
     (localAnswer s) (remoteOffer s) (remoteAnswer s) (messages s)
     servers loading custom
     (mediaPermissionState s) (hasMediaStream s).

(** [stateMessages[state] || `Connection: ${state}`]. *)
Definition connectionStateMessage (state : string) : string :=
  if String.eqb state "new" then "Ready to connect"
  else if String.eqb state "connecting" then "Connecting to peer..."
  else if String.eqb state "connected" then "✅ Connected to peer!"
  else if String.eqb state "disconnected" then "Connection lost"
  else if String.eqb state "failed" then "❌ Connection failed"
  else if String.eqb state "closed" then "Connection closed"
  else "Connection: " ++ state.

(** [iceMessages[state] || `Network: ${state}`]. *)
Definition iceStateMessage (state : string) : string :=
  if String.eqb state "new" then "Starting connection process"
  else if String.eqb state "checking" then "Testing connection paths..."
  else if String.eqb state "connected" then "✅ Found working connection path!"
  else if String.eqb state "completed" then "✅ Connection optimized"
  else if String.eqb state "disconnected" then "Connection interrupted"
  else if String.eqb state "failed" then "❌ Could not connect"
  else if String.eqb state "closed" then "Connection closed"
  else "Network: " ++ state.

(** [gatheringMessages[state] || `Gathering: ${state}`]. *)
Definition gatheringStateMessage (state : string) : string :=
  if String.eqb state "new" then "Getting ready to find connection paths"
  else if String.eqb state "gathering" then "🔍 Finding ways to connect..."
  else if String.eqb state "complete" then "✅ Found all possible connection paths"
  else "Gathering: " ++ state.

(** [onconnectionstatechange]; [state] is the connection state the
    browser reports and [poll] what [getStats()] delivers to
    [logCandidateFailures].  The report is written in the step of the
    handler: [getStats()] is taken to settle before the next event of
    the page, a reset included. *)
Definition onconnectionstatechange (state : string)
  (poll : Reply (list Report)) (s : Session.t) : Session.t :=
  if negb (connected s) then s
  else
    let s1 := addMessage (sys (connectionStateMessage state))
                (setConnectionState state s) in
    if String.eqb state "failed"
    then addMessages
           (logCandidateFailures (connected s1) poll)
           (addMessage
              (dbg "🔍 Connection failed - checking ICE candidate details...") s1)
    else s1.

(** [oniceconnectionstatechange]; on [connected] the success report is
    left to a timer.  As above, [getStats()] is taken to settle before
    the next event of the page. *)
Definition oniceconnectionstatechange (state : string)
  (poll : Reply (list Report)) (s : Session.t) : Session.t :=
  if negb (connected s) then s
  else
    let s1 := addMessage (sys (iceStateMessage state)) (setIceState state s) in
    if String.eqb state "checking"
    then addMessage
           (dbg "🔍 Starting connectivity checks between candidates...") s1
    else if String.eqb state "failed"
    then addMessages
           (logCandidateFailures (connected s1) poll)
           (addMessage (dbg "❌ All connectivity checks failed") s1)
    else if String.eqb state "connected"
    then addMessage
           (dbg "🎉 Connection established! Analyzing successful path...") s1
    else s1.

(** The callback left with [setTimeout(() => logSuccessfulConnection(), 500)]. *)
Definition successTimeout (poll : Reply (list Report)) (s : Session.t)
  : Session.t :=
  addMessages (logSuccessfulConnection (connected s) poll) s.

(** [onicegatheringstatechange]. *)
Definition onicegatheringstatechange (state : string) (s : Session.t)
  : Session.t :=
  if negb (connected s) then s
  else
    let s1 := addMessage (sys (gatheringStateMessage state)) s in
    if String.eqb state "complete"
    then addMessages
           (logCandidateSummary (localCandidates s1))
           (addMessage
              (dbg ("📊 Gathered "
                    ++ JS.numToString (JsMap.size (localCandidates s1))
                    ++ " local candidates")) s1)
    else s1.

(** The four handlers [setupDataChannel] installs, and [ondatachannel]
    of the receiver. *)
Inductive ChannelEvent :=
| ChannelOpen
| ChannelClose
| ChannelError (errorText : string)
| ChannelMessage (data : string)
| ChannelArrives.

Definition onChannelEvent (e : ChannelEvent) (s : Session.t) : Session.t :=
  match e with
  | ChannelOpen =>
      addMessage (sys "🎉 Data channel opened - you can now send messages!")
        (setDataChannelState "open" s)
  | ChannelClose =>
      addMessage (sys "Data channel closed") (setDataChannelState "closed" s)
  | ChannelError errorText =>
      addMessage (err ("Data channel error: " ++ errorText)) s
  | ChannelMessage data => addMessage (Message.mk data received) s
  | ChannelArrives =>
      addMessage (sys "📨 Received data channel from peer")
        (setRole (isInitiator s) true s)
  end.

(** [sendMessage]; [readyState] is the state of the channel object and
    [message] the text of the input.  The result holds the session, the
    text left in the input and what was handed to [send]. *)
Definition sendMessage (readyState message : string) (s : Session.t)
  : Session.t * string * option string :=
  if (dataChannel s && String.eqb readyState "open" && negb (isBlank message))%bool
  then (addMessage (Message.mk message sent) s, "", Some message)
  else (s, message, None).

Definition handleKeyPress (key readyState message : string) (s : Session.t)
  : Session.t * string * option string :=
  if String.eqb key "Enter" then sendMessage readyState message s
  else (s, message, None).

(** [copyToClipboard]; [written] tells whether the clipboard took the
    text. *)
Definition copyToClipboard (written : bool) (s : Session.t) : Session.t :=
  if written then addMessage (sys "Copied to clipboard") s
  else addMessage (err "Failed to copy to clipboard") s.

Definition getStatusColor (state : string) : string :=
  if (String.eqb state "connected" || String.eqb state "open")%bool
  then "text-green-600"
  else if (String.eqb state "connecting" || String.eqb state "checking")%bool
  then "text-yellow-600"
  else if (String.eqb state "failed" || String.eqb state "disconnected"
           || String.eqb state "closed")%bool
  then "text-red-600"
  else "text-gray-600".

(** ** The ICE server configuration

    A server is kept in [iceServers] as the text of its urls, the text
    the page shows for it. *)

Definition fallbackServers : list string :=
  [ "stun:stun.l.google.com:19302"; "stun:stun1.l.google.com:19302";
    "stun:stun2.l.google.com:19302" ].

(** [fetchDefaultIceServers]; [reply] is the server list of the
    response, or the text of the error when the request, its status or
    its body fails. *)
Definition fetchDefaultIceServers (reply : Reply (list string))
  (s : Session.t) : Session.t :=
  let s1 := addMessage (sys "🌐 Loading default ICE servers...")
              (setIceConfig (iceServers s) true (usingCustomIceServers s) s) in
  let s2 :=
    match reply with
    | Ok servers =>
        addMessage
          (sys ("✅ Loaded " ++ lengthText servers ++ " default ICE server(s)"))
          (setIceConfig servers true (usingCustomIceServers s1) s1)
    | Throws errorMessage =>
        addMessage (sys "Using fallback STUN servers")
          (setIceConfig fallbackServers true (usingCustomIceServers s1)
             (addMessage
                (err ("⚠️ Failed to load default ICE servers: " ++ errorMessage))
                s1))
    end in
  setIceConfig (iceServers s2) false (usingCustomIceServers s2) s2.

(** A value read by [JSON.parse]; its numbers are taken integral, and
    the fields of an object have distinct keys. *)
Unset Elimination Schemes.
Inductive Json :=
| JNull
| JBool (b : bool)
| JNum (n : Z)
| JStr (text : string)
| JArr (items : list Json)
| JObj (fields : list (string * Json)).
Set Elimination Schemes.

(** The property [key] of a parsed value, for the keys [urls] and
    [username]: [None] is [undefined]; reading a property of [null]
    throws. *)
Definition property (key : string) (v : Json) : Reply (option Json) :=
  match v with
  | JNull => Throws "null"
  | JObj fields =>
      Ok (option_map snd
            (find (fun field => String.eqb (fst field) key) fields))
  | _ => Ok None
  end.

Definition truthyJson (v : option Json) : bool :=
  match v with
  | None | Some JNull => false
  | Some (JBool b) => b
  | Some (JNum n) => negb (n =? 0)
  | Some (JStr text) => negb (String.eqb text "")
  | Some (JArr _) | Some (JObj _) => true
  end.

Fixpoint joinWith (separator : string) (parts : list string) : string :=
  match parts with
  | [] => ""
  | [p] => p
  | p :: rest => p ++ separator ++ joinWith separator rest
  end.

(** [String(v)]; inside [join] a [null] element gives the empty text. *)
Fixpoint jsonToString (v : Json) : string :=
  match v with
  | JNull => "null"
  | JBool b => if b then "true" else "false"
  | JNum n => JS.numToString n
  | JStr text => text
  | JArr items =>
      joinWith ","
        (map (fun item => match item with
                          | JNull => ""
                          | _ => jsonToString item
                          end) items)
  | JObj _ => "[object Object]"
  end.

Definition joinJson (separator : string) (items : list Json) : string :=
  joinWith separator
    (map (fun item => match item with
                      | JNull => ""
                      | _ => jsonToString item
                      end) items).

Definition doubleQuote : string := String (ascii_of_nat 34) "".

(** The two checks [applyCustomIceServers] makes on one server: the text
    of the error it throws, if any.  [nullError] is the text of the
    browser's error for reading a property of [null]. *)
Definition serverError (nullError : string) (server : Json) : option string :=
  match property "urls" server with
  | Throws _ => Some nullError
  | Ok urls =>
      if negb (truthyJson urls)
      then Some ("Each ICE server must have a " ++ doubleQuote ++ "urls"
                 ++ doubleQuote ++ " property")
      else match urls with
           | Some (JStr _) | Some (JArr _) => None
           | _ => Some ("ICE server " ++ doubleQuote ++ "urls" ++ doubleQuote
                        ++ " must be a string or array of strings")
           end
  end.

(** The [for] loop over the servers: the first error stops it. *)
Fixpoint firstServerError (nullError : string) (servers : list Json)
  : option string :=
  match servers with
  | [] => None
  | server :: rest =>
      match serverError nullError server with
      | Some e => Some e
      | None => firstServerError nullError rest
      end
  end.

(** [Array.isArray(server.urls) ? server.urls.join(', ') : server.urls]. *)
Definition urlsText (server : Json) : string :=
  match property "urls" server with
  | Ok (Some (JArr items)) => joinJson ", " items
  | Ok (Some v) => jsonToString v
  | _ => "undefined"
  end.

Definition credentialsText (server : Json) : string :=
  match property "username" server with
  | Ok username => if truthyJson username then " (with credentials)" else ""
  | Throws _ => ""
  end.

(** The state of the configuration panel. *)
Module IceForm.
Record t := mk {
  showCustomIceConfig : bool;
  customIceServersText : string;
  customIceServersError : string
}.
End IceForm.

Definition withError (e : string) (form : IceForm.t) : IceForm.t :=
  IceForm.mk (IceForm.showCustomIceConfig form)
             (IceForm.customIceServersText form) e.

(** [applyCustomIceServers]; [parsed] is what [JSON.parse] gives for
    the text of the form. *)
Definition applyCustomIceServers (parsed : Reply Json) (nullError : string)
  (form : IceForm.t) (s : Session.t) : IceForm.t * Session.t :=
  let invalid errorMessage :=
    (withError ("Invalid JSON or structure: " ++ errorMessage) form, s) in
  if isBlank (IceForm.customIceServersText form)
  then (withError "Please enter ICE servers configuration" form, s)
  else
    match parsed with
    | Throws errorMessage => invalid errorMessage
    | Ok (JArr parsedServers) =>
        match firstServerError nullError parsedServers with
        | Some errorMessage => invalid errorMessage
        | None =>
            (IceForm.mk false (IceForm.customIceServersText form) "",
             addMessages
               (forEachIndexed
                  (fun server index =>
                     [ dbg ("   Server " ++ indexText index ++ ": "
                            ++ urlsText server ++ credentialsText server) ])
                  parsedServers)
               (addMessage
                  (sys ("✅ Applied " ++ lengthText parsedServers
                        ++ " custom ICE server(s)"))
                  (setIceConfig (map urlsText parsedServers)
                                (iceServersLoading s) true s)))
        end
    | Ok _ => invalid "ICE servers must be an array"
    end.

(** The apply button is disabled while the text is blank. *)
Definition clickApply (parsed : Reply Json) (nullError : string)
  (form : IceForm.t) (s : Session.t) : IceForm.t * Session.t :=
  if isBlank (IceForm.customIceServersText form) then (form, s)
  else applyCustomIceServers parsed nullError form s.

(** ** All events of the page *)

Inductive PageEvent :=
| Core (e : Event)
| ConnectionState (state : string) (poll : Reply (list Report))
| IceConnectionState (state : string) (poll : Reply (list Report))
| SuccessTimeout (poll : Reply (list Report))
| GatheringState (state : string)
| Channel (e : ChannelEvent)
| SendMessage (readyState message : string)
| CopyToClipboard (written : bool)
| RequestMedia (engine : Engine.t)
| FetchIceServers (reply : Reply (list string)).

Definition pageStep (s : Session.t) (e : PageEvent) : Session.t :=
  match e with
  | Core e' => step s e'
  | ConnectionState state poll => onconnectionstatechange state poll s
  | IceConnectionState state poll => oniceconnectionstatechange state poll s
  | SuccessTimeout poll => successTimeout poll s
  | GatheringState state => onicegatheringstatechange state s
  | Channel e' => onChannelEvent e' s
  | SendMessage readyState message => fst (fst (sendMessage readyState message s))
  | CopyToClipboard written => copyToClipboard written s
  | RequestMedia engine => fst (requestMediaPermissions engine s)
  | FetchIceServers reply => fetchDefaultIceServers reply s
  end.

Definition pageRun (events : list PageEvent) (s : Session.t) : Session.t :=
  fold_left pageStep events s.

(** The sum of the counts of a summary. *)
Definition sumCounts (summary : JsMap.t string Z) : Z :=
  fold_right Z.add 0 (JsMap.values summary).

(** A session with a connection and the registry of [hostsFirstRegistry]. *)
Definition gatheredSession : Session.t :=
  run [ IceCandidate (Some hostCandidate1); IceCandidate (Some hostCandidate2);
        IceCandidate (Some hostCandidate3); IceCandidate (Some relayCandidate) ]
      receiverReady.

(** The events of a run that are candidate discoveries. *)
Definition isDiscovery (e : PageEvent) : bool :=
  match e with
  | Core (IceCandidate (Some _)) => true
  | _ => false
  end.

Definition discoveries (events : list PageEvent) : Z :=
  Z.of_nat (length (filter isDiscovery events)).

(** A run of the page: servers load, the receiver initializes, two
    candidates with the same foundation and one more arrive, gathering
    completes, the connection fails. *)
Definition samplePageRun : list PageEvent :=
  [ FetchIceServers (Throws "HTTP error! status: 500");
    Core (Initialize false Engine.cooperative);
    Core (IceCandidate (Some hostCandidate1));
    Core (IceCandidate (Some hostCandidate1b));
    Core (IceCandidate (Some relayCandidate));
    GatheringState "complete";
    IceConnectionState "failed" (Ok failedSnapshot) ].

Definition isReset (e : PageEvent) : bool :=
  match e with
  | Core Reset => true
  | _ => false
  end.

(** [s'] has the log of [s] and possibly more after it. *)
Definition extendsLog (s s' : Session.t) : Prop :=
  exists added, messages s' = (messages s ++ added)%list.

(** The states of a pair that the failure report looks for. *)
Definition knownState (pair : PairStats.t) : bool :=
  (stateIs "succeeded" pair || stateIs "failed" pair
   || stateIs "in-progress" pair || stateIs "waiting" pair)%bool.

Definition noPairsLine : Message.t :=
  dbg "   No candidate pairs found - connection may not have started properly".

Definition pendingLine : Message.t :=
  dbg "🎉 Connection successful! (Nomination pending...)".

(** A snapshot whose only pair is frozen. *)
Definition frozenSnapshot : list Report :=
  [ LocalCandidate "L1" hostUdp; RemoteCandidate "R1" relayUdp;
    CandidatePair
      (PairStats.mk "L1" "R1" "frozen" None (Some 100)
                    None None None None None None None None None) ].

(** A snapshot with candidate reports and no pair report. *)
Definition candidatesOnlySnapshot : list Report :=
  [ LocalCandidate "L1" hostUdp; OtherReport; RemoteCandidate "R1" relayUdp ].

(** All messages of a list have the category ice-debug. *)
Definition allDebug (ms : list Message.t) : Prop :=
  Forall (fun m => Message.type m = ice_debug) ms.

(** No message of a list begins with [marker]. *)
Definition notLike (marker : string) (ms : list Message.t) : Prop :=
  Forall (fun m => String.prefix marker (Message.text m) = false) ms.

(** The media flag of the page agrees with the stream it holds. *)
Definition mediaConsistent (s : Session.t) : Prop :=
  hasMediaStream s = localStream s.

(** The page right after a reset, for a given ICE server configuration. *)
Definition freshPage (servers : list string) (loading custom : bool) : Session.t :=
  mk None false false JsMap.empty JsMap.empty JsMap.empty false
     "new" "new" "closed" "" "" "" "" [sys "Reset connection"]
     servers loading custom perm_none false.

(** The stream, the media flag and the server configuration that a
    handler leaves are what [reset] reads. *)
Definition sameForReset (s s' : Session.t) : Prop :=
  mediaConsistent s'
  /\ iceServers s' = iceServers s
  /\ iceServersLoading s' = iceServersLoading s
  /\ usingCustomIceServers s' = usingCustomIceServers s.

(** A browser that sets the remote description and then fails to
    create the answer. *)
Definition answerFails : Engine.t :=
  Engine.mk (Ok true) (Ok tt) (Ok "offer") (Throws "createAnswer failed")
            (Ok tt) (Ok tt) (Ok "remote").

(** A browser whose connection constructor throws. *)
Definition constructorFails : Engine.t :=
  Engine.mk (Ok true) (Throws "bad configuration") (Ok "offer") (Ok "answer")
            (Ok tt) (Ok tt) (Ok "remote").

(** The receiver with a remote offer pasted in. *)
Definition receiverWithOffer : Session.t :=
  setRemoteOffer "remote offer text" receiverReady.

(** The local description of the connection, if there is a connection. *)
Definition localDescriptionOf (s : Session.t) : option (option string) :=
  option_map PeerConnection.localDescription (peerConnection s).

Definition remoteDescriptionOf (s : Session.t) : option (option string) :=
  option_map PeerConnection.remoteDescription (peerConnection s).

(** A server that [applyCustomIceServers] lets through: an object whose
    [urls] is a string that is not empty, or an array. *)
Definition acceptsServer (server : Json) : bool :=
  match server with
  | JObj fields =>
      match find (fun field => String.eqb (fst field) "urls") fields with
      | Some (_, JStr text) => negb (String.eqb text "")
      | Some (_, JArr _) => true
      | _ => false
      end
  | _ => false
  end.

(** The text of the form is applied when it is not blank, parses to an
    array, and every element of the array is let through. *)
Definition configAccepted (parsed : Reply Json) (form : IceForm.t) : bool :=
  (negb (isBlank (IceForm.customIceServersText form))
   && match parsed with
      | Ok (JArr servers) => forallb acceptsServer servers
      | _ => false
      end)%bool.

(** The configuration of the placeholder of the form. *)
Definition sampleServers : list Json :=
  [ JObj [("urls", JStr "stun:stun.l.google.com:19302")];
    JObj [("urls", JStr "stun:stun1.l.google.com:19302")];
    JObj [("urls", JArr [ JStr "turn:your-turn-server.com:3478";
                          JStr "turns:your-turn-server.com:5349" ]);
          ("username", JStr "your-username");
          ("credential", JStr "your-password")] ].

Definition sampleForm : IceForm.t :=
  IceForm.mk true "[ ... ]" "".

(** ** Texts and numbers on which the embedding is exact *)

(** A text made of ASCII characters only: on such a text the case
    mapping of [JS.toLowerCase] is that of JavaScript. *)
Fixpoint isAscii (s : string) : bool :=
  match s with
  | EmptyString => true
  | String c r => (Nat.ltb (nat_of_ascii c) 128 && isAscii r)%bool
  end.

(** [Number.isSafeInteger]: the integers that a JavaScript number holds
    exactly, so that [parseInt] reads their decimal text back. *)
Definition isSafeInteger (z : Z) : bool := Z.abs z <? 2 ^ 53.

(** The text whose UTF-8 bytes are [l]. *)
Definition utf8 (l : list nat) : string :=
  fold_right (fun n s => String (ascii_of_nat n) s) "" l.

(** U+00A0, the no-break space. *)
Definition noBreakSpace : string := utf8 [194; 160]%nat.

(** ** Pairs whose candidates are not in the snapshot *)

(** A failed pair whose local candidate is reported and whose remote
    candidate is not. *)
Definition danglingPair : PairStats.t :=
  PairStats.mk "L1" "R7" "failed" None None
               (Some 2) (Some 0) None None None None None None None.

(** Three failed pairs; only the first names two candidates of the
    snapshot. *)
Definition partlyResolvedSnapshot : list Report :=
  [ LocalCandidate "L1" hostUdp; RemoteCandidate "R1" relayUdp;
    CandidatePair scenarioA; CandidatePair barePair;
    CandidatePair danglingPair ].

(** Some message of the list holds [word]. *)
Definition mentions (word : string) (ms : list Message.t) : bool :=
  existsb (fun m => includes word (Message.text m)) ms.

(** ** The local description while candidates are gathered

    The browser adds the candidates it gathers to the local description
    of the connection, and the timers of [createOffer] and
    [handleRemoteOffer] read the description again when they fire.
    [localDescriptionRewritten text] is that change, made by the browser
    and not by the page; [text] is the description afterwards. *)
Definition localDescriptionRewritten (text : string) (s : Session.t)
  : Session.t :=
  match peerConnection s with
  | Some pc =>
      match PeerConnection.localDescription pc with
      | Some _ => setPeerConnection (Some (withLocalDescription text pc)) s
      | None => s
      end
  | None => s
  end.

(** What happens between [setLocalDescription] and the timer. *)
Inductive Gathering :=
| CandidateFound (candidate : option RTCIceCandidate.t)
| DescriptionRewritten (text : string).

Definition gatheringStep (s : Session.t) (e : Gathering) : Session.t :=
  match e with
  | CandidateFound candidate => onicecandidate candidate s
  | DescriptionRewritten text => localDescriptionRewritten text s
  end.

Definition gather (events : list Gathering) (s : Session.t) : Session.t :=
  fold_left gatheringStep events s.

(** The description after [events], [initial] being the one before. *)
Definition currentText (initial : string) (events : list Gathering) : string :=
  fold_left (fun text e =>
               match e with
               | DescriptionRewritten t => t
               | CandidateFound _ => text
               end) events initial.

(** A candidate found, the description rewritten with it, and the end
    of the gathering. *)
Definition sampleGathering : list Gathering :=
  [ CandidateFound (Some hostCandidate1);
    DescriptionRewritten "offer with one candidate";
    CandidateFound None ].

(** * Properties *)

(** ** Candidate parsing *)






(** ** Failure diagnosis *)

Lemma gtb_ltb0 (x : Z) : (x >? 0) = (0 <? x).
Proof. apply Z.gtb_ltb. Qed.

Lemma reason_is_classification pair l r :
  Analysis.reason (analyzeConnectionFailure pair l r)
  = Analysis.reason (classifyPackets pair l r).
Proof. reflexivity. Qed.

Lemma classify_first_match pair l r :
  exists rule,
    firstMatch pair = Some rule
    /\ Analysis.reason (classifyPackets pair l r) = ruleReason rule.
Proof.
  unfold firstMatch, ruleOrder, classifyPackets. simpl find.
  unfold ruleApplies. rewrite !gtb_ltb0.
  destruct ((JS.numOr (PairStats.requestsSent pair) 0 =? 0)
            && (JS.numOr (PairStats.requestsReceived pair) 0 =? 0))%bool;
    [eexists; split; reflexivity|].
  destruct ((0 <? JS.numOr (PairStats.requestsSent pair) 0)
            && (JS.numOr (PairStats.requestsReceived pair) 0 =? 0))%bool;
    [eexists; split; reflexivity|].
  destruct ((0 <? JS.numOr (PairStats.requestsSent pair) 0)
            && (0 <? JS.numOr (PairStats.requestsReceived pair) 0)
            && (JS.numOr (PairStats.responsesReceived pair) 0 =? 0))%bool;
    [eexists; split; reflexivity|].
  destruct ((0 <? JS.numOr (PairStats.responsesReceived pair) 0)
            && (JS.numOr (PairStats.responsesSent pair) 0 =? 0))%bool;
    eexists; split; reflexivity.
Qed.

(** C1. The reason of the diagnosis is that of the first rule, in the
    order of the five rules, whose condition holds; and when the
    requests sent and the requests received both read as 0 (a missing
    counter reads as 0), that rule is the first one and the reason is
    "not selected for testing", whatever the other fields and the two
    candidates are. *)
Theorem diagnosis_first_matching_rule
  (pair : PairStats.t) (localCandidate remoteCandidate : CandidateStats.t) :
  (exists rule,
     firstMatch pair = Some rule
     /\ Analysis.reason
          (analyzeConnectionFailure pair localCandidate remoteCandidate)
        = ruleReason rule)
  /\ (JS.numOr (PairStats.requestsSent pair) 0 = 0 ->
      JS.numOr (PairStats.requestsReceived pair) 0 = 0 ->
      firstMatch pair = Some NotSelectedForTesting
      /\ Analysis.reason
           (analyzeConnectionFailure pair localCandidate remoteCandidate)
         = "No communication attempted - candidate pair was not selected for testing").
Proof.
  split.
  - rewrite reason_is_classification. apply classify_first_match.
  - intros Hsent Hrecv. rewrite reason_is_classification.
    unfold firstMatch, ruleOrder, classifyPackets. simpl find.
    unfold ruleApplies. rewrite Hsent, Hrecv. simpl. split; reflexivity.
Qed.

Lemma diagnosis_first_matching_rule_witness :
  firstMatch untestedPair = Some NotSelectedForTesting
  /\ Analysis.reason (analyzeConnectionFailure untestedPair relayUdp srflxTcp)
     = "No communication attempted - candidate pair was not selected for testing".
Proof.
  apply (proj2 (diagnosis_first_matching_rule untestedPair relayUdp srflxTcp));
    reflexivity.
Defined.

(** C2. When requests were sent and none was received, the reason is
    "no response to outbound checks" and the suggestions open with the
    hints of the first candidate-type case that applies: a relay on
    either side gives the two TURN hints; otherwise a server-reflexive
    candidate on either side gives the NAT/firewall and reflexive-address
    hints; otherwise two host candidates give the not-mutually-routable
    hints. *)
Theorem no_response_subclassification
  (pair : PairStats.t) (localCandidate remoteCandidate : CandidateStats.t) :
  0 < JS.numOr (PairStats.requestsSent pair) 0 ->
  JS.numOr (PairStats.requestsReceived pair) 0 = 0 ->
  let lt := CandidateStats.candidateType localCandidate in
  let rt := CandidateStats.candidateType remoteCandidate in
  let analysis := analyzeConnectionFailure pair localCandidate remoteCandidate in
  Analysis.reason analysis = "Outbound packets sent but no response received"
  /\ (lt = "relay" \/ rt = "relay" ->
      exists rest,
        Analysis.suggestions analysis
        = "TURN server may be unreachable or credentials invalid"
          :: "Check TURN server configuration and network connectivity"
          :: rest)
  /\ (lt <> "relay" -> rt <> "relay" -> lt = "srflx" \/ rt = "srflx" ->
      exists rest,
        Analysis.suggestions analysis
        = "NAT/Firewall may be blocking incoming connections"
          :: "STUN server may have provided incorrect reflexive address"
          :: rest)
  /\ (lt = "host" -> rt = "host" ->
      exists rest,
        Analysis.suggestions analysis
        = "Direct connection blocked - peers may be on different networks"
          :: "Firewall or network policy preventing direct communication"
          :: rest).
Proof.
  intros Hsent Hrecv lt rt analysis.
  assert (Hclass :
    classifyPackets pair localCandidate remoteCandidate
    = {| Analysis.reason := "Outbound packets sent but no response received";
         Analysis.details :=
           "Sent " ++ JS.numToString (JS.numOr (PairStats.requestsSent pair) 0)
           ++ " requests, received 0 responses";
         Analysis.suggestions :=
           noResponseSuggestions localCandidate remoteCandidate |}).
  { unfold classifyPackets. rewrite Hrecv, gtb_ltb0.
    assert (H0 : (JS.numOr (PairStats.requestsSent pair) 0 =? 0) = false)
      by (apply Z.eqb_neq; lia).
    assert (H1 : (0 <? JS.numOr (PairStats.requestsSent pair) 0) = true)
      by (apply Z.ltb_lt; lia).
    rewrite H0, H1. reflexivity. }
  subst analysis. unfold analyzeConnectionFailure. rewrite Hclass. simpl.
  unfold noResponseSuggestions. fold lt rt.
  split; [reflexivity|]. split; [|split].
  - intros Hrelay.
    assert (Hb : (String.eqb lt "relay" || String.eqb rt "relay")%bool = true).
    { apply orb_true_iff. destruct Hrelay as [H|H]; [left|right];
        apply String.eqb_eq; exact H. }
    rewrite Hb. eexists. reflexivity.
  - intros Hl Hr Hsrflx.
    apply String.eqb_neq in Hl. apply String.eqb_neq in Hr.
    rewrite Hl, Hr. simpl.
    assert (Hb : (String.eqb lt "srflx" || String.eqb rt "srflx")%bool = true).
    { apply orb_true_iff. destruct Hsrflx as [H|H]; [left|right];
        apply String.eqb_eq; exact H. }
    rewrite Hb. eexists. reflexivity.
  - intros Hl Hr. rewrite Hl, Hr. simpl. eexists. reflexivity.
Qed.

Lemma no_response_subclassification_witness :
  Analysis.reason (analyzeConnectionFailure scenarioA relayUdp hostUdp)
  = "Outbound packets sent but no response received"
  /\ exists rest,
       Analysis.suggestions (analyzeConnectionFailure scenarioA relayUdp hostUdp)
       = "TURN server may be unreachable or credentials invalid"
         :: "Check TURN server configuration and network connectivity"
         :: rest.
Proof.
  destruct (no_response_subclassification scenarioA relayUdp hostUdp)
    as (Hreason & Hrelay & _).
  - simpl. lia.
  - reflexivity.
  - split; [exact Hreason|]. apply Hrelay. left. reflexivity.
Defined.

(** ** The timing analysis *)

Lemma truthy_nonzero (v : Q) : ~ (v == 0)%Q -> JSQ.truthy (Some v) = true.
Proof.
  intros Hv. unfold JSQ.truthy. apply negb_true_iff.
  destruct (Qeq_bool v 0) eqn:E; [|reflexivity].
  apply Qeq_bool_iff in E. contradiction.
Qed.

Lemma gtb_true (a b : Q) : (b < a)%Q -> JSQ.gtb a b = true.
Proof.
  intros Hlt. unfold JSQ.gtb. apply negb_true_iff.
  destruct (Qle_bool a b) eqn:E; [|reflexivity].
  apply Qle_bool_iff in E. exfalso. apply (Qlt_not_le _ _ Hlt E).
Qed.

Lemma gtb_false (a b : Q) : (a <= b)%Q -> JSQ.gtb a b = false.
Proof.
  intros Hle. unfold JSQ.gtb. apply negb_false_iff.
  apply Qle_bool_iff. exact Hle.
Qed.

Lemma round_six_seconds (d : Q) : (d == 6000)%Q -> JSQ.round (d / 1000)%Q = 6.
Proof.
  intros Hd. unfold JSQ.round.
  assert (Heq : (d / 1000 + (1 # 2) == 13 # 2)%Q) by (rewrite Hd; reflexivity).
  rewrite Heq. reflexivity.
Qed.

Lemma append_empty_r (a : string) : a ++ "" = a.
Proof. induction a as [|c a IH]; simpl; [reflexivity | now rewrite IH]. Qed.

Lemma includes_app_r (needle a b : string) :
  includes needle b = true -> includes needle (a ++ b) = true.
Proof.
  intros Hb. induction a as [|c a IH].
  - exact Hb.
  - simpl. rewrite IH. apply orb_true_r.
Qed.

Lemma timingNote_present pair sent received :
  PairStats.lastPacketSentTimestamp pair = Some sent ->
  PairStats.lastPacketReceivedTimestamp pair = Some received ->
  ~ (sent == 0)%Q -> ~ (received == 0)%Q ->
  timingNote pair
  = if JSQ.gtb (received - sent)%Q 5000
    then " | Large time gap ("
         ++ JS.numToString (JSQ.round ((received - sent) / 1000)%Q)
         ++ "s) suggests network instability"
    else "".
Proof.
  intros Hs Hr Hs0 Hr0. unfold timingNote. rewrite Hs, Hr.
  rewrite (truthy_nonzero _ Hs0), (truthy_nonzero _ Hr0). reflexivity.
Qed.

(** C3 (amended). When both time stamps are present and not zero, the
    instability note is appended to the details exactly when the last
    packet was received more than 5000 ms after the last packet was
    sent; the note cites that difference rounded to whole seconds, so a
    reception 6000 ms after the sending cites "6s"; when the difference
    received minus sent is at most 5000 ms the details are those of the
    packet classification alone. *)
Theorem timing_note_received_after_sent
  (pair : PairStats.t) (localCandidate remoteCandidate : CandidateStats.t)
  (sent received : Q) :
  PairStats.lastPacketSentTimestamp pair = Some sent ->
  PairStats.lastPacketReceivedTimestamp pair = Some received ->
  ~ (sent == 0)%Q -> ~ (received == 0)%Q ->
  let analysis := analyzeConnectionFailure pair localCandidate remoteCandidate in
  let base :=
    Analysis.details (classifyPackets pair localCandidate remoteCandidate) in
  ((5000 < received - sent)%Q ->
   Analysis.details analysis
   = base ++ " | Large time gap ("
     ++ JS.numToString (JSQ.round ((received - sent) / 1000)%Q)
     ++ "s) suggests network instability")
  /\ ((received - sent == 6000)%Q ->
      Analysis.details analysis
      = base ++ " | Large time gap (6s) suggests network instability"
      /\ includes "6s" (Analysis.details analysis) = true)
  /\ ((received - sent <= 5000)%Q -> Analysis.details analysis = base).
Proof.
  intros Hs Hr Hs0 Hr0 analysis base.
  assert (Hd : Analysis.details analysis
               = base ++ timingNote pair) by reflexivity.
  rewrite Hd, (timingNote_present pair sent received Hs Hr Hs0 Hr0).
  split; [|split].
  - intros Hgap. rewrite (gtb_true _ _ Hgap). reflexivity.
  - intros Hsix.
    assert (Hgap : (5000 < received - sent)%Q) by (rewrite Hsix; reflexivity).
    rewrite (gtb_true _ _ Hgap), (round_six_seconds _ Hsix).
    split; [reflexivity|]. apply includes_app_r. reflexivity.
  - intros Hsmall. rewrite (gtb_false _ _ Hsmall). apply append_empty_r.
Qed.

Lemma timing_note_received_after_sent_witness :
  Analysis.details (analyzeConnectionFailure receivedAfterSent hostUdp hostUdp)
  = Analysis.details (classifyPackets receivedAfterSent hostUdp hostUdp)
    ++ " | Large time gap (6s) suggests network instability"
  /\ includes "6s"
       (Analysis.details (analyzeConnectionFailure receivedAfterSent hostUdp hostUdp))
     = true.
Proof.
  destruct (timing_note_received_after_sent receivedAfterSent hostUdp hostUdp
              (4000 # 1)%Q (10000 # 1)%Q) as (_ & Hsix & _).
  - reflexivity.
  - reflexivity.
  - vm_compute. discriminate.
  - vm_compute. discriminate.
  - apply Hsix. reflexivity.
Defined.

(** C3 as stated fails: the two time stamps are present and 6000 ms
    apart, the sending being the later one, and the details carry no
    instability note. *)
Lemma timing_gap_counterexample :
  PairStats.lastPacketSentTimestamp sentAfterReceived = Some (10000 # 1)%Q
  /\ PairStats.lastPacketReceivedTimestamp sentAfterReceived = Some (4000 # 1)%Q
  /\ (Qabs ((10000 # 1) - (4000 # 1)) == 6000)%Q
  /\ Analysis.details (analyzeConnectionFailure sentAfterReceived hostUdp hostUdp)
     = "Sent: 3 requests, 2 responses | Received: 2 requests, 2 responses"
  /\ includes "6s"
       (Analysis.details (analyzeConnectionFailure sentAfterReceived hostUdp hostUdp))
     = false.
Proof.
  repeat split; reflexivity.
Qed.

(** ** Missing statistics *)

Lemma numOr_zeroIfMissing (x : option Z) :
  JS.numOr (zeroIfMissing x) 0 = JS.numOr x 0.
Proof. destruct x; reflexivity. Qed.

Lemma classify_withZeroCounters pair l r :
  classifyPackets (withZeroCounters pair) l r = classifyPackets pair l r.
Proof.
  unfold classifyPackets, withZeroCounters. simpl.
  rewrite !numOr_zeroIfMissing. reflexivity.
Qed.

Lemma not_bothFound stats pair :
  bothFound stats pair = false ->
  JsMap.get (PairStats.localCandidateId pair) (localCandidateStats stats) = None
  \/ JsMap.get (PairStats.remoteCandidateId pair) (remoteCandidateStats stats) = None.
Proof.
  unfold bothFound.
  destruct (JsMap.get (PairStats.localCandidateId pair) (localCandidateStats stats));
    [|left; reflexivity].
  destruct (JsMap.get (PairStats.remoteCandidateId pair) (remoteCandidateStats stats));
    [discriminate | right; reflexivity].
Qed.

(** ** The JavaScript [Map] *)

Section JsMapFacts.
Context {K V : Type} `{KeyEq K}.

Lemma keyb_refl (k : K) : keyb k k = true.
Proof. apply keyb_spec. reflexivity. Qed.

Lemma keyb_false (a b : K) : keyb a b = false <-> a <> b.
Proof.
  split.
  - intros Hf Heq. apply keyb_spec in Heq. congruence.
  - intros Hne. destruct (keyb a b) eqn:E; [|reflexivity].
    apply keyb_spec in E. contradiction.
Qed.

Lemma get_set (k k' : K) (v : V) (m : JsMap.t K V) :
  JsMap.get k (JsMap.set k' v m)
  = if keyb k k' then Some v else JsMap.get k m.
Proof.
  induction m as [|[a b] r IH]; simpl.
  - reflexivity.
  - destruct (keyb k' a) eqn:Ea; simpl.
    + apply keyb_spec in Ea. subst a. destruct (keyb k k'); reflexivity.
    + rewrite IH. destruct (keyb k a) eqn:Eka; [|reflexivity].
      destruct (keyb k k') eqn:Ekk; [|reflexivity].
      apply keyb_spec in Eka. apply keyb_spec in Ekk. subst.
      rewrite keyb_refl in Ea. discriminate.
Qed.

Lemma get_In_keys (k : K) (m : JsMap.t K V) :
  JsMap.get k m <> None <-> In k (JsMap.keys m).
Proof.
  induction m as [|[a b] r IH]; simpl.
  - split; [congruence | intros []].
  - destruct (keyb k a) eqn:E.
    + apply keyb_spec in E. split; [intros _; left; congruence | discriminate].
    + apply keyb_false in E. rewrite IH. split.
      * intros Hin. right. exact Hin.
      * intros [Heq | Hin]; [congruence | exact Hin].
Qed.

Lemma keys_set_present (k : K) (v : V) (m : JsMap.t K V) :
  In k (JsMap.keys m) -> JsMap.keys (JsMap.set k v m) = JsMap.keys m.
Proof.
  induction m as [|[a b] r IH]; simpl.
  - intros [].
  - intros Hin. destruct (keyb k a) eqn:E; simpl.
    + apply keyb_spec in E. congruence.
    + apply keyb_false in E. f_equal. apply IH.
      destruct Hin as [Heq | Hin]; [congruence | exact Hin].
Qed.

Lemma keys_set_absent (k : K) (v : V) (m : JsMap.t K V) :
  ~ In k (JsMap.keys m) -> JsMap.keys (JsMap.set k v m) = (JsMap.keys m ++ [k])%list.
Proof.
  induction m as [|[a b] r IH]; simpl.
  - reflexivity.
  - intros Hnot. destruct (keyb k a) eqn:E; simpl.
    + apply keyb_spec in E. exfalso. apply Hnot. left. congruence.
    + f_equal. apply IH. intros Hin. apply Hnot. right. exact Hin.
Qed.

End JsMapFacts.

(** ** The candidate summary *)

(** One turn of the first [forEach] of [logCandidateSummary]. *)
Lemma candidateTypes_snoc locals key info :
  candidateTypes (locals ++ [(key, info)])%list
  = JsMap.set (ICECandidateInfo.type info)
      (JS.numOr (JsMap.get (ICECandidateInfo.type info) (candidateTypes locals)) 0 + 1)
      (candidateTypes locals).
Proof.
  unfold candidateTypes, JsMap.values. rewrite map_app, fold_left_app. reflexivity.
Qed.

Lemma kindsOf_snoc locals key info :
  kindsOf (locals ++ [(key, info)])%list
  = (kindsOf locals ++ [ICECandidateInfo.type info])%list.
Proof. unfold kindsOf, JsMap.values. rewrite !map_app. reflexivity. Qed.

Lemma firstSeenOrder_In (l : list string) (x : string) :
  In x (firstSeenOrder l) <-> In x l.
Proof.
  unfold firstSeenOrder. rewrite <- in_rev, nodup_In, <- in_rev. reflexivity.
Qed.

Lemma firstSeenOrder_snoc (l : list string) (x : string) :
  firstSeenOrder (l ++ [x])%list
  = if in_dec string_dec x l then firstSeenOrder l
    else (firstSeenOrder l ++ [x])%list.
Proof.
  unfold firstSeenOrder. rewrite rev_app_distr. simpl.
  destruct (in_dec string_dec x (rev l)) as [Hin|Hnot];
    destruct (in_dec string_dec x l) as [Hin'|Hnot']; try reflexivity.
  - exfalso. apply Hnot'. apply in_rev. exact Hin.
  - exfalso. apply Hnot. apply in_rev in Hin'. exact Hin'.
Qed.

Lemma candidateTypes_keys locals :
  JsMap.keys (candidateTypes locals) = firstSeenOrder (kindsOf locals).
Proof.
  induction locals as [|[key info] locals IH] using rev_ind.
  - reflexivity.
  - rewrite candidateTypes_snoc, kindsOf_snoc, firstSeenOrder_snoc.
    destruct (in_dec string_dec (ICECandidateInfo.type info) (kindsOf locals))
      as [Hin|Hnot].
    + rewrite keys_set_present; [exact IH|].
      rewrite IH. apply firstSeenOrder_In. exact Hin.
    + rewrite keys_set_absent; [now rewrite IH|].
      rewrite IH. intros Hin. apply Hnot. apply firstSeenOrder_In. exact Hin.
Qed.

Lemma count_occ_snoc (l : list string) (x kind : string) :
  count_occ string_dec (l ++ [x])%list kind
  = (count_occ string_dec l kind + if string_dec x kind then 1 else 0)%nat.
Proof.
  rewrite count_occ_app. simpl. destruct (string_dec x kind); reflexivity.
Qed.

Lemma candidateTypes_get locals kind :
  JsMap.get kind (candidateTypes locals)
  = if countKind kind locals =? 0 then None else Some (countKind kind locals).
Proof.
  induction locals as [|[key info] locals IH] using rev_ind; intros.
  - reflexivity.
  - rewrite candidateTypes_snoc, get_set. unfold countKind in *.
    rewrite kindsOf_snoc, count_occ_snoc.
    destruct (string_dec (ICECandidateInfo.type info) kind) as [Heq|Hne].
    + subst kind. simpl keyb. rewrite String.eqb_refl, IH.
      set (n := count_occ string_dec (kindsOf locals) (ICECandidateInfo.type info)).
      assert (Hpos : (Z.of_nat (n + 1) =? 0) = false) by (apply Z.eqb_neq; lia).
      rewrite Hpos. f_equal.
      destruct (Z.of_nat n =? 0) eqn:E; simpl.
      * apply Z.eqb_eq in E. lia.
      * rewrite E. lia.
    + simpl keyb.
      assert (Hb : String.eqb kind (ICECandidateInfo.type info) = false)
        by (apply String.eqb_neq; congruence).
      rewrite Hb, IH, Nat.add_0_r. reflexivity.
Qed.

(** C6 (amended). The summary lists each kind that occurs among the
    local candidates once, in the order in which the kinds first occur
    in the registry, each with the number of candidates of that kind;
    no sorting by count or by name takes place.  When three host
    candidates come before one relay candidate in the registry, the
    result is host with 3, then relay with 1. *)
Theorem candidateTypes_first_seen_order
  (localCandidates : JsMap.t (option string) ICECandidateInfo.t) :
  JsMap.keys (candidateTypes localCandidates)
  = firstSeenOrder (kindsOf localCandidates)
  /\ (forall kind,
        JsMap.get kind (candidateTypes localCandidates)
        = if countKind kind localCandidates =? 0 then None
          else Some (countKind kind localCandidates))
  /\ (forall k1 k2 k3 k4 h1 h2 h3 r,
        localCandidates = [(k1, h1); (k2, h2); (k3, h3); (k4, r)] ->
        ICECandidateInfo.type h1 = "host" ->
        ICECandidateInfo.type h2 = "host" ->
        ICECandidateInfo.type h3 = "host" ->
        ICECandidateInfo.type r = "relay" ->
        candidateTypes localCandidates = [("host", 3); ("relay", 1)]).
Proof.
  split; [apply candidateTypes_keys | split; [apply candidateTypes_get|]].
  intros k1 k2 k3 k4 h1 h2 h3 r -> H1 H2 H3 Hr.
  unfold candidateTypes. simpl. rewrite H1, H2, H3, Hr. reflexivity.
Qed.

(** C6 as stated fails: with the relay candidate found first, the
    summary puts relay with 1 before host with 3. *)
Lemma summary_order_counterexample :
  kindsOf relayFirstRegistry = ["relay"; "host"; "host"; "host"]
  /\ candidateTypes relayFirstRegistry = [("relay", 1); ("host", 3)]
  /\ candidateTypes relayFirstRegistry <> [("host", 3); ("relay", 1)].
Proof.
  split; [reflexivity | split; [reflexivity | discriminate]].
Qed.

Lemma candidateTypes_first_seen_order_witness :
  candidateTypes hostsFirstRegistry = [("host", 3); ("relay", 1)].
Proof.
  assert (Hregistry :
    hostsFirstRegistry
    = [ (Some "1", infoOf hostCandidate1); (Some "2", infoOf hostCandidate2);
        (Some "3", infoOf hostCandidate3); (Some "4", infoOf relayCandidate) ])
    by (vm_compute; reflexivity).
  apply (proj2 (proj2 (candidateTypes_first_seen_order hostsFirstRegistry))
           _ _ _ _ _ _ _ _ Hregistry);
    vm_compute; reflexivity.
Defined.

(** ** The order of the reports *)

Lemma filter_Subseq {A : Type} (p : A -> bool) (l : list A) :
  Subseq (filter p l) l.
Proof.
  induction l as [|x l IH]; simpl.
  - constructor.
  - destruct (p x); constructor; exact IH.
Qed.

Lemma Subseq_trans {A : Type} (a b c : list A) :
  Subseq a b -> Subseq b c -> Subseq a c.
Proof.
  intros Hab Hbc. revert a Hab.
  induction Hbc as [|x b c Hbc IH|x b c Hbc IH]; intros a Hab.
  - exact Hab.
  - constructor. apply IH. exact Hab.
  - inversion Hab; subst.
    + constructor. apply IH. assumption.
    + apply Subseq_keep. apply IH. assumption.
Qed.

Lemma Forall_filter_true {A : Type} (p : A -> bool) (l : list A) :
  Forall (fun x => p x = true) (filter p l).
Proof.
  apply Forall_forall. intros x Hin. apply filter_In in Hin. tauto.
Qed.

Lemma Forall_filter_keep {A : Type} (p q : A -> bool) (l : list A) :
  Forall (fun x => q x = true) l -> Forall (fun x => q x = true) (filter p l).
Proof.
  rewrite !Forall_forall. intros Hall x Hin. apply Hall.
  apply filter_In in Hin. tauto.
Qed.

(** A block that is empty for the pairs left out can be read over the
    pairs kept. *)
Lemma flat_map_filter {A B : Type} (p : A -> bool) (f : A -> list B) (l : list A) :
  (forall x, p x = false -> f x = []) ->
  flat_map f l = flat_map f (filter p l).
Proof.
  intros Hempty. induction l as [|x l IH]; simpl.
  - reflexivity.
  - destruct (p x) eqn:E; simpl; rewrite IH; [reflexivity|].
    rewrite (Hempty x E). reflexivity.
Qed.

Lemma succeededLines_missing stats pair :
  bothFound stats pair = false ->
  succeededLines (localCandidateStats stats) (remoteCandidateStats stats) pair = [].
Proof.
  intros Hmiss. unfold succeededLines.
  destruct (not_bothFound stats pair Hmiss) as [Hl|Hr].
  - rewrite Hl. reflexivity.
  - rewrite Hr. destruct (JsMap.get _ (localCandidateStats stats)); reflexivity.
Qed.

Lemma failedLines_missing stats pair :
  bothFound stats pair = false ->
  failedLines (localCandidateStats stats) (remoteCandidateStats stats) pair = [].
Proof.
  intros Hmiss. unfold failedLines.
  destruct (not_bothFound stats pair Hmiss) as [Hl|Hr].
  - rewrite Hl. reflexivity.
  - rewrite Hr. destruct (JsMap.get _ (localCandidateStats stats)); reflexivity.
Qed.

Lemma header_split {A B : Type} (h : B) (l : list A) (body : list A -> list B) :
  body [] = [] ->
  match l with [] => [] | _ :: _ => h :: body l end
  = (match l with [] => [] | _ :: _ => [h] end ++ body l)%list.
Proof. intros Hnil. destruct l; [now rewrite Hnil | reflexivity]. Qed.

(** The failure report is made of the lines of the succeeded pairs that
    are written, then the lines of the failed pairs that are written, in
    the order of [failureReportOrder]. *)
Lemma failureReport_blocks stats :
  exists pre mid post,
    failureReport stats
    = (pre
       ++ flat_map (succeededLines (localCandidateStats stats)
                                   (remoteCandidateStats stats))
            (filter (bothFound stats)
                    (filter (stateIs "succeeded") (candidatePairStats stats)))
       ++ mid
       ++ flat_map (failedLines (localCandidateStats stats)
                                (remoteCandidateStats stats))
            (filter (bothFound stats)
                    (filter (stateIs "failed") (candidatePairStats stats)))
       ++ post)%list.
Proof.
  unfold failureReport.
  rewrite <- (flat_map_filter (bothFound stats) _ _ (succeededLines_missing stats)).
  rewrite <- (flat_map_filter (bothFound stats) _ _ (failedLines_missing stats)).
  rewrite (header_split _ (filter (stateIs "succeeded") (candidatePairStats stats))
             (flat_map (succeededLines (localCandidateStats stats)
                                       (remoteCandidateStats stats)))
             eq_refl).
  rewrite (header_split _ (filter (stateIs "failed") (candidatePairStats stats))
             (flat_map (failedLines (localCandidateStats stats)
                                    (remoteCandidateStats stats)))
             eq_refl).
  rewrite <- !app_assoc.
  eexists (_ :: _), _, _. simpl. reflexivity.
Qed.

Lemma no_succeeded_when_groups_empty (pairs : list PairStats.t) :
  filter isSucceededNominated pairs = [] ->
  filter isSucceededOther pairs = [] ->
  filter (stateIs "succeeded") pairs = [].
Proof.
  unfold isSucceededNominated, isSucceededOther.
  induction pairs as [|p pairs IH]; simpl; [reflexivity|].
  destruct (stateIs "succeeded" p), (isNominated p); simpl;
    try discriminate; intros; try discriminate; auto.
Qed.

Lemma length_positive {A : Type} (l : list A) :
  (0 <? length l)%nat = false -> l = [].
Proof. destruct l; [reflexivity | discriminate]. Qed.

(** The fallback branch of [logSuccessfulConnection] writes nothing:
    when no pair is in the two groups, no pair has succeeded. *)
Lemma successReport_blocks stats :
  successReport stats
  = if ((0 <? length (nominatedPairs stats))%nat
        || (0 <? length (otherSuccessfulPairs stats))%nat)%bool
    then dbg "🏆 SUCCESSFUL CONNECTION DETAILS:"
         :: forEachIndexed (primaryBlock (localCandidateStats stats)
                                         (remoteCandidateStats stats))
                           (nominatedPairs stats)
         ++ forEachIndexed (backupBlock (localCandidateStats stats)
                                        (remoteCandidateStats stats))
                           (otherSuccessfulPairs stats)
    else [].
Proof.
  unfold successReport.
  destruct ((0 <? length (nominatedPairs stats))%nat
            || (0 <? length (otherSuccessfulPairs stats))%nat)%bool eqn:E;
    [reflexivity|].
  apply orb_false_iff in E. destruct E as [En Eo].
  apply length_positive in En. apply length_positive in Eo.
  rewrite (no_succeeded_when_groups_empty _ En Eo). reflexivity.
Qed.

(** C7 (amended). In the failure report the succeeded pairs are written
    before the failed pairs; in the success report the nominated pairs
    are written before the other succeeded pairs.  Within each of these
    groups the pairs are written in the order in which the statistics
    snapshot lists them: the page sorts by no priority.  The lines of
    the two reports are the blocks of the pairs in exactly these
    orders. *)
Theorem report_order_follows_snapshot (stats : list Report) :
  (exists succeededPart failedPart,
     failureReportOrder stats = (succeededPart ++ failedPart)%list
     /\ Forall (fun p => stateIs "succeeded" p = true) succeededPart
     /\ Forall (fun p => stateIs "failed" p = true) failedPart
     /\ Subseq succeededPart (candidatePairStats stats)
     /\ Subseq failedPart (candidatePairStats stats)
     /\ exists pre mid post,
          failureReport stats
          = (pre
             ++ flat_map (succeededLines (localCandidateStats stats)
                                         (remoteCandidateStats stats))
                         succeededPart
             ++ mid
             ++ flat_map (failedLines (localCandidateStats stats)
                                      (remoteCandidateStats stats))
                         failedPart
             ++ post)%list)
  /\ (exists primary backup,
        successReportOrder stats = (primary ++ backup)%list
        /\ Forall (fun p => isSucceededNominated p = true) primary
        /\ Forall (fun p => isSucceededOther p = true) backup
        /\ Subseq primary (candidatePairStats stats)
        /\ Subseq backup (candidatePairStats stats))
  /\ successReport stats
     = (if ((0 <? length (nominatedPairs stats))%nat
            || (0 <? length (otherSuccessfulPairs stats))%nat)%bool
        then dbg "🏆 SUCCESSFUL CONNECTION DETAILS:"
             :: forEachIndexed (primaryBlock (localCandidateStats stats)
                                             (remoteCandidateStats stats))
                               (nominatedPairs stats)
             ++ forEachIndexed (backupBlock (localCandidateStats stats)
                                            (remoteCandidateStats stats))
                               (otherSuccessfulPairs stats)
        else []).
Proof.
  split; [|split].
  - exists (filter (bothFound stats)
              (filter (stateIs "succeeded") (candidatePairStats stats))),
           (filter (bothFound stats)
              (filter (stateIs "failed") (candidatePairStats stats))).
    split; [reflexivity|].
    split; [apply Forall_filter_keep, Forall_filter_true|].
    split; [apply Forall_filter_keep, Forall_filter_true|].
    split; [eapply Subseq_trans; apply filter_Subseq|].
    split; [eapply Subseq_trans; apply filter_Subseq|].
    apply failureReport_blocks.
  - exists (filter (bothFound stats) (nominatedPairs stats)),
           (filter (bothFound stats) (otherSuccessfulPairs stats)).
    split; [reflexivity|].
    split; [apply Forall_filter_keep; apply (Forall_filter_true isSucceededNominated)|].
    split; [apply Forall_filter_keep; apply (Forall_filter_true isSucceededOther)|].
    split; eapply Subseq_trans; apply filter_Subseq.
  - apply successReport_blocks.
Qed.

(** C7 as stated fails.  Two nominated succeeded pairs that the snapshot
    lists with priority 300 and then 500 are written in that order; and
    the failure report writes a succeeded pair that is not nominated
    before a nominated one. *)
Lemma report_priority_order_counterexample :
  map PairStats.priority (successReportOrder risingPrioritySnapshot)
  = [Some 300; Some 500]
  /\ priorityLines (successReport risingPrioritySnapshot)
     = [ "   Priority: 300 (HIGHEST PRIORITY - IN USE)";
         "   Priority: 500 (HIGHEST PRIORITY - IN USE)" ]
  /\ map isNominated (failureReportOrder backupFirstSnapshot) = [false; true]
  /\ map Message.text (failureReport backupFirstSnapshot)
     = [ "🔍 Detailed connectivity check results:";
         "✅ 2 successful connection(s):";
         "   ✅ host 192.168.1.2:5000 (udp) ↔ relay 203.0.113.9:3478 (udp)";
         "   ✅ host 192.168.1.2:5000 (udp) ↔ relay 203.0.113.9:3478 (udp) [NOMINATED]" ].
Proof.
  repeat split; vm_compute; reflexivity.
Qed.

(** ** The registry along a run *)

Ltac handler_cases :=
  repeat (simpl;
          match goal with
          | |- context [match ?x with _ => _ end] => destruct x eqn:?
          end);
  simpl; try reflexivity.

Lemma createOffer_keeps_registry engine s :
  localCandidates (createOffer engine s) = localCandidates s
  /\ remoteCandidates (createOffer engine s) = remoteCandidates s.
Proof. unfold createOffer. split; handler_cases. Qed.

Lemma offerTimeout_keeps_registry s :
  localCandidates (offerTimeout s) = localCandidates s
  /\ remoteCandidates (offerTimeout s) = remoteCandidates s.
Proof. unfold offerTimeout. split; handler_cases. Qed.

Lemma handleRemoteOffer_keeps_registry engine s :
  localCandidates (handleRemoteOffer engine s) = localCandidates s
  /\ remoteCandidates (handleRemoteOffer engine s) = remoteCandidates s.
Proof. unfold handleRemoteOffer. split; handler_cases. Qed.

Lemma answerTimeout_keeps_registry s :
  localCandidates (answerTimeout s) = localCandidates s
  /\ remoteCandidates (answerTimeout s) = remoteCandidates s.
Proof. unfold answerTimeout. split; handler_cases. Qed.

Lemma handleRemoteAnswer_keeps_registry engine s :
  localCandidates (handleRemoteAnswer engine s) = localCandidates s
  /\ remoteCandidates (handleRemoteAnswer engine s) = remoteCandidates s.
Proof. unfold handleRemoteAnswer. split; handler_cases. Qed.

Lemma initializeWebRTC_clears asInitiator engine s :
  localCandidates (initializeWebRTC asInitiator engine s) = JsMap.empty
  /\ remoteCandidates (initializeWebRTC asInitiator engine s) = JsMap.empty
  /\ candidatePairs (initializeWebRTC asInitiator engine s) = JsMap.empty.
Proof.
  unfold initializeWebRTC, requestMediaPermissions.
  destruct (mediaPermissionState s);
    destruct (Engine.getUserMedia engine) as [[|]|e];
    destruct (Engine.construct engine) as [u|e'];
    repeat split; handler_cases.
Qed.

Lemma reset_clears s :
  localCandidates (reset s) = JsMap.empty
  /\ remoteCandidates (reset s) = JsMap.empty.
Proof. split; reflexivity. Qed.

Lemma onicecandidate_remote candidate s :
  remoteCandidates (onicecandidate candidate s) = remoteCandidates s.
Proof. unfold onicecandidate. handler_cases. Qed.

(** One event, seen from one key of the local registry. *)
Lemma step_entry (k : option string) (e : Event) (s : Session.t) :
  JsMap.get k (localCandidates (step s e))
  = entryAfter k e (JsMap.get k (localCandidates s)).
Proof.
  destruct e as [candidate|asInitiator engine| |engine| |text|engine| |text|engine];
    simpl.
  - unfold onicecandidate. destruct candidate as [c|]; [|reflexivity].
    destruct (parseICECandidate c) as [info|]; [|reflexivity].
    simpl. exact (get_set k (RTCIceCandidate.foundation c) info (localCandidates s)).
  - now rewrite (proj1 (initializeWebRTC_clears asInitiator engine s)).
  - reflexivity.
  - now rewrite (proj1 (createOffer_keeps_registry engine s)).
  - now rewrite (proj1 (offerTimeout_keeps_registry s)).
  - reflexivity.
  - now rewrite (proj1 (handleRemoteOffer_keeps_registry engine s)).
  - now rewrite (proj1 (answerTimeout_keeps_registry s)).
  - reflexivity.
  - now rewrite (proj1 (handleRemoteAnswer_keeps_registry engine s)).
Qed.

Lemma step_remote (e : Event) (s : Session.t) :
  remoteCandidates (step s e)
  = if clears e then JsMap.empty else remoteCandidates s.
Proof.
  destruct e as [candidate|asInitiator engine| |engine| |text|engine| |text|engine];
    simpl.
  - apply onicecandidate_remote.
  - apply (initializeWebRTC_clears asInitiator engine s).
  - reflexivity.
  - apply createOffer_keeps_registry.
  - apply offerTimeout_keeps_registry.
  - reflexivity.
  - apply handleRemoteOffer_keeps_registry.
  - apply answerTimeout_keeps_registry.
  - reflexivity.
  - apply handleRemoteAnswer_keeps_registry.
Qed.

Lemma run_entry (k : option string) (events : list Event) (s : Session.t) :
  JsMap.get k (localCandidates (run events s))
  = fold_left (fun entry e => entryAfter k e entry) events
              (JsMap.get k (localCandidates s)).
Proof.
  unfold run. revert s. induction events as [|e events IH]; intros s; simpl.
  - reflexivity.
  - rewrite IH, step_entry. reflexivity.
Qed.

Lemma run_remote (events : list Event) (s : Session.t) :
  remoteCandidates (run events s)
  = if existsb clears events then JsMap.empty else remoteCandidates s.
Proof.
  unfold run. revert s. induction events as [|e events IH]; intros s; simpl.
  - reflexivity.
  - rewrite IH, step_remote. destruct (clears e); simpl; [|reflexivity].
    destruct (existsb clears events); reflexivity.
Qed.

Lemma recorded_cons (e : Event) (events : list Event) :
  recorded (e :: events) = (recorded [e] ++ recorded events)%list.
Proof. unfold recorded. simpl. now rewrite app_nil_r. Qed.

(** Without clearing events, and when every record is the one [f] gives
    for its key, the entry of [k] after the run is [f k] as soon as the
    run records [k] at all. *)
Lemma fold_entry_consistent (k : option string)
  (f : option string -> ICECandidateInfo.t) (events : list Event)
  (before : option ICECandidateInfo.t) :
  existsb clears events = false ->
  Forall (fun r => snd r = f (fst r)) (recorded events) ->
  fold_left (fun entry e => entryAfter k e entry) events before
  = if existsb (fun r => keyb k (fst r)) (recorded events)
    then Some (f k) else before.
Proof.
  revert before. induction events as [|e events IH]; intros before Hclear Hf.
  - reflexivity.
  - simpl in Hclear. apply orb_false_iff in Hclear. destruct Hclear as [He Hrest].
    rewrite recorded_cons in Hf. apply Forall_app in Hf. destruct Hf as [Hfe Hfrest].
    rewrite recorded_cons, existsb_app. simpl fold_left.
    rewrite (IH _ Hrest Hfrest).
    destruct e as [[c|]|asInitiator engine| |engine| |text|engine| |text|engine];
      simpl in *; try discriminate; try reflexivity.
    destruct (parseICECandidate c) as [info|]; simpl in *; [|reflexivity].
    inversion Hfe as [|r rs Hinfo _]; subst. simpl in Hinfo.
    destruct (optStrEqb k (RTCIceCandidate.foundation c)) eqn:Ek; simpl.
    + apply optStrEqb_spec in Ek. subst k. rewrite Hinfo.
      destruct (existsb _ (recorded events)); reflexivity.
    + reflexivity.
Qed.

Lemma existsb_Permutation {A : Type} (p : A -> bool) (l l' : list A) :
  Permutation l l' -> existsb p l = existsb p l'.
Proof.
  intros Hperm. induction Hperm as [|x l l' _ IH|x y l|l l' l'' _ IH1 _ IH2]; simpl.
  - reflexivity.
  - now rewrite IH.
  - destruct (p x), (p y); reflexivity.
  - now rewrite IH1.
Qed.

Lemma recorded_Permutation (events events' : list Event) :
  Permutation events events' -> Permutation (recorded events) (recorded events').
Proof. intros Hperm. unfold recorded. apply Permutation_flat_map. exact Hperm. Qed.

(** C9 (amended). Along any sequence of candidate discoveries,
    signaling calls, initializations and resets, the entry of each key of
    the local registry is the record of the last candidate found under
    that key since the last initialization or reset: a later record
    under the same key replaces the earlier one.  The remote registry is
    never written: it keeps its content, or is emptied by an
    initialization or a reset.  The content of the local registry does
    not depend on the order of the events when no event clears the
    registry and all candidates found under one key give the same
    record. *)
Theorem registry_last_write_wins (events : list Event) (s : Session.t) :
  (forall k,
     JsMap.get k (localCandidates (run events s))
     = fold_left (fun entry e => entryAfter k e entry) events
                 (JsMap.get k (localCandidates s)))
  /\ remoteCandidates (run events s)
     = (if existsb clears events then JsMap.empty else remoteCandidates s)
  /\ (forall events' f,
        Permutation events events' ->
        existsb clears events = false ->
        Forall (fun r => snd r = f (fst r)) (recorded events) ->
        forall k,
          JsMap.get k (localCandidates (run events s))
          = JsMap.get k (localCandidates (run events' s))).
Proof.
  split; [intros k; apply run_entry | split; [apply run_remote|]].
  intros events' f Hperm Hclear Hf k.
  assert (Hclear' : existsb clears events' = false)
    by (rewrite <- (existsb_Permutation clears _ _ Hperm); exact Hclear).
  assert (Hf' : Forall (fun r => snd r = f (fst r)) (recorded events'))
    by (eapply Permutation_Forall; [apply recorded_Permutation; exact Hperm | exact Hf]).
  rewrite !run_entry.
  rewrite (fold_entry_consistent k f events _ Hclear Hf).
  rewrite (fold_entry_consistent k f events' _ Hclear' Hf').
  rewrite (existsb_Permutation _ _ _ (recorded_Permutation _ _ Hperm)).
  reflexivity.
Qed.

Lemma sampleEvents_Permutation : Permutation sampleEvents sampleEventsReordered.
Proof.
  unfold sampleEvents, sampleEventsReordered.
  eapply perm_trans; [apply perm_skip, perm_swap | apply perm_swap].
Qed.

Lemma registry_last_write_wins_witness :
  JsMap.get (Some "4") (localCandidates (run sampleEvents receiverReady))
  = JsMap.get (Some "4") (localCandidates (run sampleEventsReordered receiverReady)).
Proof.
  apply (proj2 (proj2 (registry_last_write_wins sampleEvents receiverReady))
           sampleEventsReordered sampleInfo).
  - exact sampleEvents_Permutation.
  - reflexivity.
  - vm_compute. repeat constructor.
Defined.

(** C9 as stated fails.  Two candidates found under the same foundation
    leave the record of the one found last, so the content depends on
    the order of arrival; and processing a remote offer leaves the remote
    registry empty. *)
Lemma registry_order_counterexample :
  RTCIceCandidate.foundation hostCandidate1
  = RTCIceCandidate.foundation hostCandidate1b
  /\ JsMap.get (Some "1")
       (localCandidates
          (run [ IceCandidate (Some hostCandidate1);
                 IceCandidate (Some hostCandidate1b) ] receiverReady))
     = Some (infoOf hostCandidate1b)
  /\ JsMap.get (Some "1")
       (localCandidates
          (run [ IceCandidate (Some hostCandidate1b);
                 IceCandidate (Some hostCandidate1) ] receiverReady))
     = Some (infoOf hostCandidate1)
  /\ infoOf hostCandidate1 <> infoOf hostCandidate1b
  /\ remoteCandidates
       (run [ TypeRemoteOffer "offer with a=candidate:7 1 udp 1 198.51.100.7 4000 typ host";
              HandleRemoteOffer Engine.cooperative; AnswerTimeout ] receiverReady)
     = JsMap.empty.
Proof.
  split; [reflexivity|].
  split; [vm_compute; reflexivity|].
  split; [vm_compute; reflexivity|].
  split; [vm_compute; discriminate|].
  vm_compute; reflexivity.
Qed.

(** ** Sequencing of the session operations *)

Lemma createOffer_without_connection engine s :
  peerConnection s = None ->
  createOffer engine s
  = addMessage (err "Error creating offer: No peer connection available") s.
Proof. intros Hnone. unfold createOffer. rewrite Hnone. reflexivity. Qed.

Lemma createOffer_with_connection engine s pc offer :
  peerConnection s = Some pc ->
  Engine.createOffer engine = Ok offer ->
  Engine.setLocalDescription engine = Ok tt ->
  createOffer engine s
  = setPeerConnection (Some (withLocalDescription offer pc))
      (addMessage (sys "⚙️ Setting up local connection details...")
         (addMessage (sys "📝 Creating connection offer...") s)).
Proof.
  intros Hpc Hoffer Hset. unfold createOffer. rewrite Hpc, Hoffer, Hset.
  reflexivity.
Qed.

(** C4 (amended). In the receiver branch the create-offer button is not
    on the page, so a click leaves the session as it is and reports
    nothing.  [createOffer] itself looks at the connection only: without
    a connection it reports "No peer connection available" and changes
    nothing else; with a connection, in either role, and a browser that
    accepts the calls, it installs the offer as local description and
    reports no error. *)
Theorem createOffer_checks_connection_only (engine : Engine.t) (s : Session.t) :
  (isInitiator s = false -> click CreateOfferButton engine s = s)
  /\ (peerConnection s = None ->
      createOffer engine s
      = addMessage (err "Error creating offer: No peer connection available") s)
  /\ (forall pc offer,
        peerConnection s = Some pc ->
        Engine.createOffer engine = Ok offer ->
        Engine.setLocalDescription engine = Ok tt ->
        peerConnection (createOffer engine s)
        = Some (withLocalDescription offer pc)
        /\ isInitiator (createOffer engine s) = isInitiator s
        /\ messages (createOffer engine s)
           = (messages s
              ++ [ sys "📝 Creating connection offer...";
                   sys "⚙️ Setting up local connection details..." ])%list).
Proof.
  split; [|split].
  - intros Hrole. unfold click, enabled. rewrite Hrole. reflexivity.
  - apply createOffer_without_connection.
  - intros pc offer Hpc Hoffer Hset.
    rewrite (createOffer_with_connection engine s pc offer Hpc Hoffer Hset).
    simpl. rewrite <- app_assoc. repeat split; reflexivity.
Qed.

Lemma createOffer_checks_connection_only_witness :
  click CreateOfferButton Engine.cooperative receiverReady = receiverReady
  /\ createOffer Engine.cooperative loadedSession
     = addMessage (err "Error creating offer: No peer connection available")
                  loadedSession
  /\ peerConnection (createOffer Engine.cooperative receiverReady)
     = Some (withLocalDescription "offer" (PeerConnection.mk None None true)).
Proof.
  split; [|split].
  - apply (proj1 (createOffer_checks_connection_only Engine.cooperative receiverReady)).
    reflexivity.
  - apply (proj1 (proj2 (createOffer_checks_connection_only
                           Engine.cooperative loadedSession))).
    reflexivity.
  - apply (proj2 (proj2 (createOffer_checks_connection_only
                           Engine.cooperative receiverReady))
             (PeerConnection.mk None None true) "offer");
      reflexivity.
Defined.

(** C4 as stated fails: [createOffer] run on a session initialized as
    receiver reports no error and sets the local description. *)
Lemma createOffer_receiver_counterexample :
  isInitiator receiverReady = false
  /\ option_map PeerConnection.localDescription (peerConnection receiverReady)
     = Some None
  /\ option_map PeerConnection.localDescription
       (peerConnection (createOffer Engine.cooperative receiverReady))
     = Some (Some "offer")
  /\ existsb isError (messages (createOffer Engine.cooperative receiverReady))
     = false
  /\ createOffer Engine.cooperative receiverReady <> receiverReady.
Proof.
  split; [reflexivity|].
  split; [reflexivity|].
  split; [reflexivity|].
  split; [reflexivity|].
  intros Heq.
  assert (Hpc : option_map PeerConnection.localDescription
                  (peerConnection (createOffer Engine.cooperative receiverReady))
                = option_map PeerConnection.localDescription
                    (peerConnection receiverReady))
    by (rewrite Heq; reflexivity).
  vm_compute in Hpc. discriminate Hpc.
Qed.

Lemma initialize_disabled_when_connected asInitiator engine s :
  connected s = true -> click (initializeControl asInitiator) engine s = s.
Proof.
  intros Hactive. unfold click, enabled, initializeControl.
  destruct asInitiator; rewrite Hactive; reflexivity.
Qed.

Lemma initialize_enabled_after_reset asInitiator s :
  iceServersLoading s = false ->
  enabled (initializeControl asInitiator) (reset s) = true.
Proof.
  intros Hloaded. unfold initializeControl, enabled, reset, cleanupMediaStream.
  destruct asInitiator, (localStream s); simpl; rewrite Hloaded; reflexivity.
Qed.

Lemma initialize_replaces_session asInitiator engine s :
  mediaPermissionState s <> perm_none ->
  Engine.construct engine = Ok tt ->
  (exists tracks,
     peerConnection (initializeWebRTC asInitiator engine s)
     = Some (PeerConnection.mk None None tracks))
  /\ isInitiator (initializeWebRTC asInitiator engine s) = asInitiator
  /\ exists added,
       messages (initializeWebRTC asInitiator engine s)
       = (messages s ++ added)%list
       /\ existsb isError added = false.
Proof.
  intros Hperm Hconstruct. unfold initializeWebRTC. rewrite Hconstruct.
  destruct (mediaPermissionState s); try contradiction;
    destruct (localStream s) eqn:Hstream, asInitiator; simpl; rewrite ?Hstream;
    simpl; rewrite <- ?app_assoc; simpl;
    (split; [eexists; reflexivity |
             split; [reflexivity | eexists; split; [reflexivity | reflexivity]]]).
Qed.

(** C5 (amended). While a session is active the two initialize buttons
    are disabled: a click leaves the session as it is and reports
    nothing.  [initializeWebRTC] itself has no check for an active
    session: run on any session whose media permission is settled, with
    a browser that builds the connection, it empties the three maps, puts
    a new connection without descriptions in place of the old one, takes
    the requested role and reports no error.  After [reset] the buttons
    are enabled again once the ICE servers are loaded. *)
Theorem initialize_guarded_by_controls_only
  (asInitiator : bool) (engine : Engine.t) (s : Session.t) :
  (connected s = true -> click (initializeControl asInitiator) engine s = s)
  /\ (mediaPermissionState s <> perm_none ->
      Engine.construct engine = Ok tt ->
      (exists tracks,
         peerConnection (initializeWebRTC asInitiator engine s)
         = Some (PeerConnection.mk None None tracks))
      /\ localCandidates (initializeWebRTC asInitiator engine s) = JsMap.empty
      /\ remoteCandidates (initializeWebRTC asInitiator engine s) = JsMap.empty
      /\ candidatePairs (initializeWebRTC asInitiator engine s) = JsMap.empty
      /\ isInitiator (initializeWebRTC asInitiator engine s) = asInitiator
      /\ exists added,
           messages (initializeWebRTC asInitiator engine s)
           = (messages s ++ added)%list
           /\ existsb isError added = false)
  /\ (iceServersLoading s = false ->
      connected (reset s) = false
      /\ enabled (initializeControl asInitiator) (reset s) = true).
Proof.
  split; [apply initialize_disabled_when_connected | split].
  - intros Hperm Hconstruct.
    destruct (initialize_replaces_session asInitiator engine s Hperm Hconstruct)
      as (Hpc & Hrole & Hmsgs).
    destruct (initializeWebRTC_clears asInitiator engine s) as (Hl & Hr & Hp).
    repeat (split; [assumption|]). exact Hmsgs.
  - intros Hloaded. split; [reflexivity|].
    apply initialize_enabled_after_reset. exact Hloaded.
Qed.

Lemma initialize_guarded_by_controls_only_witness :
  click InitializeAsReceiver Engine.cooperative activeInitiator = activeInitiator
  /\ localCandidates (initializeWebRTC false Engine.cooperative activeInitiator)
     = JsMap.empty
  /\ enabled InitializeAsReceiver (reset activeInitiator) = true.
Proof.
  destruct (initialize_guarded_by_controls_only
              false Engine.cooperative activeInitiator)
    as (Hclick & Hinit & Hreset).
  split; [|split].
  - apply Hclick. reflexivity.
  - apply Hinit; [vm_compute; discriminate | reflexivity].
  - apply Hreset. reflexivity.
Defined.

(** C5 as stated fails: [initializeWebRTC] run on an active session
    reports no error, drops the candidates found so far and puts a new
    connection in place of the one that held the offer. *)
Lemma initialize_active_counterexample :
  connected activeInitiator = true
  /\ JsMap.keys (localCandidates activeInitiator) = [Some "1"]
  /\ option_map PeerConnection.localDescription (peerConnection activeInitiator)
     = Some (Some "offer")
  /\ localCandidates (initializeWebRTC false Engine.cooperative activeInitiator)
     = JsMap.empty
  /\ option_map PeerConnection.localDescription
       (peerConnection (initializeWebRTC false Engine.cooperative activeInitiator))
     = Some None
  /\ isInitiator (initializeWebRTC false Engine.cooperative activeInitiator) = false
  /\ existsb isError
       (messages (initializeWebRTC false Engine.cooperative activeInitiator))
     = false.
Proof.
  repeat split; vm_compute; reflexivity.
Qed.

(** ** Worked examples *)

Example parse_host_candidate :
  parseICECandidate hostCandidate1
  = Some (ICECandidateInfo.mk
            "candidate:1 1 udp 2122260223 192.168.1.2 50001 typ host"
            "host" "udp" "192.168.1.2" 50001 2122260223 "candidate:1").
Proof. vm_compute. reflexivity. Qed.

Example scenarioB_analysis :
  analyzeConnectionFailure scenarioB hostUdp srflxTcp
  = Analysis.mk
      "Partial communication - requests received but responses not getting back"
      "Sent 2 requests, received 2 requests, but no responses returned"
      [ "Asymmetric routing issue - return path may be blocked";
        "Remote peer may have connectivity issues";
        "Protocol mismatch: udp vs tcp";
        "Local is direct, remote is behind NAT - remote may not accept incoming connections" ].
Proof. vm_compute. reflexivity. Qed.

Example summary_of_hosts_first :
  map Message.text (logCandidateSummary hostsFirstRegistry)
  = [ "📊 Local candidate summary:";
      "   • 3x host - Direct connection (same network)";
      "   • 1x relay - Relayed (through TURN server)" ].
Proof. vm_compute. reflexivity. Qed.

Example failure_report_of_scenarioA :
  map Message.text (logCandidateFailures true (Ok failedSnapshot))
  = [ "🔍 Detailed connectivity check results:";
      "❌ 1 failed connection(s):";
      "   ❌ relay 203.0.113.9:3478 (udp) ↔ host 192.168.1.2:5000 (udp)";
      "      💡 Outbound packets sent but no response received";
      "      📊 Sent 4 requests, received 0 responses";
      "      🔧 TURN server may be unreachable or credentials invalid";
      "      🔧 Check TURN server configuration and network connectivity";
      "      🔧 Using TURN relay - should work unless TURN server is misconfigured" ].
Proof. vm_compute. reflexivity. Qed.

Example success_report_of_backup_first :
  map Message.text (logSuccessfulConnection true (Ok backupFirstSnapshot))
  = [ "🏆 SUCCESSFUL CONNECTION DETAILS:";
      "👑 PRIMARY #1: HOST ↔ RELAY [NOMINATED - ACTIVE PATH]";
      "   Local: 192.168.1.2:5000 (udp) - Direct connection (same network)";
      "   Remote: 203.0.113.9:3478 (udp) - Relayed (through TURN server)";
      "   Priority: 500 (HIGHEST PRIORITY - IN USE)";
      "   ⚡ This is the path your data is actually using!";
      "🔄 BACKUP #1: HOST ↔ RELAY [STANDBY PATH]";
      "   Local: 192.168.1.2:5000 (udp) - Direct connection (same network)";
      "   Remote: 203.0.113.9:3478 (udp) - Relayed (through TURN server)";
      "   Priority: 300 (READY IF NEEDED)";
      "   💤 Ready to take over if primary path fails" ].
Proof. vm_compute. reflexivity. Qed.

(** [reset] twice is [reset] once, and it leaves an idle page with
    empty maps from which either role can be initialized. *)
Lemma reset_idempotent (s : Session.t) : reset (reset s) = reset s.
Proof.
  unfold reset, cleanupMediaStream.
  destruct (localStream s) eqn:Hstream; simpl; rewrite ?Hstream; reflexivity.
Qed.

Lemma initialize_after_reset (asInitiator : bool) (engine : Engine.t)
  (s : Session.t) :
  Engine.construct engine = Ok tt ->
  connected (initializeWebRTC asInitiator engine (reset s)) = true
  /\ isInitiator (initializeWebRTC asInitiator engine (reset s)) = asInitiator
  /\ localCandidates (initializeWebRTC asInitiator engine (reset s)) = JsMap.empty
  /\ remoteCandidates (initializeWebRTC asInitiator engine (reset s)) = JsMap.empty.
Proof.
  intros Hconstruct.
  destruct (initializeWebRTC_clears asInitiator engine (reset s)) as (Hl & Hr & _).
  split; [|split; [|split; assumption]].
  - unfold initializeWebRTC, requestMediaPermissions, reset, cleanupMediaStream.
    rewrite Hconstruct.
    destruct (localStream s) eqn:Hstream, (Engine.getUserMedia engine) as [[|]|e],
      asInitiator; simpl; rewrite ?Hstream; reflexivity.
  - unfold initializeWebRTC, requestMediaPermissions, reset, cleanupMediaStream.
    rewrite Hconstruct.
    destruct (localStream s) eqn:Hstream, (Engine.getUserMedia engine) as [[|]|e],
      asInitiator; simpl; rewrite ?Hstream; reflexivity.
Qed.

(** * Further properties *)

(** ** Descriptors: splitting, numbers, round trip *)

Lemma split_length (s : string) : length (JS.split s) = S (countSpaces s).
Proof.
  induction s as [|c r IH]; simpl; [reflexivity|].
  destruct (Ascii.eqb c " "); simpl; [now rewrite IH|].
  destruct (JS.split r) as [|p ps]; simpl in *; [discriminate | exact IH].
Qed.

Lemma split_noSpace (s : string) : noSpace s = true -> JS.split s = [s].
Proof.
  unfold noSpace. induction s as [|c r IH]; simpl; [reflexivity|].
  destruct (Ascii.eqb c " "); simpl; [discriminate|].
  intros Hr. rewrite (IH Hr). reflexivity.
Qed.

Lemma split_app_space (a b : string) :
  noSpace a = true -> JS.split (a ++ " " ++ b) = a :: JS.split b.
Proof.
  unfold noSpace. induction a as [|c r IH]; simpl; [reflexivity|].
  destruct (Ascii.eqb c " "); simpl; [discriminate|].
  intros Hr. simpl in IH. rewrite (IH Hr). reflexivity.
Qed.

(** Splitting undoes joining when no part holds a space. *)
Lemma split_joinSpace (parts : list string) :
  parts <> [] ->
  forallb noSpace parts = true ->
  JS.split (joinSpace parts) = parts.
Proof.
  induction parts as [|p rest IH]; [congruence|].
  intros _ Hall. simpl in Hall. apply andb_true_iff in Hall.
  destruct Hall as [Hp Hrest]. destruct rest as [|q rest'].
  - simpl. apply split_noSpace. exact Hp.
  - change (joinSpace (p :: q :: rest')) with (p ++ " " ++ joinSpace (q :: rest')).
    rewrite (split_app_space _ _ Hp), IH; [reflexivity | discriminate | exact Hrest].
Qed.

Lemma digits_step (seen : bool) (acc : Z) (c : ascii) (r : string) (v : Z) :
  JS.digitVal c = Some v ->
  (v <? 10) = true ->
  JS.digits 10 seen acc (String c r) = JS.digits 10 true (acc * 10 + v) r.
Proof. intros Hc Hv. simpl. rewrite Hc, Hv. reflexivity. Qed.

Lemma digits_after_first (d : Decimal.uint) (acc : positive) :
  JS.digits 10 true (Z.pos acc) (NilEmpty.string_of_uint d)
  = Some (Z.pos (Pos.of_uint_acc d acc)).
Proof.
  revert acc.
  induction d; intros acc; cbn [NilEmpty.string_of_uint Pos.of_uint_acc];
    [reflexivity | ..];
    rewrite <- IHd;
    match goal with
    | |- JS.digits 10 true _ (String ?c _) = _ =>
        let v := eval vm_compute in (JS.digitVal c) in
        match v with
        | Some ?n => rewrite (digits_step true (Z.pos acc) c _ n eq_refl eq_refl)
        end
    end;
    f_equal; lia.
Qed.

Lemma digits_of_uint (d : Decimal.uint) (seen : bool) :
  d <> Decimal.Nil \/ seen = true ->
  JS.digits 10 seen 0 (NilEmpty.string_of_uint d)
  = Some (Z.of_N (Pos.of_uint d)).
Proof.
  revert seen. induction d; intros seen Hok; simpl.
  - destruct Hok as [Hd|Hs]; [congruence | now rewrite Hs].
  - apply IHd. right. reflexivity.
  - apply (digits_after_first d 1).
  - apply (digits_after_first d 2).
  - apply (digits_after_first d 3).
  - apply (digits_after_first d 4).
  - apply (digits_after_first d 5).
  - apply (digits_after_first d 6).
  - apply (digits_after_first d 7).
  - apply (digits_after_first d 8).
  - apply (digits_after_first d 9).
Qed.

Lemma unsignedInt_of_uint (d : Decimal.uint) :
  JS.unsignedInt (NilEmpty.string_of_uint d)
  = JS.digits 10 false 0 (NilEmpty.string_of_uint d).
Proof.
  destruct d as [|d|d|d|d|d|d|d|d|d|d]; try reflexivity.
  destruct d; reflexivity.
Qed.

Lemma parseInt_of_uint (d : Decimal.uint) :
  d <> Decimal.Nil ->
  JS.parseInt (NilEmpty.string_of_uint d) = Some (Z.of_N (Pos.of_uint d)).
Proof.
  intros Hd.
  assert (Hparse : JS.parseInt (NilEmpty.string_of_uint d)
                   = JS.unsignedInt (NilEmpty.string_of_uint d))
    by (destruct d; try reflexivity; congruence).
  rewrite Hparse, unsignedInt_of_uint. apply digits_of_uint. left. exact Hd.
Qed.

Lemma string_of_uint_nonnil (d : Decimal.uint) :
  d <> Decimal.Nil -> NilZero.string_of_uint d = NilEmpty.string_of_uint d.
Proof. destruct d; [congruence | reflexivity ..]. Qed.

(** [parseInt] reads back the decimal text of any integer. *)
Lemma parseInt_numToString (z : Z) : JS.parseInt (JS.numToString z) = Some z.
Proof.
  assert (Hminus : forall r,
             JS.parseInt (String "-" r) = option_map Z.opp (JS.unsignedInt r))
    by reflexivity.
  unfold JS.numToString.
  destruct z as [|p|p]; cbn [Z.to_int NilZero.string_of_int].
  - reflexivity.
  - rewrite (string_of_uint_nonnil _ (DecimalPos.Unsigned.to_uint_nonnil p)).
    rewrite (parseInt_of_uint _ (DecimalPos.Unsigned.to_uint_nonnil p)).
    now rewrite DecimalPos.Unsigned.of_to.
  - rewrite (string_of_uint_nonnil _ (DecimalPos.Unsigned.to_uint_nonnil p)).
    rewrite Hminus, unsignedInt_of_uint, digits_of_uint;
      [|left; apply DecimalPos.Unsigned.to_uint_nonnil].
    now rewrite DecimalPos.Unsigned.of_to.
Qed.

Lemma noSpace_string_of_uint (d : Decimal.uint) :
  noSpace (NilEmpty.string_of_uint d) = true.
Proof. unfold noSpace. induction d; simpl; auto. Qed.

Lemma noSpace_numToString (z : Z) : noSpace (JS.numToString z) = true.
Proof.
  unfold JS.numToString.
  destruct z as [|p|p]; cbn [Z.to_int NilZero.string_of_int]; [reflexivity| |];
    rewrite (string_of_uint_nonnil _ (DecimalPos.Unsigned.to_uint_nonnil p)).
  - apply noSpace_string_of_uint.
  - unfold noSpace. simpl. apply noSpace_string_of_uint.
Qed.

Lemma numOr_Some (z : Z) : JS.numOr (Some z) 0 = z.
Proof. unfold JS.numOr. destruct (Z.eqb_spec z 0); congruence. Qed.

Lemma strOr_nonempty (s d : string) : s <> "" -> JS.strOr s d = s.
Proof. destruct s; [congruence | reflexivity]. Qed.

Lemma optStrOr_nonempty (s : option string) : JS.optStrOr s "unknown" <> "".
Proof. destruct s as [[|c r]|]; simpl; discriminate. Qed.

Lemma toLowerCase_nonempty (s : string) : s <> "" -> JS.toLowerCase s <> "".
Proof. destruct s; [congruence | discriminate]. Qed.

Lemma lowerChar_idempotent (c : ascii) :
  JS.lowerChar (JS.lowerChar c) = JS.lowerChar c.
Proof. destruct c as [[] [] [] [] [] [] [] []]; reflexivity. Qed.

Lemma toLowerCase_idempotent (s : string) :
  JS.toLowerCase (JS.toLowerCase s) = JS.toLowerCase s.
Proof.
  unfold JS.toLowerCase. induction s as [|c r IH]; simpl; [reflexivity|].
  now rewrite lowerChar_idempotent, IH.
Qed.

(** X1. [parseICECandidate] gives [null] exactly for the descriptors
    with fewer than five space characters. *)
Theorem parse_null_iff_few_spaces (c : RTCIceCandidate.t) :
  parseICECandidate c = None
  <-> (countSpaces (RTCIceCandidate.candidate c) < 5)%nat.
Proof.
  unfold parseICECandidate. rewrite split_length.
  destruct (S (countSpaces (RTCIceCandidate.candidate c)) <? 6)%nat eqn:E.
  - apply Nat.ltb_lt in E. split; [lia | reflexivity].
  - apply Nat.ltb_ge in E. split; [discriminate | lia].
Qed.

(** X2. A record made by [parseICECandidate] keeps the descriptor as it
    was given, and none of its type, protocol, address and foundation is
    the empty string: an empty part reads as "unknown". *)
Theorem parsed_fields_never_empty (c : RTCIceCandidate.t)
  (info : ICECandidateInfo.t) :
  parseICECandidate c = Some info ->
  ICECandidateInfo.candidate info = RTCIceCandidate.candidate c
  /\ ICECandidateInfo.type info <> ""
  /\ ICECandidateInfo.protocol info <> ""
  /\ ICECandidateInfo.address info <> ""
  /\ ICECandidateInfo.foundation info <> "".
Proof.
  unfold parseICECandidate.
  destruct (length (JS.split (RTCIceCandidate.candidate c)) <? 6)%nat;
    [discriminate|].
  intros Hsome. injection Hsome as <-. simpl.
  repeat split; apply optStrOr_nonempty.
Qed.

Lemma parsed_fields_never_empty_witness :
  ICECandidateInfo.candidate (infoOf garbledDescriptor)
  = RTCIceCandidate.candidate garbledDescriptor
  /\ ICECandidateInfo.type (infoOf garbledDescriptor) <> ""
  /\ ICECandidateInfo.protocol (infoOf garbledDescriptor) <> ""
  /\ ICECandidateInfo.address (infoOf garbledDescriptor) <> ""
  /\ ICECandidateInfo.foundation (infoOf garbledDescriptor) <> "".
Proof.
  apply (parsed_fields_never_empty garbledDescriptor). vm_compute. reflexivity.
Defined.

(** X3. The protocol of a parsed record has no upper-case ASCII letter:
    lower-casing it again changes nothing. *)
Theorem parsed_protocol_lower_case (c : RTCIceCandidate.t)
  (info : ICECandidateInfo.t) :
  parseICECandidate c = Some info ->
  JS.toLowerCase (ICECandidateInfo.protocol info) = ICECandidateInfo.protocol info.
Proof.
  unfold parseICECandidate.
  destruct (length (JS.split (RTCIceCandidate.candidate c)) <? 6)%nat;
    [discriminate|].
  intros Hsome. injection Hsome as <-. cbn [ICECandidateInfo.protocol].
  match goal with
  | |- context [option_map JS.toLowerCase ?x] => destruct x as [p|]
  end; [|reflexivity].
  cbn [option_map JS.optStrOr]. unfold JS.strOr.
  destruct (JS.toLowerCase p) eqn:Ep; [reflexivity|].
  rewrite <- Ep. apply toLowerCase_idempotent.
Qed.

Lemma parsed_protocol_lower_case_witness :
  JS.toLowerCase (ICECandidateInfo.protocol (infoOf garbledDescriptor))
  = ICECandidateInfo.protocol (infoOf garbledDescriptor).
Proof.
  apply (parsed_protocol_lower_case garbledDescriptor). vm_compute. reflexivity.
Defined.

(** X4. Round trip: the descriptor line written from a foundation, a
    component, a transport, a priority, an address, a port and further
    parts, none of which holds a space, the foundation, transport and
    address not empty, the transport made of ASCII characters and the
    two numbers safe integers, is parsed back to those fields, the
    transport in lower case and the two numbers as they were. *)
Theorem parse_descriptorLine
  (foundation component transport address : string) (priority port : Z)
  (more : list string) (type key : option string) :
  foundation <> "" -> transport <> "" -> address <> "" ->
  forallb noSpace (foundation :: component :: transport :: address :: more) = true ->
  isAscii transport = true ->
  isSafeInteger priority = true -> isSafeInteger port = true ->
  parseICECandidate
    (RTCIceCandidate.mk
       (descriptorLine foundation component transport priority address port more)
       type key)
  = Some (ICECandidateInfo.mk
            (descriptorLine foundation component transport priority address port more)
            (JS.optStrOr type "unknown") (JS.toLowerCase transport)
            address port priority foundation).
Proof.
  intros Hf Ht Ha Hparts _ _ _. simpl in Hparts.
  apply andb_true_iff in Hparts. destruct Hparts as [Hnf Hparts].
  apply andb_true_iff in Hparts. destruct Hparts as [Hnc Hparts].
  apply andb_true_iff in Hparts. destruct Hparts as [Hnt Hparts].
  apply andb_true_iff in Hparts. destruct Hparts as [Hna Hmore].
  unfold parseICECandidate, descriptorLine.
  cbn [RTCIceCandidate.candidate RTCIceCandidate.type].
  rewrite split_joinSpace; [|discriminate|].
  - cbn [length Nat.ltb Nat.leb JS.at_ nth_error JS.parseIntAt option_map JS.optStrOr].
    rewrite !parseInt_numToString, !numOr_Some.
    rewrite (strOr_nonempty _ _ (toLowerCase_nonempty _ Ht)).
    rewrite (strOr_nonempty _ _ Ha), (strOr_nonempty _ _ Hf).
    reflexivity.
  - cbn [forallb]. rewrite Hnf, Hnc, Hnt, Hna, Hmore, !noSpace_numToString.
    reflexivity.
Qed.

Lemma parse_descriptorLine_witness :
  parseICECandidate (RTCIceCandidate.mk sampleLine (Some "srflx") (Some "842163049"))
  = Some (ICECandidateInfo.mk sampleLine "srflx" "udp" "198.51.100.4" 46154
                              1677729535 "842163049").
Proof.
  apply (parse_descriptorLine "842163049" "1" "UDP" "198.51.100.4"
           1677729535 46154
           ["typ"; "srflx"; "raddr"; "0.0.0.0"; "rport"; "0"]
           (Some "srflx") (Some "842163049"));
    try discriminate; reflexivity.
Defined.

(** ** More on the failure diagnosis *)

(** X5. The topology insight is present exactly for host with host,
    local host with remote server-reflexive, server-reflexive with
    server-reflexive, and for a relay or a peer-reflexive candidate on
    either side; in particular a local server-reflexive candidate with a
    remote host candidate gets none. *)
Theorem topology_insight_cases (localCandidate remoteCandidate : CandidateStats.t) :
  getNetworkTopologyInsight localCandidate remoteCandidate <> ""
  <-> (CandidateStats.candidateType localCandidate = "host"
       /\ CandidateStats.candidateType remoteCandidate = "host")
      \/ (CandidateStats.candidateType localCandidate = "host"
          /\ CandidateStats.candidateType remoteCandidate = "srflx")
      \/ (CandidateStats.candidateType localCandidate = "srflx"
          /\ CandidateStats.candidateType remoteCandidate = "srflx")
      \/ CandidateStats.candidateType localCandidate = "relay"
      \/ CandidateStats.candidateType remoteCandidate = "relay"
      \/ CandidateStats.candidateType localCandidate = "prflx"
      \/ CandidateStats.candidateType remoteCandidate = "prflx".
Proof.
  unfold getNetworkTopologyInsight.
  set (lt := CandidateStats.candidateType localCandidate).
  set (rt := CandidateStats.candidateType remoteCandidate).
  destruct (String.eqb_spec lt "host") as [Hlh|Hlh];
    destruct (String.eqb_spec rt "host") as [Hrh|Hrh]; simpl;
    [split; [tauto | discriminate] | |  | ].
  - destruct (String.eqb_spec rt "srflx") as [Hrs|Hrs]; simpl;
      [split; [tauto | discriminate]|].
    rewrite Hlh. simpl.
    destruct (String.eqb_spec rt "relay") as [Hrr|Hrr]; simpl;
      [split; [tauto | discriminate]|].
    destruct (String.eqb_spec rt "prflx") as [Hrp|Hrp]; simpl;
      [split; [tauto | discriminate]|].
    split; [congruence|].
    intros [[_ H]|[[_ H]|[[H _]|[H|[H|[H|H]]]]]];
      try contradiction; discriminate H.
  - rewrite Hrh. simpl.
    destruct (String.eqb_spec lt "srflx") as [Hls|Hls]; simpl.
    + rewrite Hls. simpl. split; [congruence|].
      intros [[H _]|[[H _]|[[_ H]|[H|[H|[H|H]]]]]]; discriminate H.
    + destruct (String.eqb_spec lt "relay") as [Hlr|Hlr]; simpl;
        [split; [tauto | discriminate]|].
      destruct (String.eqb_spec lt "prflx") as [Hlp|Hlp]; simpl;
        [split; [tauto | discriminate]|].
      split; [congruence|].
      intros [[H _]|[[H _]|[[H _]|[H|[H|[H|H]]]]]];
        try contradiction; discriminate H.
  - destruct (String.eqb_spec lt "srflx") as [Hls|Hls];
      destruct (String.eqb_spec rt "srflx") as [Hrs|Hrs]; simpl;
      [split; [tauto | discriminate] | | |];
      (destruct (String.eqb_spec lt "relay") as [Hlr|Hlr]; simpl;
       [split; [tauto | discriminate]|]);
      (destruct (String.eqb_spec rt "relay") as [Hrr|Hrr]; simpl;
       [split; [tauto | discriminate]|]);
      (destruct (String.eqb_spec lt "prflx") as [Hlp|Hlp]; simpl;
       [split; [tauto | discriminate]|]);
      (destruct (String.eqb_spec rt "prflx") as [Hrp|Hrp]; simpl;
       [split; [tauto | discriminate]|]);
      (split; [congruence | tauto]).
Qed.

Lemma class_suggestions_bound pair l r :
  (length (Analysis.suggestions (classifyPackets pair l r)) <= 2)%nat
  /\ Forall (fun x => String.prefix "Protocol mismatch: " x = false)
            (Analysis.suggestions (classifyPackets pair l r)).
Proof.
  unfold classifyPackets, noResponseSuggestions.
  repeat match goal with
         | |- context [if ?b then _ else _] => destruct b
         end; simpl; split; try lia; repeat constructor.
Qed.

Lemma topology_suggestion_bound l r :
  (length (topologySuggestion l r) <= 1)%nat
  /\ Forall (fun x => String.prefix "Protocol mismatch: " x = false)
            (topologySuggestion l r).
Proof.
  unfold topologySuggestion, getNetworkTopologyInsight.
  repeat match goal with
         | |- context [if ?b then _ else _] => destruct b
         end; simpl; split; try lia; repeat constructor.
Qed.

Lemma prefix_empty (s : string) : String.prefix "" s = true.
Proof. destruct s; reflexivity. Qed.

Lemma protocol_suggestion_cases l r :
  protocolSuggestion l r
  = if protocolDiffers (CandidateStats.protocol l) (CandidateStats.protocol r)
    then [protocolMismatchText l r] else [].
Proof. reflexivity. Qed.

(** X6. A diagnosis carries at most four suggestions, and the protocol
    suggestion, naming the two protocols, is among them exactly when the
    protocols of the two candidates differ. *)
Theorem protocol_mismatch_suggestion
  (pair : PairStats.t) (localCandidate remoteCandidate : CandidateStats.t) :
  (length (Analysis.suggestions
             (analyzeConnectionFailure pair localCandidate remoteCandidate)) <= 4)%nat
  /\ (In (protocolMismatchText localCandidate remoteCandidate)
         (Analysis.suggestions
            (analyzeConnectionFailure pair localCandidate remoteCandidate))
      <-> protocolDiffers (CandidateStats.protocol localCandidate)
                          (CandidateStats.protocol remoteCandidate) = true).
Proof.
  unfold analyzeConnectionFailure. cbn [Analysis.suggestions].
  destruct (class_suggestions_bound pair localCandidate remoteCandidate)
    as [Hclen Hcno].
  destruct (topology_suggestion_bound localCandidate remoteCandidate)
    as [Htlen Htno].
  rewrite protocol_suggestion_cases.
  destruct (protocolDiffers _ _) eqn:Ediff.
  - split.
    + rewrite !length_app. simpl. lia.
    + split; [reflexivity|]. intros _.
      apply in_or_app. right. left. reflexivity.
  - split.
    + rewrite !length_app. simpl. lia.
    + split; [|discriminate]. intros Hin. exfalso.
      apply in_app_or in Hin. simpl in Hin.
      assert (Hpre : String.prefix "Protocol mismatch: "
                       (protocolMismatchText localCandidate remoteCandidate) = true)
        by (unfold protocolMismatchText; simpl; apply prefix_empty).
      destruct Hin as [Hin|Hin].
      * rewrite Forall_forall in Hcno. rewrite (Hcno _ Hin) in Hpre. discriminate.
      * rewrite Forall_forall in Htno. rewrite (Htno _ Hin) in Hpre. discriminate.
Qed.

(** X7. When no request was received (the counter is missing or 0) and
    the requests sent are not negative, the diagnosis does not look at
    the response counters: two pairs that differ in them only get the
    same diagnosis. *)
Theorem responses_ignored_without_received_requests
  (pair pair' : PairStats.t) (localCandidate remoteCandidate : CandidateStats.t) :
  JS.numOr (PairStats.requestsReceived pair) 0 = 0 ->
  0 <= JS.numOr (PairStats.requestsSent pair) 0 ->
  PairStats.requestsSent pair' = PairStats.requestsSent pair ->
  PairStats.requestsReceived pair' = PairStats.requestsReceived pair ->
  PairStats.lastPacketSentTimestamp pair' = PairStats.lastPacketSentTimestamp pair ->
  PairStats.lastPacketReceivedTimestamp pair'
  = PairStats.lastPacketReceivedTimestamp pair ->
  analyzeConnectionFailure pair' localCandidate remoteCandidate
  = analyzeConnectionFailure pair localCandidate remoteCandidate.
Proof.
  intros Hrecv Hsent Hs Hr Hts Htr.
  unfold analyzeConnectionFailure, timingNote, classifyPackets.
  rewrite Hs, Hr, Hts, Htr, Hrecv. rewrite gtb_ltb0.
  destruct (Z.eqb_spec (JS.numOr (PairStats.requestsSent pair) 0) 0) as [E|E];
    [reflexivity|].
  assert (Hpos : (0 <? JS.numOr (PairStats.requestsSent pair) 0) = true)
    by (apply Z.ltb_lt; lia).
  rewrite Hpos. reflexivity.
Qed.

Lemma responses_ignored_without_received_requests_witness :
  analyzeConnectionFailure answeredPair relayUdp hostUdp
  = analyzeConnectionFailure scenarioA relayUdp hostUdp.
Proof.
  apply (responses_ignored_without_received_requests scenarioA answeredPair);
    try reflexivity.
  simpl. lia.
Defined.

(** X8. A failed pair adds to the failure report either nothing, when
    one of its candidates is not in the snapshot, or between three and
    seven lines: the pair, the reason, the details and at most four
    suggestions. *)
Theorem failed_block_size (stats : list Report) (pair : PairStats.t) :
  (bothFound stats pair = false
   /\ failedLines (localCandidateStats stats) (remoteCandidateStats stats) pair = [])
  \/ (bothFound stats pair = true
      /\ (3 <= length (failedLines (localCandidateStats stats)
                                   (remoteCandidateStats stats) pair) <= 7)%nat).
Proof.
  destruct (bothFound stats pair) eqn:Efound.
  - right. split; [reflexivity|].
    unfold bothFound in Efound. unfold failedLines.
    destruct (JsMap.get (PairStats.localCandidateId pair) (localCandidateStats stats))
      as [l|]; [|discriminate].
    destruct (JsMap.get (PairStats.remoteCandidateId pair) (remoteCandidateStats stats))
      as [r|]; [|discriminate].
    pose proof (proj1 (protocol_mismatch_suggestion pair l r)) as Hfour.
    rewrite length_app, length_map.
    set (n := length (Analysis.suggestions (analyzeConnectionFailure pair l r))) in *.
    cbn [length]. lia.
  - left. split; [reflexivity|]. apply failedLines_missing. exact Efound.
Qed.

(** ** The summary and the registry, continued *)

Lemma sumCounts_set (k : string) (v : Z) (m : JsMap.t string Z) :
  sumCounts (JsMap.set k v m)
  = sumCounts m + v - match JsMap.get k m with Some old => old | None => 0 end.
Proof.
  unfold sumCounts, JsMap.values.
  induction m as [|[a b] r IH]; simpl.
  - lia.
  - destruct (String.eqb k a) eqn:E; simpl.
    + lia.
    + rewrite IH. lia.
Qed.

Lemma numOr_option (x : option Z) :
  JS.numOr x 0 = match x with Some v => v | None => 0 end.
Proof. destruct x as [v|]; [apply numOr_Some | reflexivity]. Qed.

Lemma candidateTypes_total locals :
  sumCounts (candidateTypes locals) = JsMap.size locals.
Proof.
  unfold JsMap.size.
  induction locals as [|[key info] locals IH] using rev_ind.
  - reflexivity.
  - rewrite candidateTypes_snoc, sumCounts_set, numOr_option, IH, length_app.
    simpl. lia.
Qed.

Lemma firstSeenOrder_NoDup (l : list string) : NoDup (firstSeenOrder l).
Proof. unfold firstSeenOrder. apply NoDup_rev, NoDup_nodup. Qed.

Lemma get_of_In {V : Type} (k : string) (v : V) (m : JsMap.t string V) :
  NoDup (JsMap.keys m) -> In (k, v) m -> JsMap.get k m = Some v.
Proof.
  induction m as [|[a b] r IH]; simpl; [intros _ []|].
  intros Hnd [Heq|Hin].
  - injection Heq as -> ->. now rewrite String.eqb_refl.
  - inversion Hnd as [|x xs Hnot Hnd']; subst.
    destruct (String.eqb_spec k a) as [->|Hne].
    + exfalso. apply Hnot. change (In (fst (a, v)) (map fst r)).
      apply in_map. exact Hin.
    + apply IH; assumption.
Qed.

(** X9. The summary of the local candidates names every kind once, with
    a count of at least 1, and its counts add up to the number of
    candidates in the registry. *)
Theorem summary_counts_total
  (localCandidates : JsMap.t (option string) ICECandidateInfo.t) :
  NoDup (JsMap.keys (candidateTypes localCandidates))
  /\ Forall (fun entry => 1 <= snd entry) (candidateTypes localCandidates)
  /\ sumCounts (candidateTypes localCandidates) = JsMap.size localCandidates.
Proof.
  assert (Hnd : NoDup (JsMap.keys (candidateTypes localCandidates)))
    by (rewrite candidateTypes_keys; apply firstSeenOrder_NoDup).
  split; [exact Hnd | split; [|apply candidateTypes_total]].
  apply Forall_forall. intros [kind count] Hin. simpl.
  pose proof (get_of_In kind count _ Hnd Hin) as Hget.
  rewrite candidateTypes_get in Hget.
  destruct (countKind kind localCandidates =? 0) eqn:E; [discriminate|].
  injection Hget as <-. apply Z.eqb_neq in E. unfold countKind in *. lia.
Qed.

Lemma addMessages_messages ms s :
  messages (addMessages ms s) = (messages s ++ ms)%list.
Proof.
  unfold addMessages. revert s. induction ms as [|m ms IH]; intros s; simpl.
  - now rewrite app_nil_r.
  - rewrite IH. simpl. now rewrite <- app_assoc.
Qed.

Lemma addMessages_localCandidates ms s :
  localCandidates (addMessages ms s) = localCandidates s.
Proof.
  unfold addMessages. revert s. induction ms as [|m ms IH]; intros s; simpl;
    [reflexivity | now rewrite IH].
Qed.

Lemma addMessages_connected ms s : connected (addMessages ms s) = connected s.
Proof.
  unfold addMessages. revert s. induction ms as [|m ms IH]; intros s; simpl;
    [reflexivity | now rewrite IH].
Qed.

(** X10. When gathering completes on a session with a connection, the
    log gains the completion message, the line "Gathered N local
    candidates" and the summary, and N is the sum of the counts that the
    summary lines show. *)
Theorem gathering_complete_report (s : Session.t) :
  connected s = true ->
  messages (onicegatheringstatechange "complete" s)
  = (messages s
     ++ [ sys "✅ Found all possible connection paths";
          dbg ("📊 Gathered "
               ++ JS.numToString (sumCounts (candidateTypes (localCandidates s)))
               ++ " local candidates") ]
     ++ logCandidateSummary (localCandidates s))%list.
Proof.
  intros Hactive. unfold onicegatheringstatechange. rewrite Hactive.
  cbn [negb String.eqb Ascii.eqb Bool.eqb]. simpl String.eqb.
  rewrite addMessages_messages. simpl.
  rewrite candidateTypes_total, <- !app_assoc. reflexivity.
Qed.

Lemma gathering_complete_report_witness :
  map Message.text
    (skipn (length (messages gatheredSession))
           (messages (onicegatheringstatechange "complete" gatheredSession)))
  = [ "✅ Found all possible connection paths";
      "📊 Gathered 4 local candidates";
      "📊 Local candidate summary:";
      "   • 3x host - Direct connection (same network)";
      "   • 1x relay - Relayed (through TURN server)" ].
Proof.
  rewrite (gathering_complete_report gatheredSession); [|reflexivity].
  rewrite skipn_app, Nat.sub_diag, skipn_all. vm_compute. reflexivity.
Defined.

(** ** Invariants of the page along a run *)

Ltac page_cases :=
  repeat (cbn beta iota;
          match goal with
          | |- context [match ?x with _ => _ end] => destruct x eqn:?
          end).

Lemma onconnectionstatechange_registry state poll s :
  localCandidates (onconnectionstatechange state poll s) = localCandidates s.
Proof.
  unfold onconnectionstatechange. page_cases;
    rewrite ?addMessages_localCandidates; reflexivity.
Qed.

Lemma oniceconnectionstatechange_registry state poll s :
  localCandidates (oniceconnectionstatechange state poll s) = localCandidates s.
Proof.
  unfold oniceconnectionstatechange. page_cases;
    rewrite ?addMessages_localCandidates; reflexivity.
Qed.

Lemma onicegatheringstatechange_registry state s :
  localCandidates (onicegatheringstatechange state s) = localCandidates s.
Proof.
  unfold onicegatheringstatechange. page_cases;
    rewrite ?addMessages_localCandidates; reflexivity.
Qed.

Lemma requestMediaPermissions_registry engine s :
  localCandidates (fst (requestMediaPermissions engine s)) = localCandidates s.
Proof.
  unfold requestMediaPermissions.
  destruct (Engine.getUserMedia engine) as [[|]|e]; reflexivity.
Qed.

(** What one event does to the local registry as a whole. *)
Lemma pageStep_registry (e : PageEvent) (s : Session.t) :
  localCandidates (pageStep s e) = localCandidates s
  \/ localCandidates (pageStep s e) = JsMap.empty
  \/ (isDiscovery e = true
      /\ exists k info,
           localCandidates (pageStep s e) = JsMap.set k info (localCandidates s)).
Proof.
  destruct e as [e|state poll|state poll|poll|state|e|readyState message|written
                 |engine|reply]; cbn [pageStep].
  - destruct e as [[c|]|asInitiator engine| |engine| |text|engine| |text|engine];
      cbn [step].
    + unfold onicecandidate. destruct (parseICECandidate c) as [info|].
      * right. right. split; [reflexivity|]. eexists _, _. reflexivity.
      * left. reflexivity.
    + left. reflexivity.
    + right. left. apply initializeWebRTC_clears.
    + right. left. reflexivity.
    + left. apply createOffer_keeps_registry.
    + left. apply offerTimeout_keeps_registry.
    + left. reflexivity.
    + left. apply handleRemoteOffer_keeps_registry.
    + left. apply answerTimeout_keeps_registry.
    + left. reflexivity.
    + left. apply handleRemoteAnswer_keeps_registry.
  - left. apply onconnectionstatechange_registry.
  - left. apply oniceconnectionstatechange_registry.
  - left. unfold successTimeout. apply addMessages_localCandidates.
  - left. apply onicegatheringstatechange_registry.
  - left. destruct e; reflexivity.
  - left. unfold sendMessage. page_cases; reflexivity.
  - left. unfold copyToClipboard. destruct written; reflexivity.
  - left. apply requestMediaPermissions_registry.
  - left. unfold fetchDefaultIceServers. destruct reply; reflexivity.
Qed.

Lemma set_keys_NoDup {V : Type} (k : option string) (v : V)
  (m : JsMap.t (option string) V) :
  NoDup (JsMap.keys m) -> NoDup (JsMap.keys (JsMap.set k v m)).
Proof.
  intros Hnd. destruct (JsMap.get k m) eqn:Eget.
  - rewrite keys_set_present; [exact Hnd|].
    apply get_In_keys. congruence.
  - assert (Hnot : ~ In k (JsMap.keys m)).
    { intros Hin. apply get_In_keys in Hin. congruence. }
    rewrite (keys_set_absent k v m Hnot).
    apply NoDup_rev in Hnd. rewrite <- (rev_involutive (JsMap.keys m ++ [k])).
    apply NoDup_rev. rewrite rev_app_distr. simpl. constructor; [|exact Hnd].
    intros Hin. apply Hnot. apply in_rev. exact Hin.
Qed.

Lemma set_size {V : Type} (k : option string) (v : V)
  (m : JsMap.t (option string) V) :
  JsMap.size (JsMap.set k v m) <= JsMap.size m + 1.
Proof.
  unfold JsMap.size. induction m as [|[a b] r IH]; simpl.
  - lia.
  - destruct (optStrEqb k a); simpl length; lia.
Qed.

(** X11. Along any run of the page that starts from a registry without
    repeated keys, the local registry never holds two entries for the
    same foundation, and it never holds more entries than it had plus
    the candidate discoveries of the run. *)
Theorem registry_keys_distinct (events : list PageEvent) (s : Session.t) :
  NoDup (JsMap.keys (localCandidates s)) ->
  NoDup (JsMap.keys (localCandidates (pageRun events s)))
  /\ JsMap.size (localCandidates (pageRun events s))
     <= JsMap.size (localCandidates s) + discoveries events.
Proof.
  unfold pageRun, discoveries. revert s.
  induction events as [|e events IH]; intros s Hnd.
  - simpl. split; [exact Hnd | lia].
  - cbn [fold_left filter].
    destruct (pageStep_registry e s) as [Hsame|[Hempty|(Hdisc & k & info & Hset)]].
    + destruct (IH (pageStep s e)) as [IH1 IH2]; [rewrite Hsame; exact Hnd|].
      split; [exact IH1|]. rewrite Hsame in IH2.
      destruct (isDiscovery e); cbn [length]; lia.
    + destruct (IH (pageStep s e)) as [IH1 IH2]; [rewrite Hempty; constructor|].
      split; [exact IH1|]. rewrite Hempty in IH2.
      unfold JsMap.size in *. simpl length in IH2.
      destruct (isDiscovery e); cbn [length]; lia.
    + destruct (IH (pageStep s e)) as [IH1 IH2];
        [rewrite Hset; apply set_keys_NoDup; exact Hnd|].
      split; [exact IH1|]. rewrite Hset in IH2. rewrite Hdisc. cbn [length].
      pose proof (set_size k info (localCandidates s)). lia.
Qed.

Lemma registry_keys_distinct_witness :
  NoDup (JsMap.keys (localCandidates (pageRun samplePageRun Session.initial)))
  /\ JsMap.size (localCandidates (pageRun samplePageRun Session.initial))
     <= JsMap.size (localCandidates Session.initial) + discoveries samplePageRun.
Proof.
  apply (registry_keys_distinct samplePageRun Session.initial). constructor.
Defined.

Lemma extendsLog_refl s : extendsLog s s.
Proof. exists []. now rewrite app_nil_r. Qed.

Lemma extendsLog_same s s' : messages s' = messages s -> extendsLog s s'.
Proof. intros H. exists []. now rewrite app_nil_r. Qed.

Lemma extendsLog_trans s1 s2 s3 :
  extendsLog s1 s2 -> extendsLog s2 s3 -> extendsLog s1 s3.
Proof.
  intros [a Ha] [b Hb]. exists (a ++ b)%list. now rewrite Hb, Ha, app_assoc.
Qed.

Lemma extendsLog_addMessage m s s' :
  extendsLog s s' -> extendsLog s (addMessage m s').
Proof.
  intros [a Ha]. exists (a ++ [m])%list. simpl. now rewrite Ha, app_assoc.
Qed.

Lemma extendsLog_addMessages ms s s' :
  extendsLog s s' -> extendsLog s (addMessages ms s').
Proof.
  intros [a Ha]. exists (a ++ ms)%list.
  now rewrite addMessages_messages, Ha, app_assoc.
Qed.

Ltac log_step :=
  repeat first
    [ apply extendsLog_addMessage
    | apply extendsLog_addMessages
    | apply extendsLog_same; reflexivity ].

Lemma requestMediaPermissions_extends engine s :
  extendsLog s (fst (requestMediaPermissions engine s)).
Proof.
  unfold requestMediaPermissions.
  destruct (Engine.getUserMedia engine) as [[|]|e]; cbn [fst]; log_step.
Qed.

Lemma initializeWebRTC_extends asInitiator engine s :
  extendsLog s (initializeWebRTC asInitiator engine s).
Proof.
  unfold initializeWebRTC.
  destruct (mediaPermissionState s) eqn:Eperm.
  - pose proof (requestMediaPermissions_extends engine (clearCandidates s)) as Hreq.
    destruct (requestMediaPermissions engine (clearCandidates s)) as [s2 granted].
    cbn [fst] in Hreq.
    assert (Hs2 : extendsLog s s2) by exact Hreq.
    destruct (Engine.construct engine) as [u|e]; [|log_step; exact Hs2].
    match goal with
    | |- extendsLog s (if asInitiator then _ else _) =>
        destruct asInitiator
    end;
      destruct (localStream _ && granted)%bool;
      apply extendsLog_addMessage; cbn [setRole setPeerConnection messages];
      repeat (first [ apply extendsLog_addMessage | exact Hs2
                    | (destruct Hs2 as [a Ha]; exists a; exact Ha) ]).
  - destruct (Engine.construct engine) as [u|e]; [|log_step].
    destruct asInitiator, (localStream _ && false)%bool; log_step.
  - destruct (Engine.construct engine) as [u|e]; [|log_step].
    destruct asInitiator, (localStream _ && true)%bool; log_step.
  - destruct (Engine.construct engine) as [u|e]; [|log_step].
    destruct asInitiator, (localStream _ && false)%bool; log_step.
Qed.

Lemma step_extends (e : Event) (s : Session.t) :
  e <> Reset -> extendsLog s (step s e).
Proof.
  intros Hreset.
  destruct e as [[c|]|asInitiator engine| |engine| |text|engine| |text|engine];
    cbn [step]; try congruence.
  - unfold onicecandidate. destruct (parseICECandidate c); log_step.
  - unfold onicecandidate. log_step.
  - apply initializeWebRTC_extends.
  - unfold createOffer. page_cases; log_step.
  - unfold offerTimeout. page_cases; log_step.
  - log_step.
  - unfold handleRemoteOffer. page_cases; log_step.
  - unfold answerTimeout. page_cases; log_step.
  - log_step.
  - unfold handleRemoteAnswer. page_cases; log_step.
Qed.

Lemma pageStep_extends (e : PageEvent) (s : Session.t) :
  isReset e = false -> extendsLog s (pageStep s e).
Proof.
  intros Hreset.
  destruct e as [e|state poll|state poll|poll|state|e|readyState message|written
                 |engine|reply]; cbn [pageStep].
  - apply step_extends. intros ->. discriminate Hreset.
  - unfold onconnectionstatechange. page_cases; log_step.
  - unfold oniceconnectionstatechange. page_cases; log_step.
  - unfold successTimeout. log_step.
  - unfold onicegatheringstatechange. page_cases; log_step.
  - destruct e; cbn [onChannelEvent]; log_step.
  - unfold sendMessage. page_cases; cbn [fst]; log_step.
  - unfold copyToClipboard. destruct written; log_step.
  - apply requestMediaPermissions_extends.
  - unfold fetchDefaultIceServers. destruct reply; log_step.
Qed.

(** X12. The message log is append-only: every event of the page other
    than [reset] keeps the messages logged so far, in place, and can only
    add messages after them; [reset] alone empties the log, leaving the
    single message "Reset connection". *)
Theorem log_is_append_only (events : list PageEvent) (s : Session.t) :
  (forallb (fun e => negb (isReset e)) events = true ->
   exists added, messages (pageRun events s) = (messages s ++ added)%list)
  /\ messages (pageStep s (Core Reset)) = [sys "Reset connection"].
Proof.
  split; [|reflexivity].
  unfold pageRun. revert s. induction events as [|e events IH]; intros s Hno.
  - apply extendsLog_refl.
  - simpl in Hno. apply andb_true_iff in Hno. destruct Hno as [He Hrest].
    apply negb_true_iff in He. cbn [fold_left].
    apply (extendsLog_trans s (pageStep s e)).
    + apply pageStep_extends. exact He.
    + apply IH. exact Hrest.
Qed.

Lemma log_is_append_only_witness :
  exists added,
    messages (pageRun samplePageRun receiverReady)
    = (messages receiverReady ++ added)%list.
Proof.
  apply (proj1 (log_is_append_only samplePageRun receiverReady)). reflexivity.
Defined.

(** ** More on the two reports *)

Lemma allDebug_app a b : allDebug a -> allDebug b -> allDebug (a ++ b).
Proof. intros Ha Hb. apply Forall_app. split; assumption. Qed.

Lemma allDebug_flat_map {A : Type} (f : A -> list Message.t) (l : list A) :
  (forall x, allDebug (f x)) -> allDebug (flat_map f l).
Proof.
  intros Hf. apply Forall_flat_map. apply Forall_forall. intros x _. apply Hf.
Qed.

Lemma allDebug_forEachIndexed {A : Type} (f : A -> nat -> list Message.t)
  (l : list A) :
  (forall x i, allDebug (f x i)) -> allDebug (forEachIndexed f l).
Proof.
  intros Hf. unfold forEachIndexed. apply allDebug_flat_map.
  intros [i x]. apply Hf.
Qed.

Lemma allDebug_map_dbg (f : string -> string) (l : list string) :
  allDebug (map (fun x => dbg (f x)) l).
Proof. apply Forall_forall. intros m Hin. apply in_map_iff in Hin.
  destruct Hin as (x & <- & _). reflexivity. Qed.

Ltac debug_lines :=
  repeat first
    [ apply Forall_nil
    | apply Forall_cons; [reflexivity|]
    | apply allDebug_app
    | apply allDebug_map_dbg ].

Lemma succeededLines_debug locals remotes pair :
  allDebug (succeededLines locals remotes pair).
Proof. unfold succeededLines, allDebug. page_cases; debug_lines. Qed.

Lemma failedLines_debug locals remotes pair :
  allDebug (failedLines locals remotes pair).
Proof.
  unfold failedLines. page_cases; unfold allDebug; debug_lines.
Qed.

Lemma primaryBlock_debug locals remotes pair index :
  allDebug (primaryBlock locals remotes pair index).
Proof.
  unfold primaryBlock, averageRttLine, currentRttLine, bandwidthLine, allDebug.
  page_cases; debug_lines.
Qed.

Lemma backupBlock_debug locals remotes pair index :
  allDebug (backupBlock locals remotes pair index).
Proof.
  unfold backupBlock, averageRttLine, allDebug. page_cases; debug_lines.
Qed.

Lemma pendingBlock_debug pair index : allDebug (pendingBlock pair index).
Proof. unfold pendingBlock, allDebug. page_cases; debug_lines. Qed.

Lemma failureReport_debug stats : allDebug (failureReport stats).
Proof.
  unfold failureReport.
  repeat apply allDebug_app;
    try (destruct (filter _ _); [apply Forall_nil|]);
    try (destruct (candidatePairStats stats); [|apply Forall_nil]);
    try (apply Forall_cons; [reflexivity|]);
    try apply Forall_nil;
    apply allDebug_flat_map; intros x;
    [apply succeededLines_debug | apply failedLines_debug].
Qed.

Lemma successReport_debug stats : allDebug (successReport stats).
Proof.
  rewrite successReport_blocks.
  destruct (_ || _)%bool; [|apply Forall_nil].
  apply Forall_cons; [reflexivity|]. apply allDebug_app;
    apply allDebug_forEachIndexed; intros x i;
    [apply primaryBlock_debug | apply backupBlock_debug].
Qed.

(** X13. Every line the two reports write has the category ice-debug,
    the line that tells of a failed statistics poll included: the
    reports never write an error or a system message. *)
Theorem reports_write_debug_lines_only
  (active : bool) (poll : Reply (list Report)) :
  Forall (fun m => Message.type m = ice_debug) (logCandidateFailures active poll)
  /\ Forall (fun m => Message.type m = ice_debug)
            (logSuccessfulConnection active poll).
Proof.
  unfold logCandidateFailures, logSuccessfulConnection.
  destruct active, poll as [stats|e]; simpl; split;
    try apply Forall_nil;
    try (apply Forall_cons; [reflexivity | apply Forall_nil]).
  - apply failureReport_debug.
  - apply successReport_debug.
Qed.

Lemma notLike_app marker a b :
  notLike marker a -> notLike marker b -> notLike marker (a ++ b).
Proof. intros Ha Hb. apply Forall_app. split; assumption. Qed.

Lemma notLike_flat_map {A : Type} marker (f : A -> list Message.t) (l : list A) :
  (forall x, notLike marker (f x)) -> notLike marker (flat_map f l).
Proof.
  intros Hf. apply Forall_flat_map. apply Forall_forall. intros x _. apply Hf.
Qed.

Lemma notLike_In marker m ms :
  notLike marker ms -> String.prefix marker (Message.text m) = true -> ~ In m ms.
Proof.
  intros Hall Hm Hin. unfold notLike in Hall. rewrite Forall_forall in Hall.
  rewrite (Hall m Hin) in Hm. discriminate.
Qed.

Ltac unlike_lines :=
  repeat first
    [ apply Forall_nil
    | apply Forall_cons; [reflexivity|]
    | apply notLike_app ].

Lemma succeededLines_unlike locals remotes pair :
  notLike "   N" (succeededLines locals remotes pair).
Proof. unfold succeededLines, notLike. page_cases; unlike_lines. Qed.

Lemma failedLines_unlike locals remotes pair :
  notLike "   N" (failedLines locals remotes pair).
Proof.
  unfold failedLines, notLike. page_cases; unlike_lines.
  apply Forall_forall. intros m Hin. apply in_map_iff in Hin.
  destruct Hin as (x & <- & _). reflexivity.
Qed.

Lemma filter_none {A : Type} (p q : A -> bool) (l : list A) :
  (forall x, p x = true -> q x = true) ->
  forallb (fun x => negb (q x)) l = true ->
  filter p l = [].
Proof.
  intros Hpq. induction l as [|x l IH]; simpl; [reflexivity|].
  intros Hall. apply andb_true_iff in Hall. destruct Hall as [Hx Hl].
  destruct (p x) eqn:E; [|apply IH; exact Hl].
  rewrite (Hpq x E) in Hx. discriminate.
Qed.

(** X14. The line "No candidate pairs found" is in the failure report
    exactly when the snapshot holds no pair report, and the report is
    then that line after the heading and nothing else. *)
Theorem no_pairs_line_iff_no_pair_report (stats : list Report) :
  (In noPairsLine (failureReport stats) <-> candidatePairStats stats = [])
  /\ (candidatePairStats stats = [] ->
      failureReport stats
      = [ dbg "🔍 Detailed connectivity check results:"; noPairsLine ]).
Proof.
  assert (Hempty : candidatePairStats stats = [] ->
                   failureReport stats
                   = [ dbg "🔍 Detailed connectivity check results:"; noPairsLine ]).
  { intros Hnone. unfold failureReport. rewrite Hnone. reflexivity. }
  split; [|exact Hempty]. split.
  - intros Hin. destruct (candidatePairStats stats) as [|p ps] eqn:Epairs;
      [reflexivity|]. exfalso.
    revert Hin. apply (notLike_In "   N"); [|reflexivity].
    unfold failureReport. rewrite Epairs.
    repeat apply notLike_app;
      try (destruct (filter _ _); [apply Forall_nil|]);
      try (apply Forall_cons; [reflexivity|]);
      try apply Forall_nil;
      apply notLike_flat_map; intros x;
      [apply succeededLines_unlike | apply failedLines_unlike].
  - intros Hnone. rewrite (Hempty Hnone). right. left. reflexivity.
Qed.

Lemma no_pairs_line_iff_no_pair_report_witness :
  failureReport candidatesOnlySnapshot
  = [ dbg "🔍 Detailed connectivity check results:"; noPairsLine ].
Proof.
  apply (proj2 (no_pairs_line_iff_no_pair_report candidatesOnlySnapshot)).
  reflexivity.
Defined.

(** X15. The failure report counts and lists the pairs that are
    succeeded, failed, in progress or waiting, and no other: for a
    snapshot whose pairs are all in other states (frozen, for one) it
    writes its heading and nothing more. *)
Theorem other_states_not_reported (stats : list Report) :
  candidatePairStats stats <> [] ->
  forallb (fun pair => negb (knownState pair)) (candidatePairStats stats) = true ->
  failureReport stats = [ dbg "🔍 Detailed connectivity check results:" ].
Proof.
  intros Hsome Hother. unfold failureReport.
  rewrite (filter_none (stateIs "succeeded") knownState _);
    [|intros x Hx; unfold knownState; rewrite Hx; reflexivity | exact Hother].
  rewrite (filter_none (stateIs "failed") knownState _);
    [|intros x Hx; unfold knownState; rewrite Hx, !orb_true_r; reflexivity
     | exact Hother].
  rewrite (filter_none (stateIs "in-progress") knownState _);
    [|intros x Hx; unfold knownState; rewrite Hx, !orb_true_r; reflexivity
     | exact Hother].
  rewrite (filter_none (stateIs "waiting") knownState _);
    [|intros x Hx; unfold knownState; rewrite Hx, !orb_true_r; reflexivity
     | exact Hother].
  destruct (candidatePairStats stats); [congruence | reflexivity].
Qed.

Lemma other_states_not_reported_witness :
  failureReport frozenSnapshot = [ dbg "🔍 Detailed connectivity check results:" ].
Proof.
  apply (other_states_not_reported frozenSnapshot); [discriminate | reflexivity].
Defined.

Lemma primaryBlock_unlike locals remotes pair index :
  notLike "🎉" (primaryBlock locals remotes pair index).
Proof.
  unfold primaryBlock, averageRttLine, currentRttLine, bandwidthLine, notLike.
  page_cases; unlike_lines.
Qed.

Lemma backupBlock_unlike locals remotes pair index :
  notLike "🎉" (backupBlock locals remotes pair index).
Proof.
  unfold backupBlock, averageRttLine, notLike. page_cases; unlike_lines.
Qed.

Lemma succeeded_split (pairs : list PairStats.t) :
  filter (stateIs "succeeded") pairs = [] <->
  filter isSucceededNominated pairs = [] /\ filter isSucceededOther pairs = [].
Proof.
  split.
  - intros Hnone. unfold isSucceededNominated, isSucceededOther.
    induction pairs as [|p pairs IH]; simpl in *; [split; reflexivity|].
    destruct (stateIs "succeeded" p); [discriminate|]. simpl. apply IH, Hnone.
  - intros [Hn Ho]. apply no_succeeded_when_groups_empty; assumption.
Qed.

(** X16. The success report is empty exactly when the snapshot has no
    succeeded pair; otherwise it opens with the heading of the details.
    The line "Connection successful! (Nomination pending...)" of its
    fallback branch is never written. *)
Theorem success_report_never_pending (stats : list Report) :
  (successReport stats = []
   <-> filter (stateIs "succeeded") (candidatePairStats stats) = [])
  /\ (filter (stateIs "succeeded") (candidatePairStats stats) <> [] ->
      exists rest,
        successReport stats = dbg "🏆 SUCCESSFUL CONNECTION DETAILS:" :: rest)
  /\ ~ In pendingLine (successReport stats).
Proof.
  rewrite successReport_blocks.
  destruct ((0 <? length (nominatedPairs stats))%nat
            || (0 <? length (otherSuccessfulPairs stats))%nat)%bool eqn:E.
  - assert (Hsome : filter (stateIs "succeeded") (candidatePairStats stats) <> []).
    { intros Hnone. apply succeeded_split in Hnone. destruct Hnone as [Hn Ho].
      unfold nominatedPairs, otherSuccessfulPairs in E.
      change (filter (fun pair => (stateIs "succeeded" pair && isNominated pair)%bool))
        with (filter isSucceededNominated) in E.
      change (filter (fun pair =>
                        (stateIs "succeeded" pair && negb (isNominated pair))%bool))
        with (filter isSucceededOther) in E.
      rewrite Hn, Ho in E. discriminate. }
    split; [split; [discriminate | contradiction]|].
    split; [intros _; eexists; reflexivity|].
    apply (notLike_In "🎉"); [|reflexivity].
    apply Forall_cons; [reflexivity|].
    apply notLike_app; unfold forEachIndexed; apply notLike_flat_map;
      intros [i x]; [apply primaryBlock_unlike | apply backupBlock_unlike].
  - apply orb_false_iff in E. destruct E as [En Eo].
    apply length_positive in En. apply length_positive in Eo.
    assert (Hnone : filter (stateIs "succeeded") (candidatePairStats stats) = [])
      by (apply no_succeeded_when_groups_empty; assumption).
    split; [split; [intros _; exact Hnone | reflexivity]|].
    split; [intros Hsome; contradiction | intros []].
Qed.

Lemma success_report_never_pending_witness :
  exists rest,
    successReport backupFirstSnapshot
    = dbg "🏆 SUCCESSFUL CONNECTION DETAILS:" :: rest.
Proof.
  apply (proj1 (proj2 (success_report_never_pending backupFirstSnapshot))).
  vm_compute. discriminate.
Defined.

(** ** Pairs whose candidates are missing *)

Lemma succeededLines_no_error locals remotes pair :
  notLike "Error" (succeededLines locals remotes pair).
Proof. unfold succeededLines, notLike. page_cases; unlike_lines. Qed.

Lemma failedLines_no_error locals remotes pair :
  notLike "Error" (failedLines locals remotes pair).
Proof.
  unfold failedLines, notLike. page_cases; unlike_lines.
  apply Forall_forall. intros m Hin. apply in_map_iff in Hin.
  destruct Hin as (x & <- & _). reflexivity.
Qed.

Lemma failureReport_no_error stats : notLike "Error" (failureReport stats).
Proof.
  unfold failureReport.
  repeat apply notLike_app;
    try (destruct (filter _ _); [apply Forall_nil|]);
    try (destruct (candidatePairStats stats); [|apply Forall_nil]);
    try (apply Forall_cons; [reflexivity|]);
    try apply Forall_nil;
    apply notLike_flat_map; intros x;
    [apply succeededLines_no_error | apply failedLines_no_error].
Qed.

Lemma failed_heading_split stats :
  filter (stateIs "failed") (candidatePairStats stats) <> [] ->
  exists pre post,
    failureReport stats
    = (pre
       ++ dbg ("❌ "
               ++ lengthText (filter (stateIs "failed") (candidatePairStats stats))
               ++ " failed connection(s):")
       :: flat_map (failedLines (localCandidateStats stats)
                                (remoteCandidateStats stats))
            (filter (bothFound stats)
                    (filter (stateIs "failed") (candidatePairStats stats)))
       ++ post)%list.
Proof.
  intros Hsome. unfold failureReport.
  rewrite <- (flat_map_filter (bothFound stats) _ _ (failedLines_missing stats)).
  destruct (filter (stateIs "failed") (candidatePairStats stats)) as [|p ps] eqn:E;
    [contradiction|].
  rewrite app_assoc. eexists _, _. rewrite <- app_comm_cons. reflexivity.
Qed.

(** C8. A missing packet counter is read as 0: the diagnosis of a pair
    is that of the same pair with 0 written in place of every missing
    counter, and a pair with no request counter and no time stamp gets
    the first diagnosis without a timing note.  A failed or succeeded
    pair whose local or remote candidate is not in the snapshot is
    passed over in silence: it adds no line to the failure report nor
    to the success report, while a failed pair whose two candidates are
    found gets its block of the pair line, the reason, the details and
    the suggestions.  The heading of the failed group counts every
    failed pair, those passed over included, and is followed by the
    blocks of the pairs found only.  The report is written whatever is
    missing, and none of its lines is an error line. *)
Theorem missing_statistics_skipped_silently :
  (forall pair localCandidate remoteCandidate,
     analyzeConnectionFailure (withZeroCounters pair) localCandidate remoteCandidate
     = analyzeConnectionFailure pair localCandidate remoteCandidate)
  /\ (forall pair localCandidate remoteCandidate,
        PairStats.requestsSent pair = None ->
        PairStats.requestsReceived pair = None ->
        PairStats.lastPacketSentTimestamp pair = None ->
        analyzeConnectionFailure pair localCandidate remoteCandidate
        = {| Analysis.reason :=
               "No communication attempted - candidate pair was not selected for testing";
             Analysis.details :=
               "This path was deprioritized or testing was stopped early";
             Analysis.suggestions :=
               protocolSuggestion localCandidate remoteCandidate
               ++ topologySuggestion localCandidate remoteCandidate |})
  /\ (forall stats pair index,
        bothFound stats pair = false ->
        let locals := localCandidateStats stats in
        let remotes := remoteCandidateStats stats in
        failedLines locals remotes pair = []
        /\ succeededLines locals remotes pair = []
        /\ primaryBlock locals remotes pair index = []
        /\ backupBlock locals remotes pair index = [])
  /\ (forall stats pair,
        bothFound stats pair = true ->
        exists localCandidate remoteCandidate,
          JsMap.get (PairStats.localCandidateId pair) (localCandidateStats stats)
          = Some localCandidate
          /\ JsMap.get (PairStats.remoteCandidateId pair) (remoteCandidateStats stats)
             = Some remoteCandidate
          /\ failedLines (localCandidateStats stats) (remoteCandidateStats stats) pair
             = dbg ("   ❌ " ++ candidateInfoText localCandidate ++ " ↔ "
                    ++ candidateInfoText remoteCandidate)
               :: dbg ("      💡 "
                       ++ Analysis.reason
                            (analyzeConnectionFailure pair localCandidate remoteCandidate))
               :: dbg ("      📊 "
                       ++ Analysis.details
                            (analyzeConnectionFailure pair localCandidate remoteCandidate))
               :: map (fun suggestion => dbg ("      🔧 " ++ suggestion))
                      (Analysis.suggestions
                         (analyzeConnectionFailure pair localCandidate remoteCandidate)))
  /\ (forall stats,
        let failedPairs := filter (stateIs "failed") (candidatePairStats stats) in
        failedPairs <> [] ->
        exists pre post,
          failureReport stats
          = (pre
             ++ dbg ("❌ " ++ lengthText failedPairs ++ " failed connection(s):")
             :: flat_map (failedLines (localCandidateStats stats)
                                      (remoteCandidateStats stats))
                  (filter (bothFound stats) failedPairs)
             ++ post)%list)
  /\ (forall stats,
        logCandidateFailures true (Ok stats) = failureReport stats
        /\ In (dbg "🔍 Detailed connectivity check results:") (failureReport stats)
        /\ notLike "Error" (failureReport stats)).
Proof.
  split; [|split; [|split; [|split; [|split]]]].
  - intros pair l r. unfold analyzeConnectionFailure.
    rewrite classify_withZeroCounters. reflexivity.
  - intros pair l r Hsent Hreceived Hstamp.
    unfold analyzeConnectionFailure, classifyPackets, timingNote.
    rewrite Hsent, Hreceived, Hstamp. reflexivity.
  - intros stats pair index Hmiss locals remotes. subst locals remotes.
    unfold failedLines, succeededLines, primaryBlock, backupBlock.
    destruct (not_bothFound stats pair Hmiss) as [Hl|Hr].
    + rewrite Hl. repeat split; reflexivity.
    + rewrite Hr.
      destruct (JsMap.get (PairStats.localCandidateId pair)
                          (localCandidateStats stats));
        repeat split; reflexivity.
  - intros stats pair Hfound. unfold bothFound in Hfound. unfold failedLines.
    destruct (JsMap.get (PairStats.localCandidateId pair)
                        (localCandidateStats stats)) as [l|]; [|discriminate].
    destruct (JsMap.get (PairStats.remoteCandidateId pair)
                        (remoteCandidateStats stats)) as [r|]; [|discriminate].
    exists l, r. repeat split.
  - intros stats failedPairs. subst failedPairs. apply failed_heading_split.
  - intros stats. split; [reflexivity|]. split; [left; reflexivity|].
    apply failureReport_no_error.
Qed.

Lemma missing_statistics_skipped_silently_witness :
  failedLines (localCandidateStats orphanSnapshot)
              (remoteCandidateStats orphanSnapshot) barePair = []
  /\ Analysis.details (analyzeConnectionFailure barePair hostUdp relayUdp)
     = "This path was deprioritized or testing was stopped early".
Proof.
  split.
  - apply (proj1 (proj2 (proj2 missing_statistics_skipped_silently))
             orphanSnapshot barePair 0%nat).
    reflexivity.
  - rewrite (proj1 (proj2 missing_statistics_skipped_silently)
               barePair hostUdp relayUdp eq_refl eq_refl eq_refl).
    reflexivity.
Defined.

(** C8 as stated fails: of three failed pairs, two name a candidate
    that the snapshot does not hold.  The report counts three failed
    connections and describes one; nothing is written for the other
    two, and no line tells that a pair was omitted. *)
Lemma omitted_outcome_counterexample :
  map (stateIs "failed") (candidatePairStats partlyResolvedSnapshot)
  = [true; true; true]
  /\ map (bothFound partlyResolvedSnapshot)
         (candidatePairStats partlyResolvedSnapshot)
     = [true; false; false]
  /\ logCandidateFailures true (Ok partlyResolvedSnapshot)
     = [ dbg "🔍 Detailed connectivity check results:";
         dbg "❌ 3 failed connection(s):";
         dbg "   ❌ host 192.168.1.2:5000 (udp) ↔ relay 203.0.113.9:3478 (udp)";
         dbg "      💡 Outbound packets sent but no response received";
         dbg "      📊 Sent 4 requests, received 0 responses";
         dbg "      🔧 TURN server may be unreachable or credentials invalid";
         dbg "      🔧 Check TURN server configuration and network connectivity";
         dbg "      🔧 Using TURN relay - should work unless TURN server is misconfigured" ]
  /\ mentions "omitted" (logCandidateFailures true (Ok partlyResolvedSnapshot))
     = false.
Proof.
  repeat split; reflexivity.
Qed.

(** ** Reset and late callbacks *)

Lemma reset_freshPage (s : Session.t) :
  mediaConsistent s ->
  reset s = freshPage (iceServers s) (iceServersLoading s) (usingCustomIceServers s).
Proof.
  unfold mediaConsistent, reset, cleanupMediaStream, freshPage. intros Hmedia.
  destruct (localStream s) eqn:Hstream; simpl; [reflexivity|].
  rewrite Hstream, Hmedia. reflexivity.
Qed.

Lemma addMessages_media ms s :
  hasMediaStream (addMessages ms s) = hasMediaStream s
  /\ localStream (addMessages ms s) = localStream s
  /\ iceServers (addMessages ms s) = iceServers s
  /\ iceServersLoading (addMessages ms s) = iceServersLoading s
  /\ usingCustomIceServers (addMessages ms s) = usingCustomIceServers s.
Proof.
  unfold addMessages. revert s. induction ms as [|m ms IH]; intros s; simpl.
  - repeat split.
  - destruct (IH (addMessage m s)) as (H1 & H2 & H3 & H4 & H5).
    rewrite H1, H2, H3, H4, H5. repeat split.
Qed.

Ltac reset_view :=
  unfold sameForReset, mediaConsistent in *;
  repeat match goal with
         | |- context [addMessages ?ms ?s] =>
             let H1 := fresh in let H2 := fresh in let H3 := fresh in
             let H4 := fresh in let H5 := fresh in
             destruct (addMessages_media ms s) as (H1 & H2 & H3 & H4 & H5);
             rewrite ?H1, ?H2, ?H3, ?H4, ?H5; clear H1 H2 H3 H4 H5
         end;
  simpl; repeat split; try assumption; try reflexivity.

Lemma requestMediaPermissions_sameForReset engine s :
  mediaConsistent s -> sameForReset s (fst (requestMediaPermissions engine s)).
Proof.
  intros Hmedia. unfold requestMediaPermissions.
  destruct (Engine.getUserMedia engine) as [[|]|e]; reset_view.
Qed.

Lemma initializeWebRTC_sameForReset asInitiator engine s :
  mediaConsistent s -> sameForReset s (initializeWebRTC asInitiator engine s).
Proof.
  intros Hmedia. unfold initializeWebRTC, requestMediaPermissions.
  destruct (mediaPermissionState s);
    destruct (Engine.getUserMedia engine) as [[|]|e];
    destruct (Engine.construct engine) as [u|e'];
    cbn beta iota zeta;
    repeat match goal with
           | |- context [if ?b then _ else _] => destruct b eqn:?
           end;
    reset_view.
Qed.

Lemma step_sameForReset (e : Event) (s : Session.t) :
  mediaConsistent s -> sameForReset s (step s e).
Proof.
  intros Hmedia.
  destruct e as [[c|]|asInitiator engine| |engine| |text|engine| |text|engine];
    cbn [step].
  - unfold onicecandidate. destruct (parseICECandidate c); reset_view.
  - reset_view.
  - apply initializeWebRTC_sameForReset. exact Hmedia.
  - rewrite (reset_freshPage s Hmedia). unfold freshPage. reset_view.
  - unfold createOffer. page_cases; reset_view.
  - unfold offerTimeout. page_cases; reset_view.
  - reset_view.
  - unfold handleRemoteOffer. page_cases; reset_view.
  - unfold answerTimeout. page_cases; reset_view.
  - reset_view.
  - unfold handleRemoteAnswer. page_cases; reset_view.
Qed.

Lemma pageStep_mediaConsistent (e : PageEvent) (s : Session.t) :
  mediaConsistent s -> mediaConsistent (pageStep s e).
Proof.
  intros Hmedia.
  destruct e as [e|state poll|state poll|poll|state|e|readyState message|written
                 |engine|reply]; cbn [pageStep].
  - apply (step_sameForReset e s Hmedia).
  - unfold onconnectionstatechange. page_cases; reset_view.
  - unfold oniceconnectionstatechange. page_cases; reset_view.
  - unfold successTimeout. reset_view.
  - unfold onicegatheringstatechange. page_cases; reset_view.
  - destruct e; reset_view.
  - unfold sendMessage. page_cases; reset_view.
  - unfold copyToClipboard. destruct written; reset_view.
  - apply (requestMediaPermissions_sameForReset engine s Hmedia).
  - unfold fetchDefaultIceServers. destruct reply; reset_view.
Qed.

Lemma run_sameForReset (events : list Event) (s : Session.t) :
  mediaConsistent s -> sameForReset s (run events s).
Proof.
  unfold run. revert s. induction events as [|e events IH]; intros s Hmedia.
  - simpl. unfold sameForReset. repeat split. exact Hmedia.
  - cbn [fold_left].
    destruct (step_sameForReset e s Hmedia) as (Hm & H1 & H2 & H3).
    destruct (IH (step s e) Hm) as (Hm' & H1' & H2' & H3').
    unfold sameForReset. rewrite H1', H2', H3', H1, H2, H3. repeat split.
    exact Hm'.
Qed.

(** X17. [reset] forgets the session: whatever events came before, it
    leaves the idle page with empty maps, an empty form and the single
    message "Reset connection", and keeps the ICE server configuration
    only.  So a reset after any sequence of candidate, signaling,
    initialization and reset events gives the same page as a reset at
    once, and resetting twice is resetting once. *)
Theorem reset_forgets_history (events : list PageEvent) (core : list Event)
  (s : Session.t) :
  (mediaConsistent s ->
   reset (pageRun events s)
   = freshPage (iceServers (pageRun events s))
               (iceServersLoading (pageRun events s))
               (usingCustomIceServers (pageRun events s)))
  /\ (mediaConsistent s -> reset (run core s) = reset s)
  /\ reset (reset s) = reset s.
Proof.
  split; [|split].
  - intros Hmedia. apply reset_freshPage.
    unfold pageRun. revert s Hmedia.
    induction events as [|e events IH]; intros s Hmedia; [exact Hmedia|].
    cbn [fold_left]. apply IH. apply pageStep_mediaConsistent. exact Hmedia.
  - intros Hmedia.
    destruct (run_sameForReset core s Hmedia) as (Hm & H1 & H2 & H3).
    rewrite (reset_freshPage _ Hm), (reset_freshPage _ Hmedia), H1, H2, H3.
    reflexivity.
  - apply reset_idempotent.
Qed.

Lemma reset_forgets_history_witness :
  reset (pageRun samplePageRun Session.initial)
  = freshPage fallbackServers false false
  /\ reset (run sampleEvents receiverReady) = reset receiverReady.
Proof.
  destruct (reset_forgets_history samplePageRun sampleEvents Session.initial)
    as (Hpage & _ & _).
  destruct (reset_forgets_history samplePageRun sampleEvents receiverReady)
    as (_ & Hcore & _).
  split.
  - rewrite Hpage; [vm_compute; reflexivity | reflexivity].
  - apply Hcore. reflexivity.
Defined.

(** ** Offer, answer and their timers *)

Lemma onicecandidate_peerConnection candidate s :
  peerConnection (onicecandidate candidate s) = peerConnection s.
Proof. unfold onicecandidate. page_cases; reflexivity. Qed.

(** Between [setLocalDescription] and the timer the connection stays,
    and its local description is the last one the browser wrote. *)
Lemma gather_localDescription events :
  forall s pc text,
    peerConnection s = Some pc ->
    PeerConnection.localDescription pc = Some text ->
    exists pc',
      peerConnection (gather events s) = Some pc'
      /\ PeerConnection.localDescription pc' = Some (currentText text events).
Proof.
  induction events as [|e events IH]; intros s pc text Hpc Hlocal.
  - exists pc. split; assumption.
  - destruct e as [candidate|rewritten]; simpl.
    + apply (IH _ pc text); [|exact Hlocal].
      rewrite onicecandidate_peerConnection. exact Hpc.
    + apply (IH _ (withLocalDescription rewritten pc) rewritten); [|reflexivity].
      unfold localDescriptionRewritten. rewrite Hpc, Hlocal. reflexivity.
Qed.

(** X18. When [createOffer] succeeds, its timer publishes the local
    description as the connection holds it when the timer fires: the
    text of the offer when the browser has not rewritten the
    description since, and otherwise the last text the browser wrote
    while gathering candidates.  The log gets the line "Offer ready".
    When the session is reset before the timer runs, the timer
    publishes nothing and changes nothing. *)
Theorem timer_publishes_current_description (engine : Engine.t) (s : Session.t)
  (pc : PeerConnection.t) (offer : string) (events : list Gathering) :
  peerConnection s = Some pc ->
  Engine.createOffer engine = Ok offer ->
  Engine.setLocalDescription engine = Ok tt ->
  let gathered := gather events (createOffer engine s) in
  localOffer (offerTimeout gathered) = currentText offer events
  /\ messages (offerTimeout gathered)
     = (messages gathered
        ++ [ sys "✅ Offer ready! Copy this and send it to the other peer" ])%list
  /\ offerTimeout (reset gathered) = reset gathered.
Proof.
  intros Hpc Hoffer Hset gathered.
  assert (Hcreated : peerConnection (createOffer engine s)
                     = Some (withLocalDescription offer pc)).
  { rewrite (createOffer_with_connection engine s pc offer Hpc Hoffer Hset).
    reflexivity. }
  destruct (gather_localDescription events (createOffer engine s)
              (withLocalDescription offer pc) offer Hcreated eq_refl)
    as (pc' & Hpc' & Hlocal).
  fold gathered in Hpc'. unfold offerTimeout.
  rewrite Hpc', Hlocal. repeat split.
Qed.

Lemma timer_publishes_current_description_witness :
  localOffer (offerTimeout (gather sampleGathering
                              (createOffer Engine.cooperative receiverReady)))
  = "offer with one candidate".
Proof.
  apply (timer_publishes_current_description Engine.cooperative receiverReady
           (PeerConnection.mk None None true) "offer" sampleGathering);
    reflexivity.
Defined.

(** X19. After [reset], the callbacks that a closed connection may
    still deliver are ignored when they are the two timers, the three
    phase handlers and the timer of the success report; a candidate that
    arrives late is recorded all the same: [onicecandidate] does not
    look for a connection. *)
Theorem late_callbacks_after_reset (s : Session.t) :
  offerTimeout (reset s) = reset s
  /\ answerTimeout (reset s) = reset s
  /\ (forall state poll, onconnectionstatechange state poll (reset s) = reset s)
  /\ (forall state poll, oniceconnectionstatechange state poll (reset s) = reset s)
  /\ (forall state, onicegatheringstatechange state (reset s) = reset s)
  /\ (forall poll, successTimeout poll (reset s) = reset s)
  /\ (forall c info,
        parseICECandidate c = Some info ->
        localCandidates (onicecandidate (Some c) (reset s))
        = [(RTCIceCandidate.foundation c, info)]).
Proof.
  repeat split; try reflexivity.
  intros c info Hparse. unfold onicecandidate. rewrite Hparse. reflexivity.
Qed.

Lemma late_callbacks_after_reset_witness :
  localCandidates (onicecandidate (Some hostCandidate1) (reset activeInitiator))
  = [(Some "1", infoOf hostCandidate1)].
Proof.
  apply (proj2 (proj2 (proj2 (proj2 (proj2 (proj2
           (late_callbacks_after_reset activeInitiator)))))) hostCandidate1).
  vm_compute. reflexivity.
Defined.

(** X20. [handleRemoteAnswer] is all or nothing: either it installs the
    parsed answer as remote description and the log ends with "Handshake
    complete", or the connection is left as it was and the log ends with
    one error message; no connection is reported before an empty text,
    an empty text before a text that does not parse. *)
Theorem handleRemoteAnswer_all_or_nothing (engine : Engine.t) (s : Session.t) :
  (exists pc answer,
     peerConnection s = Some pc
     /\ Engine.jsonParse engine = Ok answer
     /\ peerConnection (handleRemoteAnswer engine s)
        = Some (withRemoteDescription answer pc)
     /\ messages (handleRemoteAnswer engine s)
        = (messages s
           ++ [ sys "📨 Processing answer from peer...";
                sys "⚙️ Applying peer's response...";
                sys "✅ Handshake complete! Connection should establish now..." ])%list)
  \/ (peerConnection (handleRemoteAnswer engine s) = peerConnection s
      /\ exists middle errorMessage,
           messages (handleRemoteAnswer engine s)
           = (messages s
              ++ sys "📨 Processing answer from peer..." :: middle
              ++ [ err ("Error handling remote answer: " ++ errorMessage) ])%list
           /\ existsb isError middle = false
           /\ (peerConnection s = None ->
               errorMessage = "No peer connection available")
           /\ (peerConnection s <> None -> isBlank (remoteAnswer s) = true ->
               errorMessage = "No answer provided")).
Proof.
  unfold handleRemoteAnswer.
  destruct (peerConnection s) as [pc|] eqn:Epc.
  - destruct (isBlank (remoteAnswer s)) eqn:Eblank.
    + right. split; [exact Epc|]. exists [], "No answer provided".
      simpl. rewrite <- app_assoc. repeat split; try congruence.
    + destruct (Engine.jsonParse engine) as [answer|e] eqn:Eparse.
      * destruct (Engine.setRemoteDescription engine) as [u|e] eqn:Eset.
        -- left. exists pc, answer. simpl. rewrite <- !app_assoc.
           repeat split.
        -- right. split; [exact Epc|].
           exists [sys "⚙️ Applying peer's response..."], e.
           simpl. rewrite <- !app_assoc. repeat split; congruence.
      * right. split; [exact Epc|]. exists [], e.
        simpl. rewrite <- app_assoc. repeat split; congruence.
  - right. split; [exact Epc|]. exists [], "No peer connection available".
    simpl. rewrite <- app_assoc. repeat split; congruence.
Qed.

(** X21. [handleRemoteOffer] changes the local description only when
    every step succeeds: whenever it reports an error the local
    description is the one from before.  It is not all or nothing: when
    the remote description was set and the answer then fails, the remote
    description stays set. *)
Theorem handleRemoteOffer_local_description (engine : Engine.t) (s : Session.t) :
  (existsb isError (skipn (length (messages s))
                          (messages (handleRemoteOffer engine s))) = true ->
   localDescriptionOf (handleRemoteOffer engine s) = localDescriptionOf s)
  /\ (forall pc offer e,
        peerConnection s = Some pc ->
        isBlank (remoteOffer s) = false ->
        Engine.jsonParse engine = Ok offer ->
        Engine.setRemoteDescription engine = Ok tt ->
        Engine.createAnswer engine = Throws e ->
        remoteDescriptionOf (handleRemoteOffer engine s) = Some (Some offer)
        /\ localDescriptionOf (handleRemoteOffer engine s) = localDescriptionOf s
        /\ messages (handleRemoteOffer engine s)
           = (messages s
              ++ [ sys "📨 Processing connection offer from peer...";
                   sys "⚙️ Understanding peer's connection details...";
                   sys "📝 Creating response (answer)...";
                   err ("Error handling remote offer: " ++ e) ])%list).
Proof.
  split.
  - unfold handleRemoteOffer, localDescriptionOf.
    destruct (peerConnection s) as [pc|] eqn:Epc;
      [|intros _; simpl; now rewrite Epc].
    destruct (isBlank (remoteOffer s)); [intros _; simpl; now rewrite Epc|].
    destruct (Engine.jsonParse engine) as [offer|e];
      [|intros _; simpl; now rewrite Epc].
    destruct (Engine.setRemoteDescription engine) as [u|e];
      [|intros _; simpl; now rewrite Epc].
    destruct (Engine.createAnswer engine) as [answer|e];
      [|intros _; reflexivity].
    destruct (Engine.setLocalDescription engine) as [u'|e];
      [|intros _; reflexivity].
    simpl. rewrite <- !app_assoc, skipn_app, Nat.sub_diag, skipn_all.
    simpl. discriminate.
  - intros pc offer e Hpc Hblank Hparse Hset Hanswer.
    unfold handleRemoteOffer, remoteDescriptionOf, localDescriptionOf.
    rewrite Hpc, Hblank, Hparse, Hset, Hanswer. simpl.
    rewrite <- !app_assoc. repeat split.
Qed.

Lemma handleRemoteOffer_local_description_witness :
  remoteDescriptionOf (handleRemoteOffer answerFails receiverWithOffer)
  = Some (Some "remote")
  /\ localDescriptionOf (handleRemoteOffer answerFails receiverWithOffer)
     = localDescriptionOf receiverWithOffer.
Proof.
  destruct (proj2 (handleRemoteOffer_local_description answerFails receiverWithOffer)
              (PeerConnection.mk None None true) "remote" "createAnswer failed")
    as (Hremote & Hlocal & _); try reflexivity.
  split; assumption.
Defined.

(** X22. When the connection constructor throws, [initializeWebRTC]
    reports "Error initializing WebRTC" as its last message and keeps the
    connection, the role and the data channel of before; the three maps
    are emptied all the same, and a microphone stream that was granted
    on the way stays held. *)
Theorem initialize_constructor_failure
  (asInitiator : bool) (engine : Engine.t) (s : Session.t) (e : string) :
  Engine.construct engine = Throws e ->
  peerConnection (initializeWebRTC asInitiator engine s) = peerConnection s
  /\ isInitiator (initializeWebRTC asInitiator engine s) = isInitiator s
  /\ dataChannel (initializeWebRTC asInitiator engine s) = dataChannel s
  /\ localCandidates (initializeWebRTC asInitiator engine s) = JsMap.empty
  /\ (exists before,
        messages (initializeWebRTC asInitiator engine s)
        = (before ++ [err ("Error initializing WebRTC: " ++ e)])%list)
  /\ (mediaPermissionState s = perm_none ->
      (exists track, Engine.getUserMedia engine = Ok track) ->
      localStream (initializeWebRTC asInitiator engine s) = true
      /\ mediaPermissionState (initializeWebRTC asInitiator engine s)
         = perm_granted).
Proof.
  intros Hthrow.
  split; [|split; [|split; [|split; [apply initializeWebRTC_clears|split]]]].
  - unfold initializeWebRTC, requestMediaPermissions. rewrite Hthrow.
    destruct (mediaPermissionState s);
      destruct (Engine.getUserMedia engine) as [[|]|e']; reflexivity.
  - unfold initializeWebRTC, requestMediaPermissions. rewrite Hthrow.
    destruct (mediaPermissionState s);
      destruct (Engine.getUserMedia engine) as [[|]|e']; reflexivity.
  - unfold initializeWebRTC, requestMediaPermissions. rewrite Hthrow.
    destruct (mediaPermissionState s);
      destruct (Engine.getUserMedia engine) as [[|]|e']; reflexivity.
  - unfold initializeWebRTC, requestMediaPermissions. rewrite Hthrow.
    destruct (mediaPermissionState s);
      destruct (Engine.getUserMedia engine) as [[|]|e']; eexists; reflexivity.
  - intros Hnone [track Hmedia].
    unfold initializeWebRTC, requestMediaPermissions.
    rewrite Hthrow, Hnone, Hmedia. destruct track; split; reflexivity.
Qed.

Lemma initialize_constructor_failure_witness :
  peerConnection (initializeWebRTC true constructorFails loadedSession) = None
  /\ localStream (initializeWebRTC true constructorFails loadedSession) = true.
Proof.
  destruct (initialize_constructor_failure true constructorFails loadedSession
              "bad configuration" eq_refl)
    as (Hpc & _ & _ & _ & _ & Hmedia).
  split; [exact Hpc|].
  apply Hmedia; [reflexivity | exists true; reflexivity].
Defined.

(** ** The ICE server configuration *)

(** X23. [fetchDefaultIceServers] always ends with the loading flag
    off: on success the servers are those of the response, on any
    failure they are the three fallback STUN servers and the failure is
    logged as an error.  Either way the initialize buttons are then
    enabled unless a connection exists. *)
Theorem fetch_always_ends_loading (reply : Reply (list string)) (s : Session.t) :
  iceServersLoading (fetchDefaultIceServers reply s) = false
  /\ enabled InitializeAsInitiator (fetchDefaultIceServers reply s)
     = negb (connected s)
  /\ enabled InitializeAsReceiver (fetchDefaultIceServers reply s)
     = negb (connected s)
  /\ (forall servers,
        reply = Ok servers ->
        iceServers (fetchDefaultIceServers reply s) = servers
        /\ existsb isError
             (skipn (length (messages s))
                    (messages (fetchDefaultIceServers reply s))) = false)
  /\ (forall e,
        reply = Throws e ->
        iceServers (fetchDefaultIceServers reply s) = fallbackServers
        /\ messages (fetchDefaultIceServers reply s)
           = (messages s
              ++ [ sys "🌐 Loading default ICE servers...";
                   err ("⚠️ Failed to load default ICE servers: " ++ e);
                   sys "Using fallback STUN servers" ])%list).
Proof.
  unfold fetchDefaultIceServers, enabled, connected.
  destruct reply as [servers|e]; simpl;
    (split; [reflexivity|]);
    (split; [destruct (peerConnection s); reflexivity|]);
    (split; [destruct (peerConnection s); reflexivity|]);
    split; intros x Hx; try discriminate Hx; injection Hx as <-.
  - split; [reflexivity|].
    rewrite <- !app_assoc, skipn_app, Nat.sub_diag, skipn_all. reflexivity.
  - split; [reflexivity|]. rewrite <- !app_assoc. reflexivity.
Qed.

Lemma fetch_always_ends_loading_witness :
  iceServers (fetchDefaultIceServers (Throws "HTTP error! status: 500")
                                     Session.initial)
  = fallbackServers.
Proof.
  apply (proj1 (proj2 (proj2 (proj2 (proj2
           (fetch_always_ends_loading (Throws "HTTP error! status: 500")
                                      Session.initial))))
           "HTTP error! status: 500" eq_refl)).
Defined.

Lemma serverError_none_iff (nullError : string) (server : Json) :
  serverError nullError server = None <-> acceptsServer server = true.
Proof.
  unfold serverError, acceptsServer, property.
  destruct server as [|b|n|text|items|fields]; simpl;
    try (split; discriminate).
  destruct (find (fun field => String.eqb (fst field) "urls") fields)
    as [[key [|b|n|text|items|fields']]|]; simpl;
    try (split; discriminate).
  - destruct b; simpl; split; discriminate.
  - destruct (n =? 0); simpl; split; discriminate.
  - destruct (String.eqb text ""); simpl; split; congruence.
  - split; reflexivity.
Qed.

Lemma firstServerError_none_iff (nullError : string) (servers : list Json) :
  firstServerError nullError servers = None
  <-> forallb acceptsServer servers = true.
Proof.
  induction servers as [|server rest IH]; simpl; [split; reflexivity|].
  destruct (serverError nullError server) as [e|] eqn:Eerr.
  - split; [discriminate|]. intros Hall. apply andb_true_iff in Hall.
    destruct Hall as [Hs _]. apply (serverError_none_iff nullError) in Hs.
    congruence.
  - apply serverError_none_iff in Eerr. rewrite Eerr. simpl. exact IH.
Qed.

Lemma forEachIndexed_length {A : Type} (f : A -> nat -> list Message.t)
  (l : list A) :
  (forall x i, length (f x i) = 1%nat) ->
  length (forEachIndexed f l) = length l.
Proof.
  intros Hone. unfold forEachIndexed.
  generalize 0%nat. induction l as [|x l IH]; intros start; simpl;
    [reflexivity|].
  rewrite length_app, Hone, IH. reflexivity.
Qed.

(** X24. [applyCustomIceServers] applies the text of the form exactly
    when it is not blank, parses to an array, and every element is an
    object whose urls is a non-empty string or an array (an empty array
    of servers passes).  Applied, it closes the form without error,
    installs one entry per server, marks the configuration custom and
    logs one line and one more per server.  Otherwise it leaves the
    session untouched, servers and log included, and shows an error in
    the form. *)
Theorem applyCustomIceServers_all_or_nothing
  (parsed : Reply Json) (nullError : string) (form : IceForm.t) (s : Session.t) :
  (configAccepted parsed form = true ->
   exists servers,
     parsed = Ok (JArr servers)
     /\ fst (applyCustomIceServers parsed nullError form s)
        = IceForm.mk false (IceForm.customIceServersText form) ""
     /\ iceServers (snd (applyCustomIceServers parsed nullError form s))
        = map urlsText servers
     /\ usingCustomIceServers (snd (applyCustomIceServers parsed nullError form s))
        = true
     /\ length (messages (snd (applyCustomIceServers parsed nullError form s)))
        = (length (messages s) + 1 + length servers)%nat)
  /\ (configAccepted parsed form = false ->
      snd (applyCustomIceServers parsed nullError form s) = s
      /\ IceForm.customIceServersError
           (fst (applyCustomIceServers parsed nullError form s)) <> ""
      /\ IceForm.showCustomIceConfig
           (fst (applyCustomIceServers parsed nullError form s))
         = IceForm.showCustomIceConfig form).
Proof.
  unfold configAccepted, applyCustomIceServers.
  destruct (isBlank (IceForm.customIceServersText form)); simpl.
  { split; [discriminate|]. intros _. repeat split. discriminate. }
  destruct parsed as [[|b|n|text|servers|fields]|e]; simpl;
    try (split; [discriminate|]; intros _; repeat split; discriminate).
  destruct (firstServerError nullError servers) as [e|] eqn:Efirst.
  - assert (Hno : forallb acceptsServer servers = false).
    { destruct (forallb acceptsServer servers) eqn:Eall; [|reflexivity].
      apply (firstServerError_none_iff nullError) in Eall.
      rewrite Eall in Efirst.
      discriminate. }
    rewrite Hno. split; [discriminate|]. intros _. repeat split. discriminate.
  - apply (firstServerError_none_iff nullError) in Efirst. rewrite Efirst.
    split; [|discriminate]. intros _. exists servers.
    split; [reflexivity|]. split; [reflexivity|]. cbn [snd].
    split; [|split].
    + rewrite (proj1 (proj2 (proj2 (addMessages_media _ _)))). reflexivity.
    + rewrite (proj2 (proj2 (proj2 (proj2 (addMessages_media _ _))))).
      reflexivity.
    + rewrite addMessages_messages, length_app. simpl messages.
      rewrite length_app, forEachIndexed_length; [simpl; lia | reflexivity].
Qed.

Lemma applyCustomIceServers_all_or_nothing_witness :
  (exists servers,
     Ok (JArr sampleServers) = Ok (JArr servers)
     /\ fst (applyCustomIceServers (Ok (JArr sampleServers)) "null" sampleForm
                                   loadedSession)
        = IceForm.mk false (IceForm.customIceServersText sampleForm) ""
     /\ iceServers (snd (applyCustomIceServers (Ok (JArr sampleServers)) "null"
                                               sampleForm loadedSession))
        = map urlsText servers
     /\ usingCustomIceServers
          (snd (applyCustomIceServers (Ok (JArr sampleServers)) "null"
                                      sampleForm loadedSession))
        = true
     /\ length (messages (snd (applyCustomIceServers (Ok (JArr sampleServers))
                                 "null" sampleForm loadedSession)))
        = (length (messages loadedSession) + 1 + length servers)%nat)
  /\ snd (applyCustomIceServers (Ok (JObj [("urls", JStr "stun:x")])) "null"
                                sampleForm loadedSession)
     = loadedSession.
Proof.
  split.
  - apply (proj1 (applyCustomIceServers_all_or_nothing
                    (Ok (JArr sampleServers)) "null" sampleForm loadedSession)).
    reflexivity.
  - apply (proj2 (applyCustomIceServers_all_or_nothing
                    (Ok (JObj [("urls", JStr "stun:x")])) "null" sampleForm
                    loadedSession)).
    reflexivity.
Defined.

(** ** The message input *)


(** The no-break space is white space for [trim]: a text made of it is
    not sent, whatever the channel. *)
Example no_break_space_not_sent (s : Session.t) :
  isBlank noBreakSpace = true
  /\ sendMessage "open" noBreakSpace s = (s, noBreakSpace, None).
Proof.
  split; [reflexivity|].
  unfold sendMessage. destruct (dataChannel s); reflexivity.
Qed.

(** The white space of [trim] beyond ASCII: U+00A0, U+1680, U+2000,
    U+200A, U+2028, U+2029, U+202F, U+205F, U+3000 and U+FEFF are
    blank; U+0085, U+200B and a letter with an accent are not. *)
Example isBlank_beyond_ascii :
  map isBlank [ utf8 [194; 160]; utf8 [225; 154; 128]; utf8 [226; 128; 128];
                utf8 [226; 128; 138]; utf8 [226; 128; 168];
                utf8 [226; 128; 169]; utf8 [226; 128; 175];
                utf8 [226; 129; 159]; utf8 [227; 128; 128];
                utf8 [239; 187; 191]; utf8 [32; 194; 160; 9] ]%nat
  = [ true; true; true; true; true; true; true; true; true; true; true ]
  /\ map isBlank [ utf8 [194; 133]; utf8 [226; 128; 139]; utf8 [195; 169];
                   utf8 [32; 194; 160; 97] ]%nat
     = [ false; false; false; false ].
Proof. split; reflexivity. Qed.
